(** * ptdump: the packet dump engine of processor-trace

    A shallow embedding of [ptdump/src/ptdump.c]: the column width
    calculator, the quiet-gated print helper, the synchronize / decode /
    render loop of [dump] and the argument loop of [main], followed by the
    properties of the dump engine.

    C integers are modelled as [Z]; conversions to [unsigned] are written
    out with [to_unsigned].  The decoder, the last-IP tracker and the
    payload printer live in libipt (not part of [ptdump.c]); they are the
    fields of the [Libipt] class and every definition is parametric in it. *)

From Stdlib Require Import ZArith List String Ascii Bool Lia.
Import ListNotations.

Local Open Scope string_scope.
Local Open Scope list_scope.
Local Open Scope Z_scope.

Infix "+++" := String.append (right associativity, at level 60).

(** ** Option flags ([enum pt_dump_flag], [struct ptdump_options]) *)

Definition ptd_show_offset : Z := Z.shiftl 1 0.
Definition ptd_show_raw_bytes : Z := Z.shiftl 1 1.
Definition ptd_show_last_ip : Z := Z.shiftl 1 2.
Definition ptd_fixed_offset_width : Z := Z.shiftl 1 3.
Definition ptd_use_cpu : Z := Z.shiftl 1 4.
Definition ptd_quiet : Z := Z.shiftl 1 5.
Definition ptd_no_pad : Z := Z.shiftl 1 6.

(** [flags & f], read as a C truth value. *)
Definition has_flag (flags f : Z) : bool := negb (Z.land flags f =? 0).

(** [flags |= f] and [flags &= ~f] on the 32-bit flag word. *)
Definition set_flag (flags f : Z) : Z := Z.lor flags f.
Definition clear_flag (flags f : Z) : Z := Z.land flags (Z.lxor f (Z.ones 32)).

(** ** Column width calculator *)

(** The loop of [calc_col_offset_width]: [idx] counts down from its start
    value; the loop leaves at the first set bit or at [idx = 0]. *)
Fixpoint calc_col_offset_idx (idx : nat) (highest_val : Z) : Z :=
  match idx with
  | O => 0
  | S idx' =>
      if has_flag highest_val (Z.shiftl 1 (Z.of_nat idx))
      then Z.of_nat idx
      else calc_col_offset_idx idx' highest_val
  end.

Definition calc_col_offset_width (highest_val : Z) : Z :=
  1 + calc_col_offset_idx 63 highest_val / 4.

(** ** The interface to libipt

    [ptdump.c] includes [intel-pt.h], [pt_last_ip.h], [pt_print.h] and
    [pt_cpu.h]; none of them is part of [ptdump.c].  What [ptdump.c] uses
    of them is collected here.  Status codes are C [int]s: zero or positive on
    success, the negated error code on failure. *)

(** Modelled from the spec: [enum pt_packet_type] is declared in
    [intel-pt.h]; the spec's packet type is one of a fixed enumeration with
    PAD, the address-carrying TIP, TIP.PGE, TIP.PGD and FUP, and others that
    [dump] does not tell apart. *)
Inductive pt_packet_type : Type :=
| ppt_pad
| ppt_tip
| ppt_tip_pge
| ppt_tip_pgd
| ppt_fup
| ppt_other (tag : Z).

(** Modelled from the spec: [struct pt_packet] is declared in
    [intel-pt.h]; the spec's packet has a type discriminant, a byte length
    and a type-specific payload. *)
Record pt_packet (payload_t : Type) : Type := mk_packet {
  type : pt_packet_type;
  size : Z;
  payload : payload_t
}.
Arguments mk_packet {payload_t}.
Arguments type {payload_t}.
Arguments size {payload_t}.
Arguments payload {payload_t}.

(** Modelled from the spec: [struct pt_config] is declared in
    [intel-pt.h]; it is restricted here to the fields [dump] assigns,
    [begin]/[end] (the trace buffer between them) and [cpu]. *)
Record pt_config (cpu_t : Type) : Type := mk_config {
  cfg_buffer : list Z;
  cfg_cpu : cpu_t
}.
Arguments mk_config {cpu_t}.
Arguments cfg_buffer {cpu_t}.
Arguments cfg_cpu {cpu_t}.

Class Libipt : Type := {
  (* enum pt_error_code *)
  pte_ok : Z;
  pte_internal : Z;
  pte_invalid : Z;
  pte_bad_packet : Z;
  pte_eos : Z;
  pte_nomem : Z;
  pte_noip : Z;
  pte_ip_suppressed : Z;
  (* the error code of a status *)
  pt_errcode : Z -> Z;

  (* struct pt_cpu and its all-zero value *)
  pt_cpu : Type;
  cpu_zero : pt_cpu;
  pt_cpu_parse : string -> Z * pt_cpu;

  (* the payload union, its [ip] member, and the all-zero packet *)
  pt_packet_payload : Type;
  pt_packet_ip : Type;
  payload_ip : pt_packet_payload -> pt_packet_ip;
  packet_zero : pt_packet pt_packet_payload;

  (* configuration *)
  pt_configure : pt_config pt_cpu -> pt_config pt_cpu;

  (* the packet decoder *)
  pt_packet_decoder : Type;
  pt_pkt_alloc_decoder : pt_config pt_cpu -> option pt_packet_decoder;
  pt_pkt_sync_forward : pt_packet_decoder -> Z * pt_packet_decoder;
  (* status and, on success, the offset stored through the pointer *)
  pt_pkt_get_offset : pt_packet_decoder -> Z * Z;
  (* status, the packet stored through the pointer, the decoder after *)
  pt_pkt_next :
    pt_packet_decoder -> Z * pt_packet pt_packet_payload * pt_packet_decoder;
  (* the memory from the returned pointer onwards *)
  pt_pkt_get_pos : pt_packet_decoder -> list Z;

  (* last-IP tracking *)
  pt_last_ip : Type;
  pt_last_ip_init : pt_last_ip;
  pt_last_ip_update_ip :
    pt_last_ip -> pt_packet_ip -> pt_config pt_cpu -> Z * pt_last_ip;
  (* status and, on success, the ip stored through the pointer *)
  pt_last_ip_query : pt_last_ip -> Z * Z;

  (* packet printing: the type name; status and buffer of the payload *)
  pt_print_packet_type_str : pt_packet pt_packet_payload -> string;
  pt_print_fill_payload_str : pt_packet pt_packet_payload -> Z * string
}.

Definition packet `{Libipt} : Type := pt_packet pt_packet_payload.
Definition config_t `{Libipt} : Type := pt_config pt_cpu.

(** [struct ptdump_options]. *)
Record ptdump_options `{Libipt} : Type := mk_options {
  flags : Z;
  cpu : pt_cpu
}.
Arguments mk_options {_}.

(** ** Output streams

    [stdout] is the text written so far.  [vprintf] may fail; which calls
    fail is the list [w_faults], one entry per call, consumed front to
    back ([true] is a failing call; past its end every call succeeds).
    [stderr] is kept as the list of diagnostics, one per [diag*] call. *)

Inductive diag_line : Type :=
| Diag (msg : string)
| DiagPos (msg : string) (pos : Z)
| DiagErr (msg : string) (err : Z)
| DiagErrPos (msg : string) (err : Z) (pos : Z).

Record world : Type := mk_world {
  w_stdout : string;
  w_stderr : list diag_line;
  w_faults : list bool
}.

Definition strlen (s : string) : Z := Z.of_nat (String.length s).

(** [vprintf] with the text its format and arguments expand to: the number
    of characters written, or a negative value when the write fails. *)
Definition vprintf (text : string) (w : world) : Z * world :=
  match w_faults w with
  | true :: fs => (-1, mk_world (w_stdout w) (w_stderr w) fs)
  | false :: fs => (strlen text, mk_world (w_stdout w +++ text) (w_stderr w) fs)
  | [] => (strlen text, mk_world (w_stdout w +++ text) (w_stderr w) [])
  end.

Definition fprintf_stderr (d : diag_line) (w : world) : world :=
  mk_world (w_stdout w) (w_stderr w ++ [d]) (w_faults w).

(** *** printf conversions *)

Definition hex_digit (d : Z) : ascii :=
  match String.get (Z.to_nat d) "0123456789abcdef" with
  | Some c => c
  | None => "0"%char
  end.

(** The digits of [v] in base 16, most significant first, in front of
    [acc]; [fuel] bounds the number of digits (16 for a 64-bit value). *)
Fixpoint hex_digits (fuel : nat) (v : Z) (acc : string) : string :=
  match fuel with
  | O => acc
  | S fuel' =>
      let acc' := String (hex_digit (v mod 16)) acc in
      if v / 16 =? 0 then acc' else hex_digits fuel' (v / 16) acc'
  end.

Fixpoint replicate (n : nat) (c : ascii) : string :=
  match n with
  | O => EmptyString
  | S n' => String c (replicate n' c)
  end.

(** Right-justify [s] in a field of [width] characters filled with [c]. *)
Definition pad_left (c : ascii) (width : Z) (s : string) : string :=
  replicate (Z.to_nat (width - strlen s)) c +++ s.

(** ["%" PRIx64] *)
Definition fmt_x (v : Z) : string := hex_digits 16 v "".
(** ["%0*" PRIx64] *)
Definition fmt_0star_x (width v : Z) : string := pad_left "0" width (fmt_x v).
(** ["%02x"] *)
Definition fmt_02x (v : Z) : string := pad_left "0" 2 (fmt_x v).
(** [", ip=0x%016" PRIx64] *)
Definition fmt_ip (ip : Z) : string := ", ip=0x" +++ pad_left "0" 16 (fmt_x ip).
(** ["%*c"] *)
Definition fmt_star_c (width : Z) (c : ascii) : string :=
  pad_left " " width (String c "").

(** Conversion of an [int] to [unsigned]. *)
Definition to_unsigned (z : Z) : Z := z mod 2 ^ 32.

(** ** The print helper *)

Definition print `{Libipt} (options : ptdump_options) (text : string)
    (w : world) : Z * world :=
  if has_flag (flags options) ptd_quiet then (0, w)
  else
    let (ret, w') := vprintf text w in
    if ret <=? 0 then (- pte_internal, w') else (ret, w').

(** ** The state of [dump]

    The labels of [dump]: [sync], the head of the [for (;;)] loop and
    [out].  [L_out] remembers which [goto out] was taken. *)

Inductive exit_path : Type :=
| exit_sync_error
| exit_offset_error
| exit_eos.

Inductive label : Type :=
| L_sync
| L_loop
| L_out (via : exit_path).

(** The locals of [dump] that live across statements, and the streams.
    [ret] is assigned immediately before each of its uses and is bound
    locally instead. *)
Record dump_state `{Libipt} : Type := mk_state {
  pc : label;
  errcode : Z;
  decoder : pt_packet_decoder;
  last_ip : pt_last_ip;
  pkt : packet;
  str : string;
  pos : Z;
  col_offset_width_used : Z;
  col_packettype_width_used : Z;
  col_payload_width_used : Z;
  io : world
}.
Arguments mk_state {_}.

Section Setters.
Context `{Libipt}.

Definition set_pc (l : label) (s : dump_state) : dump_state :=
  mk_state l (errcode s) (decoder s) (last_ip s) (pkt s) (str s) (pos s)
    (col_offset_width_used s) (col_packettype_width_used s)
    (col_payload_width_used s) (io s).
Definition set_errcode (e : Z) (s : dump_state) : dump_state :=
  mk_state (pc s) e (decoder s) (last_ip s) (pkt s) (str s) (pos s)
    (col_offset_width_used s) (col_packettype_width_used s)
    (col_payload_width_used s) (io s).
Definition set_decoder (d : pt_packet_decoder) (s : dump_state) : dump_state :=
  mk_state (pc s) (errcode s) d (last_ip s) (pkt s) (str s) (pos s)
    (col_offset_width_used s) (col_packettype_width_used s)
    (col_payload_width_used s) (io s).
Definition set_last_ip (li : pt_last_ip) (s : dump_state) : dump_state :=
  mk_state (pc s) (errcode s) (decoder s) li (pkt s) (str s) (pos s)
    (col_offset_width_used s) (col_packettype_width_used s)
    (col_payload_width_used s) (io s).
Definition set_pkt (p : packet) (s : dump_state) : dump_state :=
  mk_state (pc s) (errcode s) (decoder s) (last_ip s) p (str s) (pos s)
    (col_offset_width_used s) (col_packettype_width_used s)
    (col_payload_width_used s) (io s).
Definition set_str (t : string) (s : dump_state) : dump_state :=
  mk_state (pc s) (errcode s) (decoder s) (last_ip s) (pkt s) t (pos s)
    (col_offset_width_used s) (col_packettype_width_used s)
    (col_payload_width_used s) (io s).
Definition set_pos (p : Z) (s : dump_state) : dump_state :=
  mk_state (pc s) (errcode s) (decoder s) (last_ip s) (pkt s) (str s) p
    (col_offset_width_used s) (col_packettype_width_used s)
    (col_payload_width_used s) (io s).
Definition set_col_offset_width_used (n : Z) (s : dump_state) : dump_state :=
  mk_state (pc s) (errcode s) (decoder s) (last_ip s) (pkt s) (str s) (pos s)
    n (col_packettype_width_used s) (col_payload_width_used s) (io s).
Definition set_col_packettype_width_used (n : Z) (s : dump_state)
  : dump_state :=
  mk_state (pc s) (errcode s) (decoder s) (last_ip s) (pkt s) (str s) (pos s)
    (col_offset_width_used s) n (col_payload_width_used s) (io s).
Definition set_col_payload_width_used (n : Z) (s : dump_state) : dump_state :=
  mk_state (pc s) (errcode s) (decoder s) (last_ip s) (pkt s) (str s) (pos s)
    (col_offset_width_used s) (col_packettype_width_used s) n (io s).
Definition set_io (w : world) (s : dump_state) : dump_state :=
  mk_state (pc s) (errcode s) (decoder s) (last_ip s) (pkt s) (str s) (pos s)
    (col_offset_width_used s) (col_packettype_width_used s)
    (col_payload_width_used s) w.
End Setters.

(** ** Statements

    A statement either falls through to the next one ([Next]) or leaves
    by a jump ([Jump]: a [goto] or [continue], the target is in [pc]);
    what follows a jump in sequence is not run. *)

Inductive outcome `{Libipt} (A : Type) : Type :=
| Next (a : A) (s : dump_state)
| Jump (s : dump_state).
Arguments Next {_ A}.
Arguments Jump {_ A}.

Definition stmt `{Libipt} (A : Type) : Type := dump_state -> outcome A.

Section Statements.
Context `{Libipt}.

Definition ret {A} (a : A) : stmt A := fun s => Next a s.

Definition bind {A B} (m : stmt A) (k : A -> stmt B) : stmt B :=
  fun s =>
    match m s with
    | Next a s' => k a s'
    | Jump s' => Jump s'
    end.

Definition goto {A} (l : label) : stmt A := fun s => Jump (set_pc l s).

Definition gets {A} (f : dump_state -> A) : stmt A := fun s => Next (f s) s.

Definition assign (f : dump_state -> dump_state) : stmt unit :=
  fun s => Next tt (f s).

(** The state a statement leaves, whichever way it ends. *)
Definition after {A} (o : outcome A) : dump_state :=
  match o with
  | Next _ s => s
  | Jump s => s
  end.
End Statements.

Notation "x <- m ;; k" := (bind m (fun x => k))
  (at level 61, m at next level, right associativity).
Notation "m ;; k" := (bind m (fun _ => k))
  (at level 61, right associativity).

(** ** The dump engine *)

Definition is_ip_packet (t : pt_packet_type) : bool :=
  match t with
  | ppt_tip | ppt_tip_pge | ppt_tip_pgd | ppt_fup => true
  | _ => false
  end.

Definition is_pad (t : pt_packet_type) : bool :=
  match t with
  | ppt_pad => true
  | _ => false
  end.

Definition col_offset_width_fixed : Z := 16.
Definition col_packettype_width : Z := 9.
Definition col_payload_width : Z := 47.

Section Dump.
Context `{Libipt}.
Variable options : ptdump_options.
Variable config : config_t.
Variable col_offset_width : Z.

(** A call of [print] on the engine's output. *)
Definition do_print (text : string) : stmt Z :=
  fun s => let (r, w) := print options text (io s) in Next r (set_io w s).

Definition print_col_separator : stmt unit :=
  do_print "  " ;; ret tt.

Definition fillup_column (actual_width col_width : Z) : stmt unit :=
  if actual_width >=? col_width then ret tt
  else do_print (fmt_star_c (col_width - actual_width) " ") ;; ret tt.

Definition diag (msg : string) : stmt unit :=
  assign (fun s => set_io (fprintf_stderr (Diag msg) (io s)) s).
Definition diag_pos (msg : string) (p : Z) : stmt unit :=
  assign (fun s => set_io (fprintf_stderr (DiagPos msg p) (io s)) s).
Definition diag_err (msg : string) (err : Z) : stmt unit :=
  assign (fun s => set_io (fprintf_stderr (DiagErr msg err) (io s)) s).
Definition diag_err_pos (msg : string) (err p : Z) : stmt unit :=
  assign (fun s => set_io (fprintf_stderr (DiagErrPos msg err p) (io s)) s).

(** [sync:] up to the loop head. *)
Definition sync : stmt unit :=
  d <- gets decoder ;;
  let (e, d') := pt_pkt_sync_forward d in
  assign (set_decoder d') ;;
  assign (set_errcode e) ;;
  if e <? 0 then
    let (errcode2, offset) := pt_pkt_get_offset d' in
    (if errcode2 <? 0 then
       diag_err "sync error" (pt_errcode e) ;;
       diag_err "could not determine offset" (pt_errcode errcode2)
     else
       diag_err_pos "sync error" (pt_errcode e) offset) ;;
    goto (L_out exit_sync_error)
  else
    assign (set_last_ip pt_last_ip_init) ;;
    ret tt.

(** Decode packet: the offset query, [pt_pkt_next] and the size check. *)
Definition decode_packet : stmt unit :=
  d <- gets decoder ;;
  let (e, offset) := pt_pkt_get_offset d in
  assign (set_errcode e) ;;
  if e <? 0 then
    diag_err "determining offset failed" (pt_errcode e) ;;
    goto (L_out exit_offset_error)
  else
    assign (set_pos offset) ;;
    let '(r, p, d') := pt_pkt_next d in
    assign (set_decoder d') ;;
    assign (set_pkt p) ;;
    if pt_errcode r =? pte_eos then goto (L_out exit_eos)
    else if negb (pt_errcode r =? pte_ok) then
      diag_err_pos "packet decoding failed" (pt_errcode r) offset ;;
      assign (set_errcode r) ;;
      goto L_sync
    else if size p =? 0 then
      diag_pos "packet decoding failed, packet size is reported to be 0"
        offset ;;
      assign (set_errcode (- pte_bad_packet)) ;;
      goto L_sync
    else ret tt.

(** Skip PAD packets if requested. *)
Definition skip_pad : stmt unit :=
  p <- gets pkt ;;
  if is_pad (type p) && has_flag (flags options) ptd_no_pad
  then goto L_loop
  else ret tt.

(** Print stream offset. *)
Definition print_offset : stmt unit :=
  if has_flag (flags options) ptd_show_offset then
    p <- gets pos ;;
    r <- do_print (fmt_0star_x col_offset_width p) ;;
    if r <? 0 then
      diag_pos "cannot print offset" p ;;
      assign (set_errcode (- pte_internal)) ;;
      goto L_sync
    else
      assign (set_col_offset_width_used (to_unsigned r)) ;;
      used <- gets col_offset_width_used ;;
      fillup_column used col_offset_width ;;
      print_col_separator
  else ret tt.

(** Print packet type. *)
Definition print_packet_type : stmt unit :=
  p <- gets pkt ;;
  r <- do_print (pt_print_packet_type_str p) ;;
  if r <? 0 then
    q <- gets pos ;;
    diag_pos "cannot print packet type" q ;;
    assign (set_errcode (- pte_internal)) ;;
    goto L_sync
  else
    assign (set_col_packettype_width_used (to_unsigned r)).

(** Print the packet payload. *)
Definition print_payload : stmt unit :=
  p <- gets pkt ;;
  let (r, text) := pt_print_fill_payload_str p in
  assign (set_str text) ;;
  if r <? 0 then
    q <- gets pos ;;
    diag_pos "cannot print packet payload" q ;;
    assign (set_errcode (- pte_internal)) ;;
    goto L_sync
  else
    (if 0 <? r then
       used <- gets col_packettype_width_used ;;
       fillup_column used col_packettype_width ;;
       print_col_separator
     else ret tt) ;;
    t <- gets str ;;
    n <- do_print t ;;
    assign (set_col_payload_width_used (to_unsigned n)).

(** Print last IP if requested and if packet type is an IP packet.
    [goto skip_last_ip_printing] ends the block. *)
Definition print_last_ip : stmt unit :=
  if has_flag (flags options) ptd_show_last_ip then
    p <- gets pkt ;;
    q <- gets pos ;;
    if is_ip_packet (type p) then
      li <- gets last_ip ;;
      let (r, li') := pt_last_ip_update_ip li (payload_ip (payload p)) config in
      assign (set_last_ip li') ;;
      if r =? - pte_invalid then
        diag_err_pos "failed to update last-IP" pte_invalid q ;;
        assign (set_errcode (- pte_internal)) ;;
        goto L_sync
      else if r =? - pte_bad_packet then
        diag_err_pos "failed to update last-IP" pte_bad_packet q ;;
        assign (set_errcode (- pte_bad_packet)) ;;
        goto L_sync
      else if r =? - pte_noip then ret tt
      else
        let (r, ip) := pt_last_ip_query li' in
        if r =? - pte_invalid then
          diag_err_pos "cannot query last-IP" pte_invalid q ;;
          assign (set_errcode (- pte_internal)) ;;
          goto L_sync
        else if r =? - pte_noip then ret tt
        else
          r <- (if r =? - pte_ip_suppressed then do_print ", ip=<suppressed>"
                else if r =? 0 then do_print (fmt_ip ip)
                else ret r) ;;
          if r <? 0 then
            diag_pos "cannot print last-IP" q ;;
            assign (set_errcode (- pte_internal)) ;;
            goto L_sync
          else
            used <- gets col_payload_width_used ;;
            assign (set_col_payload_width_used (to_unsigned (used + r)))
    else ret tt
  else ret tt.

(** The byte [*(pt_pkt_get_pos(decoder) + idx)], read into a [uint8_t]. *)
Definition packet_byte (d : pt_packet_decoder) (idx : Z) : Z :=
  nth (Z.to_nat idx) (pt_pkt_get_pos d) 0 mod 256.

(** The [for (idx = 0; idx < packet.size; ++idx)] loop, [n] iterations
    from [idx] on. *)
Fixpoint print_raw_loop (n : nat) (idx : Z) : stmt unit :=
  match n with
  | O => ret tt
  | S n' =>
      d <- gets decoder ;;
      p <- gets pkt ;;
      do_print (fmt_02x (packet_byte d idx)) ;;
      (if negb (idx =? size p - 1) then do_print " " ;; ret tt
       else ret tt) ;;
      print_raw_loop n' (idx + 1)
  end.

(** The bracketed bytes: the opening bracket, the loop, the closing
    bracket. *)
Definition print_raw_column : stmt unit :=
  p <- gets pkt ;;
  do_print "[" ;;
  print_raw_loop (Z.to_nat (size p)) 0 ;;
  do_print "]" ;;
  ret tt.

(** Print raw packet bytes. *)
Definition print_raw_bytes : stmt unit :=
  if has_flag (flags options) ptd_show_raw_bytes then
    used <- gets col_payload_width_used ;;
    (if used =? 0 then
       tused <- gets col_packettype_width_used ;;
       fillup_column tused col_packettype_width ;;
       print_col_separator
     else ret tt) ;;
    fillup_column used col_payload_width ;;
    print_col_separator ;;
    print_raw_column
  else ret tt.

(** End of information printing for this packet. *)
Definition print_newline : stmt unit :=
  do_print (String "010"%char "") ;; ret tt.

(** The rendering of one decoded packet, offset column to newline. *)
Definition render_packet : stmt unit :=
  print_offset ;;
  print_packet_type ;;
  print_payload ;;
  print_last_ip ;;
  print_raw_bytes ;;
  print_newline.

(** One turn of the [for (;;)] loop. *)
Definition loop_body : stmt unit :=
  decode_packet ;;
  skip_pad ;;
  render_packet.

(** One step of [dump]: from [sync] to the loop head, or once around
    the loop.  Falling off the end of either leads to the loop head. *)
Definition step (s : dump_state) : dump_state :=
  match pc s with
  | L_sync => after (bind sync (fun _ => goto (A:=unit) L_loop) s)
  | L_loop => after (bind loop_body (fun _ => goto (A:=unit) L_loop) s)
  | L_out _ => s
  end.

(** Run until [out:] is reached, for at most [fuel] steps. *)
Fixpoint run (fuel : nat) (s : dump_state) : option dump_state :=
  match pc s with
  | L_out _ => Some s
  | _ =>
      match fuel with
      | O => None
      | S fuel' => run fuel' (step s)
      end
  end.
End Dump.

(** ** [dump] *)

(** The locals of [dump] that are declared without an initialiser hold
    indeterminate values on entry. *)
Record indeterminate `{Libipt} : Type := mk_indeterminate {
  junk_last_ip : pt_last_ip;
  junk_str : string;
  junk_pos : Z
}.
Arguments mk_indeterminate {_}.

Section DumpEntry.
Context `{Libipt}.

Definition dump_col_offset_width (buffer : list Z)
    (options : ptdump_options) : Z :=
  if has_flag (flags options) ptd_fixed_offset_width
  then col_offset_width_fixed
  else calc_col_offset_width (Z.of_nat (List.length buffer)).

(** [memset], [pt_configure], [begin]/[end] and the cpu override. *)
Definition dump_config (buffer : list Z) (options : ptdump_options)
  : config_t :=
  let config := pt_configure (mk_config [] cpu_zero) in
  let config := mk_config buffer (cfg_cpu config) in
  if has_flag (flags options) ptd_use_cpu
  then mk_config (cfg_buffer config) (cpu options)
  else config.

(** The state in which [sync:] is reached for the first time. *)
Definition dump_entry (junk : indeterminate) (d : pt_packet_decoder)
    (w : world) : dump_state :=
  mk_state L_sync 0 d (junk_last_ip junk) packet_zero (junk_str junk)
    (junk_pos junk) 0 0 0 w.

(** The run of the engine from the first [sync:] on. *)
Definition dump_run (fuel : nat) (junk : indeterminate) (buffer : list Z)
    (options : ptdump_options) (d : pt_packet_decoder) (w : world)
  : option dump_state :=
  run options (dump_config buffer options)
    (dump_col_offset_width buffer options) fuel (dump_entry junk d w).

(** [dump(begin, end, options)]: the value returned and the streams;
    [None] when [fuel] steps do not reach [out:]. *)
Definition dump (fuel : nat) (junk : indeterminate) (buffer : list Z)
    (options : ptdump_options) (w : world) : option (Z * world) :=
  match pt_pkt_alloc_decoder (dump_config buffer options) with
  | None =>
      Some (- pte_nomem, fprintf_stderr (Diag "cannot allocate decoder") w)
  | Some d =>
      match dump_run fuel junk buffer options d w with
      | Some s => Some (errcode s, io s)
      | None => None
      end
  end.
End DumpEntry.

(** ** [main] *)

(** The text [main] prints before it returns early. *)
Inductive main_message : Type :=
| msg_usage
| msg_help
| msg_version
| msg_cpu
| msg_no_file.

(** How the argument loop of [main] ends: a [return], the options and the
    trace file, or a string function applied to [argv[idx]] at an [idx]
    that holds no argument. *)
Inductive args_result `{Libipt} : Type :=
| args_return (code : Z) (m : main_message)
| args_file (options : ptdump_options) (ptfile : string)
| args_missing (idx : Z).

Section Main.
Context `{Libipt}.

Definition argv_at (argv : list string) (idx : Z) : option string :=
  nth_error argv (Z.to_nat idx).

Definition with_flags (f : Z) (options : ptdump_options) : ptdump_options :=
  mk_options f (cpu options).
Definition with_cpu (c : pt_cpu) (options : ptdump_options) : ptdump_options :=
  mk_options (flags options) c.

(** The [for (idx = 1; idx < argc; ++idx)] loop and the [ptfile] check
    after it; [fuel] bounds the number of turns. *)
Fixpoint arg_loop (fuel : nat) (argv : list string) (idx : Z)
    (options : ptdump_options) : option args_result :=
  let argc := Z.of_nat (List.length argv) in
  if idx <? argc then
    match fuel with
    | O => None
    | S fuel' =>
        match argv_at argv idx with
        | None => Some (args_missing idx)
        | Some a =>
            if negb (String.prefix "-" a) then
              if idx <? argc - 1 then Some (args_return (-1) msg_usage)
              else Some (args_file options a)
            else if String.eqb a "-h" then Some (args_return 0 msg_help)
            else if String.eqb a "--help" then Some (args_return 0 msg_help)
            else if String.eqb a "--version" then
              Some (args_return 0 msg_version)
            else if String.eqb a "--quiet" then
              arg_loop fuel' argv (idx + 1)
                (with_flags (set_flag (flags options) ptd_quiet) options)
            else if String.eqb a "--no-pad" then
              arg_loop fuel' argv (idx + 1)
                (with_flags (set_flag (flags options) ptd_no_pad) options)
            else if String.eqb a "--no-offset" then
              arg_loop fuel' argv (idx + 1)
                (with_flags (clear_flag (flags options) ptd_show_offset)
                   options)
            else if String.eqb a "--raw" then
              arg_loop fuel' argv (idx + 1)
                (with_flags (set_flag (flags options) ptd_show_raw_bytes)
                   options)
            else if String.eqb a "--lastip" then
              arg_loop fuel' argv (idx + 1)
                (with_flags (set_flag (flags options) ptd_show_last_ip)
                   options)
            else if String.eqb a "--fixed-offset-width" then
              arg_loop fuel' argv (idx + 1)
                (with_flags (set_flag (flags options) ptd_fixed_offset_width)
                   options)
            else if String.eqb a "--cpu" then
              let idx := idx + 1 in
              match argv_at argv idx with
              | None => Some (args_missing idx)
              | Some arg =>
                  if String.eqb arg "auto" then
                    arg_loop fuel' argv (idx + 1)
                      (with_flags (clear_flag (flags options) ptd_use_cpu)
                         options)
                  else
                    let options :=
                      with_flags (set_flag (flags options) ptd_use_cpu)
                        options in
                    if String.eqb arg "none" then
                      arg_loop fuel' argv (idx + 1) (with_cpu cpu_zero options)
                    else
                      let (e, c) := pt_cpu_parse arg in
                      if e <? 0 then Some (args_return 1 msg_cpu)
                      else arg_loop fuel' argv (idx + 1) (with_cpu c options)
              end
            else Some (args_return (-1) msg_usage)
        end
    end
  else Some (args_return (-1) msg_no_file).

(** The options [main] starts from: zeroed, then [ptd_show_offset] and
    [ptd_use_cpu]. *)
Definition default_options : ptdump_options :=
  mk_options (set_flag (set_flag 0 ptd_show_offset) ptd_use_cpu) cpu_zero.

Definition parse_args (argv : list string) : option args_result :=
  arg_loop (List.length argv) argv 1 default_options.

(** What a run of [main] amounts to. *)
Inductive main_result : Type :=
| main_returns (code : Z) (w : world)
| main_undefined (idx : Z).

(** [main]; [map_pt] is the file system as [main] sees it: the bytes of
    the named file, or [None] for the null pointer. *)
Definition main (fuel : nat) (junk : indeterminate)
    (map_pt : string -> option (list Z)) (argv : list string) (w : world)
  : option main_result :=
  match parse_args argv with
  | None => None
  | Some (args_return code _) => Some (main_returns code w)
  | Some (args_missing idx) => Some (main_undefined idx)
  | Some (args_file options ptfile) =>
      match map_pt ptfile with
      | None =>
          Some (main_returns (-1)
                  (fprintf_stderr (Diag "failed to read PT stream") w))
      | Some pt =>
          match dump fuel junk pt options w with
          | Some (e, w') => Some (main_returns (- e) w')
          | None => None
          end
      end
  end.
End Main.

(** ** Vocabulary of the properties *)

(** [keeps I J m]: started in a state satisfying [I], the statement [m]
    ends in a state satisfying [I] when it falls through and [J] when it
    jumps. *)
Definition keeps `{Libipt} (I J : dump_state -> Prop) {A} (m : stmt A)
  : Prop :=
  forall s, I s ->
    match m s with
    | Next _ s' => I s'
    | Jump s' => J s'
    end.

(** At [out:], [errcode] is zero after end-of-stream and negative after a
    synchronization or offset error. *)
Definition exit_status_ok `{Libipt} (s : dump_state) : Prop :=
  match pc s with
  | L_out exit_eos => errcode s = 0
  | L_out _ => errcode s < 0
  | _ => True
  end.

(** Two states are [same_but_widths] when they differ at most in the three
    "used width" locals. *)
Definition same_but_widths `{Libipt} (s1 s2 : dump_state) : Prop :=
  pc s1 = pc s2 /\ errcode s1 = errcode s2 /\ decoder s1 = decoder s2
  /\ last_ip s1 = last_ip s2 /\ pkt s1 = pkt s2 /\ str s1 = str s2
  /\ pos s1 = pos s2 /\ io s1 = io s2.

Definition same_packettype_used `{Libipt} (s1 s2 : dump_state) : Prop :=
  same_but_widths s1 s2
  /\ col_packettype_width_used s1 = col_packettype_width_used s2.

Definition same_payload_used `{Libipt} (s1 s2 : dump_state) : Prop :=
  same_packettype_used s1 s2
  /\ col_payload_width_used s1 = col_payload_width_used s2.

Definition with_widths `{Libipt} (a b c : Z) (s : dump_state) : dump_state :=
  mk_state (pc s) (errcode s) (decoder s) (last_ip s) (pkt s) (str s) (pos s)
    a b c (io s).

(** Two runs of a statement end the same way, in states related by [Q]
    when they fall through and by [same_but_widths] when they jump. *)
Definition related `{Libipt} {A} (Q : dump_state -> dump_state -> Prop)
    (o1 o2 : outcome A) : Prop :=
  match o1, o2 with
  | Next a1 t1, Next a2 t2 => a1 = a2 /\ Q t1 t2
  | Jump t1, Jump t2 => same_but_widths t1 t2
  | _, _ => False
  end.

(** The state a checked print leaves when it fails: the diagnostic at
    the packet's offset is added to what the print left, [errcode] is
    [-pte_internal] and control is at [sync:]. *)
Definition print_failed `{Libipt} (msg : string) (w : world) (s : dump_state)
  : dump_state :=
  set_pc L_sync
    (set_errcode (- pte_internal)
       (set_io (fprintf_stderr (DiagPos msg (pos s)) w) s)).

(** Statements that neither jump nor touch [stderr], [errcode] or [pc]. *)
Definition silent `{Libipt} (s t : dump_state) : Prop :=
  w_stderr (io t) = w_stderr (io s) /\ pc t = pc s /\ errcode t = errcode s.

Definition is_hex_lower (c : ascii) : bool :=
  let n := nat_of_ascii c in
  ((48 <=? n) && (n <=? 57) || (97 <=? n) && (n <=? 102))%nat.

Definition hex_digit_value (c : ascii) : Z :=
  let n := Z.of_nat (nat_of_ascii c) in
  if n <? 58 then n - 48 else n - 87.

Fixpoint all_chars (f : ascii -> bool) (s : string) : bool :=
  match s with
  | EmptyString => true
  | String c s' => f c && all_chars f s'
  end.

(** The number a string of hexadecimal digits denotes, continuing from
    the value [acc] of the digits before it. *)
Fixpoint hex_value_from (acc : Z) (s : string) : Z :=
  match s with
  | EmptyString => acc
  | String c s' => hex_value_from (16 * acc + hex_digit_value c) s'
  end.

Definition hex_value (s : string) : Z := hex_value_from 0 s.

Definition is_blank (s : string) : Prop :=
  s = replicate (String.length s) " ".

(** No call of [vprintf] is scheduled to fail. *)
Definition no_faults (w : world) : Prop := forallb negb (w_faults w) = true.

(** [t] is [s] after [text] was written, with the packet and the decoder
    untouched. *)
Definition wrote `{Libipt} (text : string) (s t : dump_state) : Prop :=
  w_stdout (io t) = w_stdout (io s) +++ text
  /\ no_faults (io t)
  /\ decoder t = decoder s /\ pkt t = pkt s /\ last_ip t = last_ip s.

(** The bytes of a packet of size [n], as two-digit groups, from the
    [k]-th on. *)
Definition raw_groups `{Libipt} (d : pt_packet_decoder) (k n : nat)
  : list string :=
  map (fun i => fmt_02x (packet_byte d (Z.of_nat i))) (seq k n).

(** A decoder makes progress when some measure of its state decreases
    with every successful synchronization and with every packet of nonzero
    size, and never increases when [pt_pkt_next] fails or yields a packet of
    size zero. *)
Definition decoder_progress `{Libipt} (mu : pt_packet_decoder -> nat) : Prop :=
  (forall d,
      0 <= fst (pt_pkt_sync_forward d) ->
      (mu (snd (pt_pkt_sync_forward d)) < mu d)%nat)
  /\ (forall d,
         let '(r, p, d') := pt_pkt_next d in
         if (pt_errcode r =? pte_ok) && negb (size p =? 0)
         then (mu d' < mu d)%nat
         else (mu d' <= mu d)%nat).

(** The number of steps [dump] has left at most. *)
Definition potential `{Libipt} (mu : pt_packet_decoder -> nat)
    (s : dump_state) : nat :=
  match pc s with
  | L_sync => 1 + 2 * mu (decoder s)
  | L_loop => 2 + 2 * mu (decoder s)
  | L_out _ => 0
  end.

(** The options that take no argument. *)
Definition plain_option (a : string) : bool :=
  String.eqb a "--quiet" || String.eqb a "--no-pad"
  || String.eqb a "--no-offset" || String.eqb a "--raw"
  || String.eqb a "--lastip" || String.eqb a "--fixed-offset-width".

(** What [print] returns for a text when quiet mode is off and the write
    does not fail. *)
Definition print_value `{Libipt} (text : string) : Z :=
  if strlen text =? 0 then - pte_internal else strlen text.

(** The filling between the type name and a payload text of status [r]. *)
Definition type_gap (used r : Z) : string :=
  if 0 <? r
  then replicate (Z.to_nat (col_packettype_width - used)) " " +++ "  "
  else "".

(** The filling in front of the raw-bytes column, for the used widths
    [tused] of the type column and [used] of the payload column. *)
Definition raw_gap (tused used : Z) : string :=
  (if used =? 0
   then replicate (Z.to_nat (col_packettype_width - tused)) " " +++ "  "
   else "")
  +++ replicate (Z.to_nat (col_payload_width - used)) " " +++ "  ".

(** The raw-bytes column of a packet of [n] bytes. *)
Definition raw_column `{Libipt} (d : pt_packet_decoder) (n : nat) : string :=
  "[" +++ String.concat " " (raw_groups d 0 n) +++ "]".

(** The diagnostics of a failed synchronization with status [e], for the
    result [(e2, offset)] of the offset query that follows it. *)
Definition sync_error_lines `{Libipt} (e e2 offset : Z) : list diag_line :=
  if e2 <? 0
  then [DiagErr "sync error" (pt_errcode e);
        DiagErr "could not determine offset" (pt_errcode e2)]
  else [DiagErrPos "sync error" (pt_errcode e) offset].

(** The parts of an output line: the offset column with its separator,
    and the raw-bytes column with the filling in front of it. *)
Definition offset_part `{Libipt} (options : ptdump_options) (width p : Z)
  : string :=
  if has_flag (flags options) ptd_show_offset
  then fmt_0star_x width p +++ "  "
  else "".

Definition raw_part `{Libipt} (options : ptdump_options)
    (d : pt_packet_decoder) (n : nat) (tused used : Z) : string :=
  if has_flag (flags options) ptd_show_raw_bytes
  then raw_gap tused used +++ raw_column d n
  else "".

(** The line of a packet with type name [name], payload text [text] of
    status [r] and [n] bytes, when no last-IP text is written. *)
Definition packet_line `{Libipt} (options : ptdump_options) (width p : Z)
    (name : string) (r : Z) (text : string) (d : pt_packet_decoder) (n : nat)
  : string :=
  offset_part options width p
  +++ name +++ type_gap (strlen name) r +++ text
  +++ raw_part options d n (strlen name) (to_unsigned (print_value text))
  +++ String "010"%char "".

(** [t] is [s] after [text] was written without failure, with the packet,
    its offset, the decoder and the last-IP state as they were. *)
Definition stage `{Libipt} (text : string) (s t : dump_state) : Prop :=
  w_stdout (io t) = w_stdout (io s) +++ text
  /\ w_stderr (io t) = w_stderr (io s)
  /\ no_faults (io t)
  /\ pkt t = pkt s /\ decoder t = decoder s /\ last_ip t = last_ip s
  /\ pos t = pos s /\ pc t = pc s /\ errcode t = errcode s.

(** The effect on the flags of an option that takes no argument. *)
Definition option_effect (a : string) (f : Z) : Z :=
  if String.eqb a "--quiet" then set_flag f ptd_quiet
  else if String.eqb a "--no-pad" then set_flag f ptd_no_pad
  else if String.eqb a "--no-offset" then clear_flag f ptd_show_offset
  else if String.eqb a "--raw" then set_flag f ptd_show_raw_bytes
  else if String.eqb a "--lastip" then set_flag f ptd_show_last_ip
  else if String.eqb a "--fixed-offset-width"
       then set_flag f ptd_fixed_offset_width
  else f.

(** The flags after the options [plain], starting from [f]. *)
Definition flags_after (plain : list string) (f : Z) : Z :=
  fold_left (fun g a => option_effect a g) plain f.

(** Is the option [a] among [plain]? *)
Definition given (a : string) (plain : list string) : bool :=
  existsb (String.eqb a) plain.

(** The options [main] knows. *)
Definition known_option (a : string) : bool :=
  plain_option a || String.eqb a "-h" || String.eqb a "--help"
  || String.eqb a "--version" || String.eqb a "--cpu".

(** The flags [f] are those of a command line with the options [plain]:
    each of the six flags with an option of its own is as the options
    say. *)
Definition flags_as_given (f : Z) (plain : list string) : Prop :=
  has_flag f ptd_quiet = given "--quiet" plain
  /\ has_flag f ptd_no_pad = given "--no-pad" plain
  /\ has_flag f ptd_show_offset = negb (given "--no-offset" plain)
  /\ has_flag f ptd_show_raw_bytes = given "--raw" plain
  /\ has_flag f ptd_show_last_ip = given "--lastip" plain
  /\ has_flag f ptd_fixed_offset_width = given "--fixed-offset-width" plain.

(** An item of a decoded trace: the offset of a packet, the packet, and
    the decoder after [pt_pkt_next] returned it. *)
Definition item `{Libipt} : Type := (Z * packet * pt_packet_decoder)%type.

(** From the decoder [d], the offset query and [pt_pkt_next] succeed for
    each of [items] in turn and lead to the decoder [d_end]. *)
Fixpoint decodes `{Libipt} (d : pt_packet_decoder) (items : list item)
    (d_end : pt_packet_decoder) : Prop :=
  match items with
  | [] => d = d_end
  | (offset, p, d') :: rest =>
      (exists e r,
          pt_pkt_get_offset d = (e, offset) /\ 0 <= e
          /\ pt_pkt_next d = (r, p, d') /\ pt_errcode r = pte_ok)
      /\ decodes d' rest d_end
  end.

(** The packets the loop passes over. *)
Definition skipped `{Libipt} (options : ptdump_options) (p : packet) : bool :=
  is_pad (type p) && has_flag (flags options) ptd_no_pad.

(** An item that is rendered to the end of its line without an error and
    without last-IP text. *)
Definition renders `{Libipt} (options : ptdump_options) (width : Z)
    (it : item) : Prop :=
  let '(offset, p, _) := it in
  size p <> 0
  /\ (skipped options p = false ->
      (has_flag (flags options) ptd_show_offset = true ->
       1 <= width <= 16 /\ 0 <= offset < 16 ^ width)
      /\ 0 < strlen (pt_print_packet_type_str p) < 2 ^ 32
      /\ 0 <= fst (pt_print_fill_payload_str p)
      /\ (is_ip_packet (type p) = false
          \/ has_flag (flags options) ptd_show_last_ip = false)
      /\ 0 <= size p <= 255).

(** The line of an item, and the text of a list of items. *)
Definition item_line `{Libipt} (options : ptdump_options) (width : Z)
    (it : item) : string :=
  let '(offset, p, d') := it in
  if skipped options p then ""
  else packet_line options width offset (pt_print_packet_type_str p)
         (fst (pt_print_fill_payload_str p))
         (snd (pt_print_fill_payload_str p)) d' (Z.to_nat (size p)).

Definition trace_text `{Libipt} (options : ptdump_options) (width : Z)
    (items : list item) : string :=
  fold_right (fun it rest => item_line options width it +++ rest) "" items.

(** ** A small decoder to run the engine on

    A stand-in for libipt over a reduced packet format, used to evaluate
    the engine on concrete traces.  Byte [0x82] is the synchronization
    marker, [0x00] is PAD, the opcodes [0x0d], [0x11], [0x01] and [0x1d]
    (with the IP compression in the top three bits) are TIP, TIP.PGE,
    TIP.PGD and FUP, carrying no payload (suppressed) or two payload bytes.
    Byte [0xff] decodes successfully to a packet of size zero, standing
    for a decoder that fails to advance. *)

Module Sample.

Record ip_payload : Type := mk_ip { ipc : Z; ip : Z }.

Record decoder_state : Type := mk_decoder {
  d_buffer : list Z;
  d_pos : Z;
  d_pkt : Z;
  d_synced : bool
}.

Record last_ip_state : Type := mk_last_ip {
  li_ip : Z;
  li_have_ip : bool;
  li_suppressed : bool
}.

Definition byte_at (buffer : list Z) (i : Z) : Z := nth (Z.to_nat i) buffer 0.

(** The first offset at or after [from], within [n] bytes, holding the
    marker. *)
Fixpoint find_marker (n : nat) (buffer : list Z) (from : Z) : option Z :=
  match n with
  | O => None
  | S n' =>
      if Z.of_nat (List.length buffer) <=? from then None
      else if byte_at buffer from =? 130 then Some from
      else find_marker n' buffer (from + 1)
  end.

Definition sync_forward (d : decoder_state) : Z * decoder_state :=
  let from := if d_synced d then d_pos d + 1 else d_pos d in
  match find_marker (List.length (d_buffer d)) (d_buffer d) from with
  | Some i => (0, mk_decoder (d_buffer d) i i true)
  | None => (-7, d)
  end.

Definition get_offset (d : decoder_state) : Z * Z :=
  if d_synced d then (0, d_pos d) else (-3, 0).

Definition opcode_type (op : Z) : option pt_packet_type :=
  let low := Z.land op 31 in
  if low =? 13 then Some ppt_tip
  else if low =? 17 then Some ppt_tip_pge
  else if low =? 1 then Some ppt_tip_pgd
  else if low =? 29 then Some ppt_fup
  else None.

Definition no_packet : pt_packet ip_payload :=
  mk_packet (ppt_other 0) 0 (mk_ip 0 0).

Definition advance (d : decoder_state) (n : Z) : decoder_state :=
  mk_decoder (d_buffer d) (d_pos d + n) (d_pos d) (d_synced d).

Definition next (d : decoder_state)
  : Z * pt_packet ip_payload * decoder_state :=
  let len := Z.of_nat (List.length (d_buffer d)) in
  if len <=? d_pos d then (-7, no_packet, d)
  else
    let op := byte_at (d_buffer d) (d_pos d) in
    if op =? 130 then (0, mk_packet (ppt_other 3) 1 (mk_ip 0 0), advance d 1)
    else if op =? 0 then (0, mk_packet ppt_pad 1 (mk_ip 0 0), advance d 1)
    else if op =? 255 then (0, mk_packet (ppt_other 1) 0 (mk_ip 0 0), advance d 0)
    else
      match opcode_type op with
      | None => (-4, no_packet, d)
      | Some t =>
          let c := Z.shiftr op 5 in
          if c =? 0 then (0, mk_packet t 1 (mk_ip 0 0), advance d 1)
          else if c =? 1 then
            if len <? d_pos d + 3 then (-7, no_packet, d)
            else
              let v := byte_at (d_buffer d) (d_pos d + 1)
                       + 256 * byte_at (d_buffer d) (d_pos d + 2) in
              (0, mk_packet t 3 (mk_ip 1 v), advance d 3)
          else (-5, no_packet, d)
      end.

Definition get_pos (d : decoder_state) : list Z :=
  skipn (Z.to_nat (d_pkt d)) (d_buffer d).

Definition update_ip (li : last_ip_state) (p : ip_payload)
  : Z * last_ip_state :=
  if ipc p =? 0 then (0, mk_last_ip (li_ip li) true true)
  else if ipc p =? 1 then
    (0, mk_last_ip (Z.lor (Z.land (li_ip li) (Z.shiftl (Z.ones 48) 16)) (ip p))
          true false)
  else (-5, li).

Definition query (li : last_ip_state) : Z * Z :=
  if negb (li_have_ip li) then (-11, 0)
  else if li_suppressed li then (-12, 0)
  else (0, li_ip li).

Definition packet_type_str (p : pt_packet ip_payload) : string :=
  match type p with
  | ppt_pad => "pad"
  | ppt_tip => "tip"
  | ppt_tip_pge => "tip.pge"
  | ppt_tip_pgd => "tip.pgd"
  | ppt_fup => "fup"
  | ppt_other 3 => "psb"
  | ppt_other _ => "<unknown>"
  end.

Definition fill_payload_str (p : pt_packet ip_payload) : Z * string :=
  if is_ip_packet (type p) then
    let text :=
      if ipc (payload p) =? 0 then "0: ????????????????"
      else "1: ????????????" +++ pad_left "0" 4 (fmt_x (ip (payload p))) in
    (strlen text, text)
  else (0, "").

(** The error codes are numbered in the order of libipt's
    [enum pt_error_code]. *)
#[export] Instance libipt : Libipt := {|
  pte_ok := 0;
  pte_internal := 1;
  pte_invalid := 2;
  pte_bad_packet := 5;
  pte_eos := 7;
  pte_nomem := 9;
  pte_noip := 11;
  pte_ip_suppressed := 12;
  pt_errcode := fun status => if status >=? 0 then 0 else - status;
  pt_cpu := unit;
  cpu_zero := tt;
  pt_cpu_parse := fun s => if String.eqb s "" then (-2, tt) else (0, tt);
  pt_packet_payload := ip_payload;
  pt_packet_ip := ip_payload;
  payload_ip := fun p => p;
  packet_zero := no_packet;
  pt_configure := fun c => c;
  pt_packet_decoder := decoder_state;
  pt_pkt_alloc_decoder := fun c =>
    match cfg_buffer c with
    | [] => None
    | _ => Some (mk_decoder (cfg_buffer c) 0 0 false)
    end;
  pt_pkt_sync_forward := sync_forward;
  pt_pkt_get_offset := get_offset;
  pt_pkt_next := next;
  pt_pkt_get_pos := get_pos;
  pt_last_ip := last_ip_state;
  pt_last_ip_init := mk_last_ip 0 false false;
  pt_last_ip_update_ip := fun li p _ => update_ip li p;
  pt_last_ip_query := query;
  pt_print_packet_type_str := packet_type_str;
  pt_print_fill_payload_str := fill_payload_str
|}.

(** What the uninitialised locals happen to hold. *)
Definition junk : indeterminate :=
  mk_indeterminate (mk_last_ip 57005 true false) "junk" 4096.

(** Empty streams and a schedule of failing writes. *)
Definition fresh (faults : list bool) : world := mk_world "" [] faults.

(** A trace: the marker, a TIP with a two-byte address, a packet of size
    zero, a PAD and an undecodable byte (both skipped by the
    resynchronization), the marker again, a TIP without address, a PAD. *)
Definition trace : list Z := [130; 45; 52; 18; 255; 0; 7; 130; 13; 0].

(** Offset, raw bytes and last IP; the same in quiet mode; the type and
    payload columns only. *)
Definition all_columns : ptdump_options := mk_options 23 tt.
Definition quiet_columns : ptdump_options := mk_options 55 tt.
Definition plain_columns : ptdump_options := mk_options 16 tt.

(** The type, payload and raw-bytes columns. *)
Definition raw_columns : ptdump_options := mk_options 18 tt.

Definition config_of (options : ptdump_options) : config_t :=
  dump_config trace options.
Definition width_of (options : ptdump_options) : Z :=
  dump_col_offset_width trace options.

(** The state in which [dump] reaches [sync:] on [trace], the state [n]
    steps later, and the state after the decoding part of a turn. *)
Definition start (options : ptdump_options) (faults : list bool)
  : dump_state :=
  dump_entry junk (mk_decoder trace 0 0 false) (fresh faults).

Definition steps (options : ptdump_options) (n : nat) (s : dump_state)
  : dump_state :=
  Nat.iter n (step options (config_of options) (width_of options)) s.

Definition decoded (options : ptdump_options) (s : dump_state) : dump_state :=
  after ((decode_packet ;; skip_pad options) s).

(** The first packet of [trace], decoded, with the first write failing;
    with the third write (the newline) failing; and, with raw bytes shown,
    with the fifth write (the byte) failing. *)
Definition first_offset_fails : dump_state :=
  decoded all_columns (steps all_columns 1 (start all_columns [true])).
Definition first_newline_fails : dump_state :=
  decoded plain_columns
    (steps plain_columns 1 (start plain_columns [false; false; true])).
Definition first_raw_byte_fails : dump_state :=
  decoded raw_columns
    (steps raw_columns 1
       (start raw_columns [false; false; false; false; true])).

(** The engine before the second, third and fourth turn of the loop and
    at the resynchronization after the packet of size zero. *)
Definition before_tip : dump_state := steps all_columns 2 (start all_columns []).
Definition before_zero : dump_state := steps all_columns 3 (start all_columns []).
Definition at_resync : dump_state := steps all_columns 4 (start all_columns []).

(** The TIP packet after its payload column, and after its last-IP text. *)
Definition tip_after_payload : dump_state :=
  after ((print_offset all_columns (width_of all_columns) ;;
          print_packet_type all_columns ;;
          print_payload all_columns) (decoded all_columns before_tip)).
Definition tip_after_last_ip : dump_state :=
  after (print_last_ip all_columns (config_of all_columns) tip_after_payload).

(** The bytes left, plus one before the first synchronization. *)
Definition mu (d : decoder_state) : nat :=
  Z.to_nat (Z.of_nat (List.length (d_buffer d)) - d_pos d)
  + (if d_synced d then 0 else 1).

(** A trace without errors: the marker, a PAD and a TIP without address. *)
Definition clean : list Z := [130; 0; 13].

(** The offset and raw-bytes columns, without PAD packets. *)
Definition no_pad_columns : ptdump_options := mk_options 83 tt.

(** The state in which [dump] reaches [sync:] on [clean], and the engine
    before the PAD. *)
Definition clean_start : dump_state :=
  dump_entry junk (mk_decoder clean 0 0 false) (fresh []).
Definition before_pad : dump_state :=
  Nat.iter 2
    (step no_pad_columns (dump_config clean no_pad_columns)
       (dump_col_offset_width clean no_pad_columns)) clean_start.

(** The packets of [clean] with their offsets and the decoder after
    each. *)
Definition clean_items : list item :=
  [(0, mk_packet (ppt_other 3) 1 (mk_ip 0 0), mk_decoder clean 1 0 true);
   (1, mk_packet ppt_pad 1 (mk_ip 0 0), mk_decoder clean 2 1 true);
   (2, mk_packet ppt_tip 1 (mk_ip 0 0), mk_decoder clean 3 2 true)].

(** The first packet of [trace], decoded, with all columns and with the
    raw-bytes column only. *)
Definition psb_decoded : dump_state :=
  decoded all_columns (steps all_columns 1 (start all_columns [])).
Definition psb_decoded_raw : dump_state :=
  decoded raw_columns (steps raw_columns 1 (start raw_columns [])).

(** A buffer without the marker, at [sync:]. *)
Definition unsynced : dump_state :=
  dump_entry junk (mk_decoder [0; 13] 0 0 false) (fresh []).

(** A TIP whose address bytes the tracker rejects. *)
Definition bad_ipc : dump_state :=
  set_pkt (mk_packet ppt_tip 1 (mk_ip 2 0)) tip_after_payload.

(** The same library with a payload formatter that fails on the packets
    without address. *)
Definition strict_formatter : Libipt := {|
  pte_ok := 0;
  pte_internal := 1;
  pte_invalid := 2;
  pte_bad_packet := 5;
  pte_eos := 7;
  pte_nomem := 9;
  pte_noip := 11;
  pte_ip_suppressed := 12;
  pt_errcode := fun status => if status >=? 0 then 0 else - status;
  pt_cpu := unit;
  cpu_zero := tt;
  pt_cpu_parse := fun s => if String.eqb s "" then (-2, tt) else (0, tt);
  pt_packet_payload := ip_payload;
  pt_packet_ip := ip_payload;
  payload_ip := fun p => p;
  packet_zero := no_packet;
  pt_configure := fun c => c;
  pt_packet_decoder := decoder_state;
  pt_pkt_alloc_decoder := fun c =>
    match cfg_buffer c with
    | [] => None
    | _ => Some (mk_decoder (cfg_buffer c) 0 0 false)
    end;
  pt_pkt_sync_forward := sync_forward;
  pt_pkt_get_offset := get_offset;
  pt_pkt_next := next;
  pt_pkt_get_pos := get_pos;
  pt_last_ip := last_ip_state;
  pt_last_ip_init := mk_last_ip 0 false false;
  pt_last_ip_update_ip := fun li p _ => update_ip li p;
  pt_last_ip_query := query;
  pt_print_packet_type_str := packet_type_str;
  pt_print_fill_payload_str := fun p =>
    if is_ip_packet (type p) then fill_payload_str p else (-1, "")
|}.

(** The marker packet, decoded by that library, with the type and payload
    columns only. *)
Definition strict_psb : dump_state (H := strict_formatter) :=
  mk_state (H := strict_formatter) L_loop 0 (mk_decoder trace 1 0 true)
    (mk_last_ip 0 false false) (mk_packet (ppt_other 3) 1 (mk_ip 0 0))
    "junk" 0 0 0 0 (fresh []).
Definition strict_plain : ptdump_options (H := strict_formatter) :=
  mk_options (H := strict_formatter) 16 tt.

End Sample.

(** * Properties *)

(** ** Strings *)

Lemma append_assoc (a b c : string) : (a +++ b) +++ c = a +++ (b +++ c).
Proof. induction a as [|x a IH]; simpl; [reflexivity | now rewrite IH]. Qed.

Lemma append_empty_r (a : string) : a +++ "" = a.
Proof. induction a as [|x a IH]; simpl; [reflexivity | now rewrite IH]. Qed.

Lemma length_append (a b : string) :
  String.length (a +++ b) = (String.length a + String.length b)%nat.
Proof. induction a as [|x a IH]; simpl; [reflexivity | now rewrite IH]. Qed.

Lemma strlen_append (a b : string) : strlen (a +++ b) = strlen a + strlen b.
Proof. unfold strlen. rewrite length_append. lia. Qed.

Lemma length_replicate (n : nat) (c : ascii) : String.length (replicate n c) = n.
Proof. induction n as [|n IH]; simpl; [reflexivity | now rewrite IH]. Qed.

(** ** The column width calculator *)

Lemma has_flag_bit (v : Z) (k : nat) :
  has_flag v (Z.shiftl 1 (Z.of_nat k)) = Z.testbit v (Z.of_nat k).
Proof.
  unfold has_flag.
  rewrite Z.shiftl_1_l.
  destruct (Z.testbit v (Z.of_nat k)) eqn:Hb.
  - apply negb_true_iff, Z.eqb_neq. intro H0.
    assert (Hk : Z.testbit (Z.land v (2 ^ Z.of_nat k)) (Z.of_nat k) = true).
    { rewrite Z.land_spec, Hb, Z.pow2_bits_true by lia. reflexivity. }
    rewrite H0, Z.bits_0 in Hk. discriminate.
  - apply negb_false_iff, Z.eqb_eq.
    apply Z.bits_inj'. intros m Hm.
    rewrite Z.land_spec, Z.bits_0.
    destruct (Z.eq_dec (Z.of_nat k) m) as [<-|Hne].
    + now rewrite Hb.
    + rewrite (Z.pow2_bits_false _ _ Hne). apply andb_false_r.
Qed.

Lemma testbit_top (v k : Z) :
  0 <= k -> 0 <= v < 2 ^ (k + 1) -> Z.testbit v k = (2 ^ k <=? v).
Proof.
  intros Hk [Hv0 Hv].
  destruct (Z.leb_spec (2 ^ k) v) as [Hle|Hlt].
  - apply Z.testbit_true; [assumption|].
    assert (Hq : v / 2 ^ k = 1).
    { symmetry. apply (Z.div_unique _ _ 1 (v - 2 ^ k)).
      - left. rewrite Z.pow_add_r in Hv by lia. change (2 ^ 1) with 2 in Hv. lia.
      - lia. }
    rewrite Hq. reflexivity.
  - apply Z.testbit_false; [assumption|].
    rewrite Z.div_small by lia. reflexivity.
Qed.

Lemma calc_col_offset_idx_log2 (n : nat) (v : Z) :
  0 <= v < 2 ^ (Z.of_nat n + 1) ->
  calc_col_offset_idx n v = Z.log2 (Z.max v 1).
Proof.
  induction n as [|n IH]; intros Hv.
  - simpl in *. assert (Hc : v = 0 \/ v = 1) by lia.
    destruct Hc; subst; reflexivity.
  - cbn [calc_col_offset_idx].
    rewrite has_flag_bit, testbit_top by lia.
    assert (Hpos : 0 < 2 ^ Z.of_nat (S n)) by (apply Z.pow_pos_nonneg; lia).
    destruct (Z.leb_spec (2 ^ Z.of_nat (S n)) v) as [Hle|Hlt].
    + rewrite Z.max_l by lia.
      symmetry. apply Z.log2_unique; [lia|].
      replace (Z.succ (Z.of_nat (S n))) with (Z.of_nat (S n) + 1) by lia. lia.
    + apply IH. replace (Z.of_nat n + 1) with (Z.of_nat (S n)) by lia. lia.
Qed.

(** C3: for every 64-bit buffer size [S], [calc_col_offset_width] returns
    [1 + floor(log2(max(S,1)) / 4)]; the index it divides is the index of
    the highest set bit of [S] (for [S >= 1]); the result is at least 1,
    also for [S = 0]. *)
Theorem calc_col_offset_width_spec (S : Z) :
  0 <= S < 2 ^ 64 ->
  calc_col_offset_width S = 1 + Z.log2 (Z.max S 1) / 4
  /\ (1 <= S ->
      Z.testbit S (calc_col_offset_idx 63 S) = true
      /\ forall m, calc_col_offset_idx 63 S < m -> Z.testbit S m = false)
  /\ 1 <= calc_col_offset_width S
  /\ calc_col_offset_width 0 = 1.
Proof.
  intros HS.
  assert (Hidx : calc_col_offset_idx 63 S = Z.log2 (Z.max S 1)).
  { apply calc_col_offset_idx_log2. change (2 ^ (Z.of_nat 63 + 1)) with (2 ^ 64).
    exact HS. }
  unfold calc_col_offset_width. rewrite Hidx.
  split; [reflexivity|]. split; [|split; [|reflexivity]].
  - intros H1. rewrite Z.max_l by lia. split.
    + apply Z.bit_log2. lia.
    + intros m Hm. apply Z.bits_above_log2; lia.
  - pose proof (Z.log2_nonneg (Z.max S 1)) as Hn.
    pose proof (Z.div_pos (Z.log2 (Z.max S 1)) 4 Hn ltac:(lia)). lia.
Qed.

Lemma calc_col_offset_width_spec_witness :
  0 <= 4096 < 2 ^ 64 /\ calc_col_offset_width 4096 = 1 + Z.log2 (Z.max 4096 1) / 4.
Proof.
  split; [lia|].
  apply (calc_col_offset_width_spec 4096). lia.
Defined.

(** Unfolding of the statement combinators and of the small helpers. *)
Ltac unfold_stmts :=
  unfold bind, gets, assign, goto, ret, do_print, diag, diag_pos, diag_err,
    diag_err_pos, print_col_separator, fillup_column, bind, gets, assign, goto,
    ret, do_print.

(** ** Invariants of statements *)

Section Keeps.
Context `{Libipt}.
Variable options : ptdump_options.
Variables I J : dump_state -> Prop.

Lemma keeps_ret {A} (a : A) : keeps I J (ret a).
Proof. intros s Hs. exact Hs. Qed.

Lemma keeps_gets {A} (f : dump_state -> A) : keeps I J (gets f).
Proof. intros s Hs. exact Hs. Qed.

Lemma keeps_assign (f : dump_state -> dump_state) :
  (forall s, I s -> I (f s)) -> keeps I J (assign f).
Proof. intros Hf s Hs. apply Hf, Hs. Qed.

Lemma keeps_goto {A} (l : label) :
  (forall s, I s -> J (set_pc l s)) -> keeps I J (goto (A:=A) l).
Proof. intros Hl s Hs. apply Hl, Hs. Qed.

Lemma keeps_bind {A B} (m : stmt A) (k : A -> stmt B) :
  keeps I J m -> (forall a, keeps I J (k a)) -> keeps I J (bind m k).
Proof.
  intros Hm Hk s Hs. unfold bind.
  specialize (Hm s Hs). destruct (m s) as [a s'|s'].
  - apply Hk, Hm.
  - exact Hm.
Qed.

Lemma keeps_do_print (text : string) :
  (forall s, I s -> I (set_io (snd (print options text (io s))) s)) ->
  keeps I J (do_print options text).
Proof.
  intros Hp s Hs. unfold do_print.
  specialize (Hp s Hs). destruct (print options text (io s)) as [r w].
  exact Hp.
Qed.
End Keeps.

(** Syntax-directed decomposition of a [keeps] goal; what is left are the
    conditions on assignments, jumps and prints. *)
Ltac keeps_step :=
  lazymatch goal with
  | |- keeps _ _ (bind _ _) => apply keeps_bind; [|intros ?]
  | |- keeps _ _ (ret _) => apply keeps_ret
  | |- keeps _ _ (gets _) => apply keeps_gets
  | |- keeps _ _ (goto _) => apply keeps_goto
  | |- keeps _ _ (assign _) => apply keeps_assign
  | |- keeps _ _ (do_print _ _) => apply keeps_do_print
  | |- keeps _ _ (diag_pos _ _) => unfold diag_pos
  | |- keeps _ _ (diag_err _ _) => unfold diag_err
  | |- keeps _ _ (diag_err_pos _ _ _) => unfold diag_err_pos
  | |- keeps _ _ (print_col_separator _) => unfold print_col_separator
  | |- keeps _ _ (fillup_column _ _ _) => unfold fillup_column
  | |- keeps _ _ (match ?e with _ => _ end) => destruct e
  end.

Section Invariants.
Context `{Libipt}.
Variable options : ptdump_options.
Variable config : config_t.
Variable col_offset_width : Z.
Variables I J : dump_state -> Prop.

(** What an invariant must tolerate: assignments to the locals,
    diagnostics, prints, and the jumps back into the loop. *)
Hypothesis I_errcode : forall e s, I s -> I (set_errcode e s).
Hypothesis I_last_ip : forall li s, I s -> I (set_last_ip li s).
Hypothesis I_str : forall t s, I s -> I (set_str t s).
Hypothesis I_offset_used : forall n s, I s -> I (set_col_offset_width_used n s).
Hypothesis I_packettype_used :
  forall n s, I s -> I (set_col_packettype_width_used n s).
Hypothesis I_payload_used :
  forall n s, I s -> I (set_col_payload_width_used n s).
Hypothesis I_diag :
  forall d s, I s -> I (set_io (fprintf_stderr d (io s)) s).
Hypothesis I_print :
  forall text s, I s -> I (set_io (snd (print options text (io s))) s).
Hypothesis I_decoder : forall d s, I s -> I (set_decoder d s).
Hypothesis I_pkt : forall p s, I s -> I (set_pkt p s).
Hypothesis I_pos : forall p s, I s -> I (set_pos p s).
Hypothesis J_sync : forall s, I s -> J (set_pc L_sync s).
Hypothesis J_loop : forall s, I s -> J (set_pc L_loop s).
Hypothesis J_out : forall via s, I s -> J (set_pc (L_out via) s).

Ltac keeps_all := repeat keeps_step; intros; eauto.

Lemma keeps_skip_pad : keeps I J (skip_pad options).
Proof. unfold skip_pad. keeps_all. Qed.

Lemma keeps_print_offset :
  keeps I J (print_offset options col_offset_width).
Proof. unfold print_offset. keeps_all. Qed.

Lemma keeps_print_packet_type : keeps I J (print_packet_type options).
Proof. unfold print_packet_type. keeps_all. Qed.

Lemma keeps_print_payload : keeps I J (print_payload options).
Proof. unfold print_payload. keeps_all. Qed.

Lemma keeps_print_last_ip : keeps I J (print_last_ip options config).
Proof. unfold print_last_ip. keeps_all. Qed.

Lemma keeps_print_raw_loop (n : nat) (idx : Z) :
  keeps I J (print_raw_loop options n idx).
Proof.
  revert idx. induction n as [|n IH]; intros idx; cbn [print_raw_loop].
  - apply keeps_ret.
  - keeps_all.
Qed.

Lemma keeps_print_raw_column : keeps I J (print_raw_column options).
Proof.
  unfold print_raw_column. keeps_all; apply keeps_print_raw_loop.
Qed.

Lemma keeps_print_raw_bytes : keeps I J (print_raw_bytes options).
Proof.
  unfold print_raw_bytes. keeps_all; apply keeps_print_raw_column.
Qed.

Lemma keeps_print_newline : keeps I J (print_newline options).
Proof. unfold print_newline. keeps_all. Qed.

Lemma keeps_render_packet :
  keeps I J (render_packet options config col_offset_width).
Proof.
  unfold render_packet.
  repeat keeps_step;
    auto using keeps_print_offset, keeps_print_packet_type,
      keeps_print_payload, keeps_print_last_ip, keeps_print_raw_bytes,
      keeps_print_newline.
Qed.

Lemma keeps_sync : keeps I J (sync).
Proof. unfold sync. keeps_all. Qed.

Lemma keeps_decode_packet : keeps I J (decode_packet).
Proof. unfold decode_packet. keeps_all. Qed.

Lemma keeps_loop_body :
  keeps I J (loop_body options config col_offset_width).
Proof.
  unfold loop_body.
  repeat keeps_step;
    auto using keeps_decode_packet, keeps_skip_pad, keeps_render_packet.
Qed.
End Invariants.

Lemma keeps_after `{Libipt} (I : dump_state -> Prop) {A} (m : stmt A) s :
  keeps I I m -> I s -> I (after (m s)).
Proof.
  intros Hm Hs. specialize (Hm s Hs). destruct (m s); exact Hm.
Qed.

Lemma after_bind `{Libipt} {A B} (m : stmt A) (k : A -> stmt B) s :
  after (bind m k s) =
  match m s with
  | Next a s' => after (k a s')
  | Jump s' => s'
  end.
Proof. unfold bind. destruct (m s); reflexivity. Qed.

(** ** Quiet mode *)

Section Quiet.
Context `{Libipt}.
Variable options : ptdump_options.
Hypothesis quiet : has_flag (flags options) ptd_quiet = true.

Lemma print_quiet (text : string) (w : world) : print options text w = (0, w).
Proof. unfold print. rewrite quiet. reflexivity. Qed.

Lemma step_quiet (config : config_t) (width : Z) (s : dump_state) :
  w_stdout (io (step options config width s)) = w_stdout (io s).
Proof.
  set (I := fun t : dump_state => w_stdout (io t) = w_stdout (io s)).
  assert (Hprint : forall text t,
             I t -> I (set_io (snd (print options text (io t))) t)).
  { intros text t Ht. rewrite print_quiet. exact Ht. }
  change (I (step options config width s)).
  unfold step. destruct (pc s); [| |reflexivity];
    apply keeps_after; try reflexivity;
    (apply keeps_bind; [|intros ?; apply keeps_goto; intros ? Ht; exact Ht]).
  - apply keeps_sync; intros; match goal with Ht : I _ |- _ => exact Ht end.
  - apply (keeps_loop_body options); intros;
      solve [now apply Hprint | match goal with Ht : I _ |- _ => exact Ht end].
Qed.

Lemma run_quiet (config : config_t) (width : Z) (fuel : nat) :
  forall s s', run options config width fuel s = Some s' ->
               w_stdout (io s') = w_stdout (io s).
Proof.
  induction fuel as [|fuel IH]; intros s s' Hrun; simpl in Hrun.
  - destruct (pc s); try discriminate. now inversion Hrun.
  - destruct (pc s) eqn:Hpc.
    + apply IH in Hrun. rewrite Hrun. apply step_quiet.
    + apply IH in Hrun. rewrite Hrun. apply step_quiet.
    + now inversion Hrun.
Qed.
End Quiet.

(** C9: with the quiet flag set, [print] returns 0 and leaves the output
    as it is, and [dump] writes nothing to standard output: neither a step
    of the engine (so no prefix of a run) nor a completed call, whatever
    the buffer and the other flags. *)
Theorem quiet_writes_nothing `{Libipt} (options : ptdump_options) :
  has_flag (flags options) ptd_quiet = true ->
  (forall text w, print options text w = (0, w))
  /\ (forall config width s,
        w_stdout (io (step options config width s)) = w_stdout (io s))
  /\ (forall fuel junk buffer w e w',
        dump fuel junk buffer options w = Some (e, w') ->
        w_stdout w' = w_stdout w).
Proof.
  intros Hq. split; [|split].
  - intros. now apply print_quiet.
  - intros. now apply step_quiet.
  - intros fuel junk buffer w e w' Hd. unfold dump in Hd.
    destruct (pt_pkt_alloc_decoder _) as [d|].
    + unfold dump_run in Hd.
      destruct (run _ _ _ _ _) as [s|] eqn:Hrun; [|discriminate].
      inversion Hd; subst. apply (run_quiet _ Hq) in Hrun. exact Hrun.
    + inversion Hd; subst. reflexivity.
Qed.

(** ** The value [dump] returns *)

Section ExitStatus.
Context `{Libipt}.
Variable options : ptdump_options.
Variable config : config_t.
Variable width : Z.

(** [pt_pkt_get_offset] returns zero on success and a negative error code
    otherwise. *)
Hypothesis get_offset_status : forall d, fst (pt_pkt_get_offset d) <= 0.

Lemma sync_exit_status (s : dump_state) :
  match sync s with
  | Next _ s' => pc s' = pc s
  | Jump s' => exit_status_ok s'
  end.
Proof.
  unfold sync, bind, gets, assign, goto, diag_err, diag_err_pos.
  destruct (pt_pkt_sync_forward (decoder s)) as [e d'].
  destruct (e <? 0) eqn:He; [|reflexivity].
  apply Z.ltb_lt in He.
  destruct (pt_pkt_get_offset d') as [e2 off].
  destruct (e2 <? 0); exact He.
Qed.

Lemma decode_packet_exit_status (s : dump_state) :
  match decode_packet s with
  | Next _ s' => pc s' = pc s
  | Jump s' => exit_status_ok s'
  end.
Proof.
  unfold decode_packet, bind, gets, assign, goto, diag_err, diag_err_pos,
    diag_pos.
  pose proof (get_offset_status (decoder s)) as Hst.
  destruct (pt_pkt_get_offset (decoder s)) as [e off]. simpl in Hst.
  destruct (e <? 0) eqn:He.
  - apply Z.ltb_lt in He. exact He.
  - apply Z.ltb_ge in He.
    destruct (pt_pkt_next (decoder s)) as [[r p] d'].
    destruct (pt_errcode r =? pte_eos).
    + unfold exit_status_ok. simpl. lia.
    + destruct (negb (pt_errcode r =? pte_ok)); [exact Logic.I|].
      destruct (size p =? 0); [exact Logic.I|reflexivity].
Qed.

Lemma render_stays_in_loop :
  keeps (fun _ => True) (fun s => pc s = L_sync \/ pc s = L_loop)
    (skip_pad options ;; render_packet options config width).
Proof.
  apply keeps_bind; [apply keeps_skip_pad|intros ?; apply keeps_render_packet];
    intros; solve [exact Logic.I | left; reflexivity | right; reflexivity].
Qed.

Lemma step_exit_status (s : dump_state) :
  exit_status_ok s -> exit_status_ok (step options config width s).
Proof.
  intros Hs. unfold step. destruct (pc s) eqn:Hpc; [| |exact Hs].
  - rewrite after_bind. pose proof (sync_exit_status s) as Hy.
    destruct (sync s) as [[] s'|s']; [|exact Hy].
    exact Logic.I.
  - rewrite after_bind. unfold loop_body.
    change (bind decode_packet _ s) with
      (bind decode_packet
         (fun _ => skip_pad options ;; render_packet options config width) s).
    unfold bind at 1.
    pose proof (decode_packet_exit_status s) as Hd.
    destruct (decode_packet s) as [[] s'|s']; [|exact Hd].
    pose proof (render_stays_in_loop s' Logic.I) as Hr.
    destruct ((skip_pad options ;; render_packet options config width) s')
      as [[] s''|s''].
    + exact Logic.I.
    + unfold exit_status_ok. destruct Hr as [-> | ->]; exact Logic.I.
Qed.

Lemma run_exit_status (fuel : nat) :
  forall s s', exit_status_ok s ->
    run options config width fuel s = Some s' ->
    exit_status_ok s' /\ exists via, pc s' = L_out via.
Proof.
  induction fuel as [|fuel IH]; intros s s' Hs Hrun; simpl in Hrun.
  - destruct (pc s) eqn:Hpc; try discriminate.
    inversion Hrun; subst. split; [exact Hs|eauto].
  - destruct (pc s) eqn:Hpc.
    + apply IH in Hrun; [exact Hrun|]. now apply step_exit_status.
    + apply IH in Hrun; [exact Hrun|]. now apply step_exit_status.
    + inversion Hrun; subst. split; [exact Hs|eauto].
Qed.

(** The value of [errcode] at [sync:] and at the loop head is dead: both
    assign it before reading it. *)
Lemma step_errcode_dead (e : Z) (s : dump_state) :
  pc s = L_sync \/ pc s = L_loop ->
  step options config width (set_errcode e s) = step options config width s.
Proof.
  intros Hpc. unfold step. cbn [pc set_errcode].
  destruct Hpc as [-> | ->]; f_equal; unfold bind.
  - unfold sync, bind, gets, assign. cbn [decoder set_errcode].
    destruct (pt_pkt_sync_forward (decoder s)) as [e' d']. reflexivity.
  - unfold loop_body, decode_packet, bind, gets, assign.
    cbn [decoder set_errcode].
    destruct (pt_pkt_get_offset (decoder s)) as [e' off]. reflexivity.
Qed.
End ExitStatus.

(** ** Termination *)

Section Termination.
Context `{Libipt}.
Variable options : ptdump_options.
Variable config : config_t.
Variable width : Z.
Variable mu : pt_packet_decoder -> nat.
Hypothesis progress : decoder_progress mu.

Lemma render_keeps_decoder (d : pt_packet_decoder) :
  keeps (fun s => decoder s = d)
    (fun s => decoder s = d /\ (pc s = L_sync \/ pc s = L_loop))
    (skip_pad options ;; render_packet options config width).
Proof.
  apply keeps_bind; [apply keeps_skip_pad|intros ?; apply keeps_render_packet];
    intros; cbn; auto.
Qed.

Lemma decode_packet_progress (s : dump_state) :
  match decode_packet s with
  | Next _ t => pc t = pc s /\ (mu (decoder t) < mu (decoder s))%nat
  | Jump t =>
      (pc t = L_sync /\ (mu (decoder t) <= mu (decoder s))%nat)
      \/ exists via, pc t = L_out via
  end.
Proof.
  destruct progress as [_ Hnext]. specialize (Hnext (decoder s)).
  unfold decode_packet. unfold_stmts.
  destruct (pt_pkt_get_offset (decoder s)) as [e offset].
  destruct (e <? 0); [right; eexists; reflexivity|].
  destruct (pt_pkt_next (decoder s)) as [[r p] d'].
  destruct (pt_errcode r =? pte_eos); [right; eexists; reflexivity|].
  destruct (pt_errcode r =? pte_ok); cbn [negb andb] in *;
    [|left; split; [reflexivity|exact Hnext]].
  destruct (size p =? 0); cbn [negb] in Hnext.
  - left. split; [reflexivity|exact Hnext].
  - split; [reflexivity|exact Hnext].
Qed.

Lemma step_potential (s : dump_state) :
  (0 < potential mu s)%nat ->
  (potential mu (step options config width s) < potential mu s)%nat.
Proof.
  unfold potential at 1 3, step. destruct (pc s) eqn:Hpc; [| |lia]; intros _.
  - (* sync: *)
    destruct progress as [Hsync _]. specialize (Hsync (decoder s)).
    unfold sync. unfold_stmts.
    destruct (pt_pkt_sync_forward (decoder s)) as [e d']. cbn [fst snd] in Hsync.
    destruct (Z.ltb_spec e 0) as [Hlt|Hge].
    + destruct (pt_pkt_get_offset d') as [e2 offset].
      destruct (e2 <? 0); unfold potential; cbn; lia.
    + specialize (Hsync Hge). unfold potential. cbn. lia.
  - (* the loop *)
    rewrite after_bind. unfold loop_body.
    change (bind decode_packet _ s) with
      (bind decode_packet
         (fun _ => skip_pad options ;; render_packet options config width) s).
    unfold bind at 1.
    pose proof (decode_packet_progress s) as Hd.
    destruct (decode_packet s) as [[] t|t].
    + destruct Hd as [Hpt Hmu].
      pose proof (render_keeps_decoder (decoder t) t eq_refl) as Hr.
      destruct ((skip_pad options ;; render_packet options config width) t)
        as [[] t'|t'].
      * unfold potential. cbn. rewrite Hr. lia.
      * destruct Hr as [Hdt [Hp|Hp]]; unfold potential; cbn [after];
          rewrite Hp, Hdt; lia.
    + unfold potential. cbn [after].
      destruct Hd as [[Hp Hle]|[via Hp]]; rewrite Hp; lia.
Qed.

Lemma run_terminates (fuel : nat) :
  forall s, (potential mu s <= fuel)%nat ->
    exists s', run options config width fuel s = Some s'.
Proof.
  induction fuel as [|fuel IH]; intros s Hs.
  - assert (Hout : exists via, pc s = L_out via).
    { unfold potential in Hs. destruct (pc s); try lia. eauto. }
    destruct Hout as [via Hout]. exists s. cbn. rewrite Hout. reflexivity.
  - cbn [run]. destruct (pc s) eqn:Hpc; [| |eauto];
      apply IH;
      (assert (Hpos : (0 < potential mu s)%nat)
         by (unfold potential; rewrite Hpc; lia));
      pose proof (step_potential s Hpos); lia.
Qed.
End Termination.

(** With a decoder that makes progress, [dump] returns. *)
Lemma dump_terminates `{Libipt} (mu : pt_packet_decoder -> nat) :
  decoder_progress mu ->
  forall junk buffer options w,
  exists fuel e w', dump fuel junk buffer options w = Some (e, w').
Proof.
  intros Hmu junk buffer options w. unfold dump.
  destruct (pt_pkt_alloc_decoder (dump_config buffer options)) as [d|].
  - destruct (run_terminates options (dump_config buffer options)
                (dump_col_offset_width buffer options) mu Hmu
                (potential mu (dump_entry junk d w)) (dump_entry junk d w)
                (Nat.le_refl _)) as [s' Hrun].
    exists (potential mu (dump_entry junk d w)). unfold dump_run.
    rewrite Hrun. eauto.
  - exists 0%nat. eauto.
Qed.


(** ** The used column widths *)

#[local] Arguments print : simpl never.
#[local] Arguments to_unsigned : simpl never.
#[local] Arguments fmt_star_c : simpl never.
#[local] Arguments fmt_0star_x : simpl never.
#[local] Arguments fmt_02x : simpl never.
#[local] Arguments fmt_ip : simpl never.
#[local] Arguments has_flag : simpl never.
#[local] Arguments Z.add : simpl never.
#[local] Arguments Z.sub : simpl never.
#[local] Arguments Z.opp : simpl never.
#[local] Arguments Z.ltb : simpl never.
#[local] Arguments Z.geb : simpl never.
#[local] Arguments Z.eqb : simpl never.

(** Case analysis on the innermost scrutinee of the goal. *)
Ltac destruct_scrutinee x :=
  lazymatch x with
  | context [match ?y with _ => _ end] => destruct_scrutinee y
  | _ => destruct x eqn:?
  end.

Ltac cases_of_goal :=
  repeat (cbn;
          match goal with
          | |- context [match ?x with _ => _ end] => destruct_scrutinee x
          end).

Ltac same_fields :=
  unfold same_payload_used, same_packettype_used, same_but_widths in *;
  cbn in *; intuition (subst; try congruence; try reflexivity).

Ltac related_block :=
  intros [pc1 e1 d1 li1 k1 str1 pos1 o1 t1 p1 io1]
         [pc2 e2 d2 li2 k2 str2 pos2 o2 t2 p2 io2] HR;
  assert (Heq : pc1 = pc2 /\ e1 = e2 /\ d1 = d2 /\ li1 = li2 /\ k1 = k2
                /\ str1 = str2 /\ pos1 = pos2 /\ io1 = io2) by same_fields;
  destruct Heq as (-> & -> & -> & -> & -> & -> & -> & ->);
  unfold related; unfold_stmts; cases_of_goal; same_fields.

Section UsedWidths.
Context `{Libipt}.
Variable options : ptdump_options.
Variable config : config_t.
Variable width : Z.

Lemma related_bind {A B} (R M Q : dump_state -> dump_state -> Prop)
    (m : stmt A) (k : A -> stmt B) :
  (forall s1 s2, R s1 s2 -> related M (m s1) (m s2)) ->
  (forall a s1 s2, M s1 s2 -> related Q (k a s1) (k a s2)) ->
  forall s1 s2, R s1 s2 -> related Q (bind m k s1) (bind m k s2).
Proof.
  intros Hm Hk s1 s2 HR. specialize (Hm s1 s2 HR). unfold bind, related in *.
  destruct (m s1) as [a1 t1|t1], (m s2) as [a2 t2|t2]; try contradiction.
  - destruct Hm as [<- HM]. apply (Hk a1 t1 t2 HM).
  - exact Hm.
Qed.

Lemma related_sync :
  forall s1 s2, same_but_widths s1 s2 ->
    related same_but_widths (sync s1) (sync s2).
Proof. unfold sync. related_block. Qed.

Lemma related_decode_packet :
  forall s1 s2, same_but_widths s1 s2 ->
    related same_but_widths (decode_packet s1) (decode_packet s2).
Proof. unfold decode_packet. related_block. Qed.

Lemma related_skip_pad :
  forall s1 s2, same_but_widths s1 s2 ->
    related same_but_widths (skip_pad options s1) (skip_pad options s2).
Proof. unfold skip_pad. related_block. Qed.

Lemma related_print_offset :
  forall s1 s2, same_but_widths s1 s2 ->
    related same_but_widths
      (print_offset options width s1) (print_offset options width s2).
Proof. unfold print_offset. related_block. Qed.

Lemma related_print_packet_type :
  forall s1 s2, same_but_widths s1 s2 ->
    related same_packettype_used
      (print_packet_type options s1) (print_packet_type options s2).
Proof. unfold print_packet_type. related_block. Qed.

Lemma related_print_payload :
  forall s1 s2, same_packettype_used s1 s2 ->
    related same_payload_used
      (print_payload options s1) (print_payload options s2).
Proof. unfold print_payload. related_block. Qed.

Lemma related_print_last_ip :
  forall s1 s2, same_payload_used s1 s2 ->
    related same_payload_used
      (print_last_ip options config s1) (print_last_ip options config s2).
Proof. unfold print_last_ip. related_block. Qed.

Lemma related_print_raw_loop (n : nat) :
  forall idx s1 s2, same_payload_used s1 s2 ->
    related same_payload_used
      (print_raw_loop options n idx s1) (print_raw_loop options n idx s2).
Proof.
  induction n as [|n IH]; intros idx; cbn [print_raw_loop].
  - related_block.
  - apply (related_bind _ same_payload_used); [related_block|intros d].
    apply (related_bind _ same_payload_used); [related_block|intros p].
    apply (related_bind _ same_payload_used); [related_block|intros ?].
    apply (related_bind _ same_payload_used); [related_block|intros ?].
    apply IH.
Qed.

Lemma related_print_raw_column :
  forall s1 s2, same_payload_used s1 s2 ->
    related same_payload_used
      (print_raw_column options s1) (print_raw_column options s2).
Proof.
  unfold print_raw_column.
  apply (related_bind _ same_payload_used); [related_block|intros p].
  apply (related_bind _ same_payload_used); [related_block|intros ?].
  apply (related_bind _ same_payload_used);
    [apply related_print_raw_loop|intros ?].
  related_block.
Qed.

Lemma related_print_raw_bytes :
  forall s1 s2, same_payload_used s1 s2 ->
    related same_payload_used
      (print_raw_bytes options s1) (print_raw_bytes options s2).
Proof.
  unfold print_raw_bytes.
  destruct (has_flag (flags options) ptd_show_raw_bytes); [|related_block].
  apply (related_bind _ same_payload_used); [related_block|intros used].
  apply (related_bind _ same_payload_used); [related_block|intros ?].
  apply (related_bind _ same_payload_used); [related_block|intros ?].
  apply (related_bind _ same_payload_used); [related_block|intros ?].
  apply related_print_raw_column.
Qed.

Lemma related_print_newline :
  forall s1 s2, same_payload_used s1 s2 ->
    related same_but_widths
      (print_newline options s1) (print_newline options s2).
Proof. unfold print_newline. related_block. Qed.

Lemma related_loop_body :
  forall s1 s2, same_but_widths s1 s2 ->
    related same_but_widths
      (loop_body options config width s1) (loop_body options config width s2).
Proof.
  unfold loop_body, render_packet.
  apply (related_bind _ same_but_widths);
    [apply related_decode_packet|intros ?].
  apply (related_bind _ same_but_widths); [apply related_skip_pad|intros ?].
  apply (related_bind _ same_but_widths);
    [apply related_print_offset|intros ?].
  apply (related_bind _ same_packettype_used);
    [apply related_print_packet_type|intros ?].
  apply (related_bind _ same_payload_used);
    [apply related_print_payload|intros ?].
  apply (related_bind _ same_payload_used);
    [apply related_print_last_ip|intros ?].
  apply (related_bind _ same_payload_used);
    [apply related_print_raw_bytes|intros ?].
  apply related_print_newline.
Qed.

Lemma related_after {A} (o1 o2 : outcome A) :
  related same_but_widths o1 o2 -> same_but_widths (after o1) (after o2).
Proof.
  unfold related. destruct o1, o2; simpl; intuition.
Qed.

Lemma related_step (s1 s2 : dump_state) :
  same_but_widths s1 s2 ->
  same_but_widths (step options config width s1) (step options config width s2).
Proof.
  intros HR. unfold step.
  assert (Hpc : pc s1 = pc s2) by apply HR. rewrite <- Hpc.
  destruct (pc s1); [| |exact HR]; apply related_after;
    (apply (related_bind same_but_widths same_but_widths);
     [|intros ? t1 t2 HM; unfold related, goto; same_fields|exact HR]).
  - apply related_sync.
  - apply related_loop_body.
Qed.

Lemma related_run (fuel : nat) :
  forall s1 s2, same_but_widths s1 s2 ->
    match run options config width fuel s1, run options config width fuel s2
    with
    | Some t1, Some t2 => same_but_widths t1 t2
    | None, None => True
    | _, _ => False
    end.
Proof.
  induction fuel as [|fuel IH]; intros s1 s2 HR; simpl;
    assert (Hpc : pc s1 = pc s2) by apply HR; rewrite <- Hpc;
    destruct (pc s1); try exact HR; try exact Logic.I;
    apply IH, related_step, HR.
Qed.
End UsedWidths.

(** C5 (as the code has it): the three used widths are zero when [dump]
    first reaches [sync:] and are not reset afterwards; a step of the
    engine, and so a whole run, behaves the same whatever values they hold
    when it starts: each one is assigned from the current packet's own
    prints before it is read. *)
Theorem used_widths_not_carried_over `{Libipt}
    (options : ptdump_options) (config : config_t) (width : Z) :
  (forall junk d w,
      col_offset_width_used (dump_entry junk d w) = 0
      /\ col_packettype_width_used (dump_entry junk d w) = 0
      /\ col_payload_width_used (dump_entry junk d w) = 0)
  /\ (forall a b c s,
         same_but_widths (step options config width s)
           (step options config width (with_widths a b c s)))
  /\ (forall a b c fuel s,
         match run options config width fuel s,
               run options config width fuel (with_widths a b c s) with
         | Some t1, Some t2 =>
             errcode t1 = errcode t2 /\ io t1 = io t2 /\ pc t1 = pc t2
         | None, None => True
         | _, _ => False
         end).
Proof.
  assert (Hw : forall a b c s, same_but_widths s (with_widths a b c s)).
  { intros. unfold same_but_widths, with_widths. cbn. intuition. }
  split; [|split].
  - intros. repeat split.
  - intros. apply related_step, Hw.
  - intros a b c fuel s.
    pose proof (related_run options config width fuel s _ (Hw a b c s)) as Hr.
    destruct (run options config width fuel s),
      (run options config width fuel (with_widths a b c s)); try exact Hr.
    unfold same_but_widths in Hr. intuition.
Qed.

(** ** Packets of size zero *)

(** C4: when [pt_pkt_next] succeeds with a packet whose size is zero, the
    turn of the loop reports the error at the current offset, sets
    [errcode] to [-pte_bad_packet] and jumps to [sync:]; nothing is
    written to standard output and the run does not end. *)
Theorem zero_size_packet_resyncs `{Libipt}
    (options : ptdump_options) (config : config_t) (width : Z)
    (s : dump_state) (e offset r : Z) (p : packet) (d' : pt_packet_decoder) :
  pc s = L_loop ->
  pt_pkt_get_offset (decoder s) = (e, offset) ->
  0 <= e ->
  pt_pkt_next (decoder s) = (r, p, d') ->
  pt_errcode r = pte_ok ->
  pte_eos <> pte_ok ->
  size p = 0 ->
  let s' := step options config width s in
  pc s' = L_sync
  /\ errcode s' = - pte_bad_packet
  /\ decoder s' = d'
  /\ io s' =
     fprintf_stderr
       (DiagPos "packet decoding failed, packet size is reported to be 0"
          offset) (io s)
  /\ w_stdout (io s') = w_stdout (io s).
Proof.
  intros Hpc Hoff He Hnext Hok Heos Hsize s'.
  assert (Hs' : s' =
    set_pc L_sync
      (set_errcode (- pte_bad_packet)
         (set_io
            (fprintf_stderr
               (DiagPos
                  "packet decoding failed, packet size is reported to be 0"
                  offset) (io s))
            (set_pkt p (set_decoder d' (set_pos offset (set_errcode e s))))))).
  { subst s'. unfold step. rewrite Hpc, after_bind.
    unfold loop_body, decode_packet.
    unfold bind at 1 2. unfold gets at 1. rewrite Hoff.
    unfold bind at 1. unfold assign at 1.
    assert (Hlt : (e <? 0) = false) by (apply Z.ltb_ge; exact He).
    rewrite Hlt.
    unfold bind at 1. unfold assign at 1. rewrite Hnext.
    unfold bind at 1. unfold assign at 1.
    unfold bind at 1. unfold assign at 1.
    rewrite Hok.
    assert (Hne : (pte_ok =? pte_eos) = false)
      by (apply Z.eqb_neq; congruence).
    rewrite Hne, Z.eqb_refl. cbn [negb]. rewrite Hsize, Z.eqb_refl.
    reflexivity. }
  rewrite Hs'. repeat split.
Qed.

(** ** The last-IP state across synchronization *)

(** C6: [dump] starts at [sync:]; a step from [sync:] whose
    [pt_pkt_sync_forward] succeeds enters the loop with the last-IP state
    freshly initialised, whatever it held before; and the loop is entered
    from outside in no other way. *)
Theorem sync_resets_last_ip `{Libipt}
    (options : ptdump_options) (config : config_t) (width : Z) :
  (forall junk d w, pc (dump_entry junk d w) = L_sync)
  /\ (forall s,
        pc s = L_sync ->
        0 <= fst (pt_pkt_sync_forward (decoder s)) ->
        pc (step options config width s) = L_loop
        /\ last_ip (step options config width s) = pt_last_ip_init
        /\ forall li,
            step options config width (set_last_ip li s)
            = step options config width s)
  /\ (forall s,
        pc s <> L_loop ->
        pc (step options config width s) = L_loop ->
        pc s = L_sync
        /\ last_ip (step options config width s) = pt_last_ip_init).
Proof.
  assert (Hsync : forall s,
             pc s = L_sync ->
             step options config width s =
             let (e, d') := pt_pkt_sync_forward (decoder s) in
             if e <? 0 then
               set_pc (L_out exit_sync_error)
                 (let (e2, offset) := pt_pkt_get_offset d' in
                  set_io
                    (if e2 <? 0 then
                       fprintf_stderr
                         (DiagErr "could not determine offset" (pt_errcode e2))
                         (fprintf_stderr (DiagErr "sync error" (pt_errcode e))
                            (io s))
                     else
                       fprintf_stderr
                         (DiagErrPos "sync error" (pt_errcode e) offset) (io s))
                    (set_errcode e (set_decoder d' s)))
             else
               set_pc L_loop
                 (set_last_ip pt_last_ip_init
                    (set_errcode e (set_decoder d' s)))).
  { intros s Hpc. unfold step. rewrite Hpc.
    unfold sync. unfold_stmts.
    destruct (pt_pkt_sync_forward (decoder s)) as [e d'].
    destruct (e <? 0); [|reflexivity].
    destruct (pt_pkt_get_offset d') as [e2 offset].
    destruct (e2 <? 0); reflexivity. }
  split; [|split].
  - reflexivity.
  - intros s Hpc Hok.
    assert (Hinit : forall t, pc t = L_sync ->
               0 <= fst (pt_pkt_sync_forward (decoder t)) ->
               step options config width t =
               set_pc L_loop
                 (set_last_ip pt_last_ip_init
                    (set_errcode (fst (pt_pkt_sync_forward (decoder t)))
                       (set_decoder (snd (pt_pkt_sync_forward (decoder t)))
                          t)))).
    { intros t Ht Hge. rewrite (Hsync t Ht).
      destruct (pt_pkt_sync_forward (decoder t)) as [e d']. simpl in *.
      assert (Hlt : (e <? 0) = false) by (apply Z.ltb_ge; exact Hge).
      rewrite Hlt. reflexivity. }
    rewrite (Hinit s Hpc Hok). split; [reflexivity|]. split; [reflexivity|].
    intros li. rewrite (Hinit (set_last_ip li s)); [reflexivity|exact Hpc|exact Hok].
  - intros s Hne Hloop. destruct (pc s) eqn:Hpc.
    + split; [reflexivity|].
      rewrite (Hsync s Hpc) in *.
      destruct (pt_pkt_sync_forward (decoder s)) as [e d'].
      destruct (e <? 0); [discriminate|reflexivity].
    + contradiction.
    + unfold step in Hloop. rewrite Hpc in Hloop. congruence.
Qed.

(** ** Failing prints *)

Lemma bind_next `{Libipt} {A B} (m : stmt A) (k : A -> stmt B) s a s' :
  m s = Next a s' -> bind m k s = k a s'.
Proof. intros Hm. unfold bind. rewrite Hm. reflexivity. Qed.

Lemma bind_jump `{Libipt} {A B} (m : stmt A) (k : A -> stmt B) s s' :
  m s = Jump s' -> bind m k s = Jump s'.
Proof. intros Hm. unfold bind. rewrite Hm. reflexivity. Qed.

Lemma print_stderr `{Libipt} (options : ptdump_options) text w :
  w_stderr (snd (print options text w)) = w_stderr w.
Proof.
  unfold print, vprintf.
  destruct (has_flag (flags options) ptd_quiet); [reflexivity|].
  destruct (w_faults w) as [|[] fs]; cbn;
    repeat match goal with
           | |- context [if ?b then _ else _] => destruct b
           end; reflexivity.
Qed.

Section UncheckedPrints.
Context `{Libipt}.
Variable options : ptdump_options.

Lemma silent_print_raw_bytes (s : dump_state) :
  exists s', print_raw_bytes options s = Next tt s' /\ silent s s'.
Proof.
  assert (Hk : keeps (silent s) (fun _ => False) (print_raw_bytes options)).
  { apply keeps_print_raw_bytes.
    intros text t (Hs & Hp & He). unfold silent. cbn.
    rewrite print_stderr. auto. }
  specialize (Hk s). unfold silent at 1 in Hk.
  specialize (Hk (conj eq_refl (conj eq_refl eq_refl))).
  destruct (print_raw_bytes options s) as [[] s'|s']; [|contradiction].
  exists s'. split; [reflexivity|exact Hk].
Qed.

Lemma silent_print_newline (s : dump_state) :
  exists s', print_newline options s = Next tt s' /\ silent s s'.
Proof.
  assert (Hk : keeps (silent s) (fun _ => False) (print_newline options)).
  { apply keeps_print_newline.
    intros text t (Hs & Hp & He). unfold silent. cbn.
    rewrite print_stderr. auto. }
  specialize (Hk s). unfold silent at 1 in Hk.
  specialize (Hk (conj eq_refl (conj eq_refl eq_refl))).
  destruct (print_newline options s) as [[] s'|s']; [|contradiction].
  exists s'. split; [reflexivity|exact Hk].
Qed.
End UncheckedPrints.

(** C1 (as the code has it): a negative result of [print] in the offset
    column, in the packet-type column or in the last-IP text is reported
    at the packet's offset, sets [errcode] to [-pte_internal] and jumps to
    [sync:], so that nothing more of the packet is rendered; the prints of
    the raw-bytes column and of the newline have their results discarded:
    those blocks never jump and report nothing. *)
Theorem checked_print_failures_resync `{Libipt}
    (options : ptdump_options) (config : config_t) (width : Z) :
  (forall s r w,
      has_flag (flags options) ptd_show_offset = true ->
      print options (fmt_0star_x width (pos s)) (io s) = (r, w) ->
      r < 0 ->
      render_packet options config width s
      = Jump (print_failed "cannot print offset" w s))
  /\ (forall s s1 r w,
         print_offset options width s = Next tt s1 ->
         print options (pt_print_packet_type_str (pkt s1)) (io s1) = (r, w) ->
         r < 0 ->
         render_packet options config width s
         = Jump (print_failed "cannot print packet type" w s1))
  /\ (forall s s1 s2 s3 u li' q ip r w,
         print_offset options width s = Next tt s1 ->
         print_packet_type options s1 = Next tt s2 ->
         print_payload options s2 = Next tt s3 ->
         has_flag (flags options) ptd_show_last_ip = true ->
         is_ip_packet (type (pkt s3)) = true ->
         pt_last_ip_update_ip (last_ip s3) (payload_ip (payload (pkt s3)))
           config = (u, li') ->
         u <> - pte_invalid -> u <> - pte_bad_packet -> u <> - pte_noip ->
         pt_last_ip_query li' = (q, ip) ->
         q <> - pte_invalid -> q <> - pte_noip ->
         q = - pte_ip_suppressed \/ q = 0 ->
         print options
           (if q =? - pte_ip_suppressed then ", ip=<suppressed>" else fmt_ip ip)
           (io s3) = (r, w) ->
         r < 0 ->
         render_packet options config width s
         = Jump (print_failed "cannot print last-IP" w (set_last_ip li' s3)))
  /\ (forall s, exists s',
         print_raw_bytes options s = Next tt s' /\ silent s s')
  /\ (forall s, exists s',
         print_newline options s = Next tt s' /\ silent s s').
Proof.
  split; [|split; [|split; [|split]]].
  - intros s r w Hflag Hprint Hr.
    unfold render_packet. apply bind_jump.
    unfold print_offset. rewrite Hflag. unfold_stmts. rewrite Hprint.
    apply Z.ltb_lt in Hr. rewrite Hr. reflexivity.
  - intros s s1 r w Hoff Hprint Hr.
    unfold render_packet. rewrite (bind_next _ _ _ _ _ Hoff).
    apply bind_jump.
    unfold print_packet_type. unfold_stmts. rewrite Hprint.
    apply Z.ltb_lt in Hr. rewrite Hr. reflexivity.
  - intros s s1 s2 s3 u li' q ip r w Hoff Htype Hpay Hflag Hip Hupd
      Hu1 Hu2 Hu3 Hq Hq1 Hq2 Hq3 Hprint Hr.
    unfold render_packet.
    rewrite (bind_next _ _ _ _ _ Hoff), (bind_next _ _ _ _ _ Htype),
      (bind_next _ _ _ _ _ Hpay).
    apply bind_jump.
    unfold print_last_ip. rewrite Hflag. unfold_stmts.
    rewrite Hip, Hupd.
    apply Z.eqb_neq in Hu1, Hu2, Hu3, Hq1, Hq2. rewrite Hu1, Hu2, Hu3.
    cbn [set_last_ip last_ip]. rewrite Hq, Hq1, Hq2.
    apply Z.ltb_lt in Hr.
    destruct (q =? - pte_ip_suppressed) eqn:Hs.
    + cbn [io set_last_ip]. rewrite Hprint, Hr. reflexivity.
    + destruct Hq3 as [->| ->]; [rewrite Z.eqb_refl in Hs; discriminate|].
      rewrite Z.eqb_refl. cbn [io set_last_ip]. rewrite Hprint, Hr.
      reflexivity.
  - intros s. apply silent_print_raw_bytes.
  - intros s. apply silent_print_newline.
Qed.

(** ** Hexadecimal text *)

Lemma hex_digit_ok (d : Z) :
  0 <= d < 16 ->
  is_hex_lower (hex_digit d) = true /\ hex_digit_value (hex_digit d) = d.
Proof.
  intros Hd.
  assert (Hc : d = 0 \/ d = 1 \/ d = 2 \/ d = 3 \/ d = 4 \/ d = 5 \/ d = 6
               \/ d = 7 \/ d = 8 \/ d = 9 \/ d = 10 \/ d = 11 \/ d = 12
               \/ d = 13 \/ d = 14 \/ d = 15) by lia.
  repeat (destruct Hc as [->|Hc]; [split; reflexivity|]).
  subst. split; reflexivity.
Qed.

Lemma all_chars_append (f : ascii -> bool) (a b : string) :
  all_chars f (a +++ b) = all_chars f a && all_chars f b.
Proof.
  induction a as [|c a IH]; simpl; [reflexivity|].
  rewrite IH. apply andb_assoc.
Qed.

Lemma all_chars_replicate (f : ascii -> bool) (n : nat) (c : ascii) :
  f c = true -> all_chars f (replicate n c) = true.
Proof. intros Hc. induction n as [|n IH]; simpl; [reflexivity|]. now rewrite Hc. Qed.

Lemma hex_value_from_shift (s : string) :
  forall acc, hex_value_from acc s = acc * 16 ^ strlen s + hex_value s.
Proof.
  unfold hex_value, strlen.
  induction s as [|c s IH]; intros acc.
  - cbn [hex_value_from String.length]. change (16 ^ Z.of_nat 0) with 1. lia.
  - cbn [hex_value_from String.length].
    rewrite (IH (16 * acc + hex_digit_value c)), (IH (16 * 0 + hex_digit_value c)).
    rewrite Nat2Z.inj_succ, Z.pow_succ_r by lia. lia.
Qed.

Lemma hex_value_zeros (n : nat) (s : string) :
  hex_value (replicate n "0" +++ s) = hex_value s.
Proof.
  unfold hex_value. induction n as [|n IH]; [reflexivity|].
  cbn [replicate String.append hex_value_from]. exact IH.
Qed.

Lemma all_chars_hex_digits (fuel : nat) :
  forall v acc, 0 <= v ->
    all_chars is_hex_lower acc = true ->
    all_chars is_hex_lower (hex_digits fuel v acc) = true.
Proof.
  induction fuel as [|fuel IH]; intros v acc Hv Hacc; cbn [hex_digits].
  - exact Hacc.
  - assert (Hd : all_chars is_hex_lower (String (hex_digit (v mod 16)) acc)
                 = true).
    { cbn [all_chars]. rewrite Hacc.
      destruct (hex_digit_ok (v mod 16)) as [-> _]; [|reflexivity].
      apply Z.mod_pos_bound. lia. }
    destruct (v / 16 =? 0); [exact Hd|].
    apply IH; [|exact Hd]. apply Z.div_pos; lia.
Qed.

Lemma length_hex_digits (fuel : nat) :
  forall v acc,
    (String.length acc + Nat.min 1 fuel <= String.length (hex_digits fuel v acc)
     <= String.length acc + fuel)%nat.
Proof.
  induction fuel as [|fuel IH]; intros v acc; cbn [hex_digits].
  - lia.
  - destruct (v / 16 =? 0).
    + cbn [String.length]. lia.
    + specialize (IH (v / 16) (String (hex_digit (v mod 16)) acc)).
      cbn [String.length] in IH. lia.
Qed.

Lemma hex_value_hex_digits (fuel : nat) :
  forall v acc, 0 <= v < 16 ^ Z.of_nat fuel ->
    hex_value (hex_digits fuel v acc) = v * 16 ^ strlen acc + hex_value acc.
Proof.
  induction fuel as [|fuel IH]; intros v acc Hv; cbn [hex_digits].
  - change (16 ^ Z.of_nat 0) with 1 in Hv. assert (v = 0) by lia. subst. lia.
  - assert (Hstep : hex_value (String (hex_digit (v mod 16)) acc)
                    = (v mod 16) * 16 ^ strlen acc + hex_value acc).
    { unfold hex_value at 1. cbn [hex_value_from].
      rewrite hex_value_from_shift.
      destruct (hex_digit_ok (v mod 16)) as [_ ->]; [|lia].
      apply Z.mod_pos_bound. lia. }
    pose proof (Z.div_mod v 16 ltac:(lia)) as Hdm.
    destruct (Z.eqb_spec (v / 16) 0) as [Hz|Hnz].
    + rewrite Hstep. replace (v mod 16) with v by lia. reflexivity.
    + rewrite IH.
      * rewrite Hstep. unfold strlen. cbn [String.length].
        rewrite Nat2Z.inj_succ, Z.pow_succ_r by lia. lia.
      * rewrite Nat2Z.inj_succ, Z.pow_succ_r in Hv by lia.
        split; [apply Z.div_pos; lia|].
        apply Z.div_lt_upper_bound; lia.
Qed.

(** A value below [16 ^ width] (with [width] at most 16), printed with
    ["%0<width>x"]: exactly [width] lowercase hexadecimal digits that
    denote the value. *)
Lemma pad_left_hex (width : nat) (v : Z) :
  (1 <= width <= 16)%nat ->
  0 <= v < 16 ^ Z.of_nat width ->
  let h := pad_left "0" (Z.of_nat width) (fmt_x v) in
  String.length h = width
  /\ all_chars is_hex_lower h = true
  /\ hex_value h = v.
Proof.
  intros Hw Hv h. subst h. unfold pad_left, fmt_x.
  assert (H16 : 0 <= v < 16 ^ Z.of_nat 16).
  { split; [lia|]. apply Z.lt_le_trans with (16 ^ Z.of_nat width); [lia|].
    apply Z.pow_le_mono_r; lia. }
  (* the digits fit in [width] characters *)
  assert (Hfit : forall fuel x acc, 0 <= x < 16 ^ Z.of_nat fuel ->
             (String.length (hex_digits 16 x acc)
              <= String.length acc + Nat.max 1 fuel)%nat).
  { clear. generalize 16%nat as total.
    induction total as [|total IH]; intros fuel x acc Hx; cbn [hex_digits].
    - lia.
    - destruct (Z.eqb_spec (x / 16) 0) as [Hz|Hnz].
      + cbn [String.length]. lia.
      + destruct fuel as [|fuel].
        * change (16 ^ Z.of_nat 0) with 1 in Hx.
          exfalso. apply Hnz. apply Z.div_small. lia.
        * specialize (IH fuel (x / 16) (String (hex_digit (x mod 16)) acc)).
          cbn [String.length] in IH.
          assert (Hx' : 0 <= x / 16 < 16 ^ Z.of_nat fuel).
          { rewrite Nat2Z.inj_succ, Z.pow_succ_r in Hx by lia.
            split; [apply Z.div_pos; lia|].
            apply Z.div_lt_upper_bound; lia. }
          specialize (IH Hx').
          destruct fuel as [|fuel'].
          -- change (16 ^ Z.of_nat 0) with 1 in Hx'.
             exfalso. apply Hnz. lia.
          -- lia. }
  pose proof (Hfit width v "" Hv) as Hlen.
  pose proof (length_hex_digits 16 v "") as Hlen'.
  cbn [String.length] in Hlen, Hlen'.
  split; [|split].
  - rewrite length_append, length_replicate. unfold strlen. lia.
  - rewrite all_chars_append, all_chars_replicate by reflexivity.
    apply all_chars_hex_digits; [lia|reflexivity].
  - rewrite hex_value_zeros, hex_value_hex_digits by exact H16.
    change (strlen "") with 0. change (hex_value "") with 0. lia.
Qed.

(** ** Prints that succeed *)

Lemma is_blank_empty : is_blank "".
Proof. reflexivity. Qed.

Lemma is_blank_replicate (n : nat) : is_blank (replicate n " ").
Proof. unfold is_blank. now rewrite length_replicate. Qed.

Lemma replicate_append (n m : nat) (c : ascii) :
  replicate n c +++ replicate m c = replicate (n + m) c.
Proof. induction n as [|n IH]; simpl; [reflexivity|now rewrite IH]. Qed.

Lemma is_blank_append (a b : string) :
  is_blank a -> is_blank b -> is_blank (a +++ b).
Proof.
  unfold is_blank. intros Ha Hb.
  rewrite length_append, <- replicate_append, <- Ha, <- Hb. reflexivity.
Qed.

Lemma is_blank_fmt_star_c (width : Z) : is_blank (fmt_star_c width " ").
Proof.
  unfold fmt_star_c, pad_left.
  apply is_blank_append; [apply is_blank_replicate|reflexivity].
Qed.

Section SucceedingPrints.
Context `{Libipt}.
Variable options : ptdump_options.
Hypothesis not_quiet : has_flag (flags options) ptd_quiet = false.

Lemma print_succeeds (text : string) (w : world) :
  no_faults w ->
  exists r w',
    print options text w = (r, w')
    /\ (r = strlen text \/ (strlen text = 0 /\ r = - pte_internal))
    /\ w_stdout w' = w_stdout w +++ text
    /\ w_stderr w' = w_stderr w
    /\ no_faults w'.
Proof.
  unfold print, vprintf, no_faults. rewrite not_quiet. intros Hw.
  assert (Hlen : 0 <= strlen text) by (unfold strlen; lia).
  destruct (w_faults w) as [|[] fs]; cbn [forallb negb andb] in Hw;
    try discriminate;
    destruct (Z.leb_spec (strlen text) 0);
    eexists; eexists; (split; [reflexivity|]);
    cbn [w_stdout w_stderr w_faults forallb];
    (split; [|split; [reflexivity|split; [reflexivity|assumption]]]);
    solve [left; reflexivity | right; split; [lia|reflexivity]].
Qed.

Lemma do_print_succeeds (text : string) (s : dump_state) :
  no_faults (io s) ->
  exists r t, do_print options text s = Next r t /\ wrote text s t.
Proof.
  intros Hw. unfold do_print.
  destruct (print_succeeds text (io s) Hw) as (r & w' & Hp & _ & Ho & _ & Hf).
  rewrite Hp. exists r, (set_io w' s). split; [reflexivity|].
  unfold wrote. cbn. auto.
Qed.

Lemma wrote_refl (s : dump_state) : no_faults (io s) -> wrote "" s s.
Proof. intros Hw. unfold wrote. rewrite append_empty_r. auto. Qed.

Lemma wrote_trans (a b : string) (s t u : dump_state) :
  wrote a s t -> wrote b t u -> wrote (a +++ b) s u.
Proof.
  unfold wrote. intros (Ho & Hf & Hd & Hk & Hl) (Ho' & Hf' & Hd' & Hk' & Hl').
  rewrite Ho', Ho, append_assoc. repeat split; congruence.
Qed.

Lemma print_raw_loop_writes (n : nat) :
  forall k s,
    no_faults (io s) ->
    size (pkt s) = Z.of_nat (k + n) ->
    exists t,
      print_raw_loop options n (Z.of_nat k) s = Next tt t
      /\ wrote (String.concat " " (raw_groups (decoder s) k n)) s t.
Proof.
  induction n as [|n IH]; intros k s Hw Hsize.
  - exists s. split; [reflexivity|]. now apply wrote_refl.
  - cbn [print_raw_loop]. unfold bind at 1 2. unfold gets.
    destruct (do_print_succeeds (fmt_02x (packet_byte (decoder s) (Z.of_nat k)))
                s Hw) as (r & t1 & Hp1 & Hw1).
    rewrite (bind_next _ _ _ _ _ Hp1).
    assert (Hsize1 : size (pkt t1) = Z.of_nat (S k + n)).
    { destruct Hw1 as (_ & _ & _ & -> & _). rewrite Hsize. f_equal. lia. }
    destruct n as [|n].
    + (* the last byte: no separator *)
      assert (Hlast : (Z.of_nat k =? size (pkt s) - 1) = true)
        by (apply Z.eqb_eq; lia).
      rewrite Hlast. cbn [negb]. unfold bind at 1. unfold ret at 1.
      cbn [print_raw_loop]. exists t1. split; [reflexivity|].
      unfold raw_groups. cbn [seq map String.concat]. exact Hw1.
    + assert (Hmore : (Z.of_nat k =? size (pkt s) - 1) = false)
        by (apply Z.eqb_neq; lia).
      rewrite Hmore. cbn [negb].
      destruct (do_print_succeeds " " t1 (proj1 (proj2 Hw1)))
        as (r2 & t2 & Hp2 & Hw2).
      unfold bind at 1. unfold bind at 1. rewrite Hp2. unfold ret at 1.
      assert (Hsize2 : size (pkt t2) = Z.of_nat (S k + S n)).
      { destruct Hw2 as (_ & _ & _ & -> & _). exact Hsize1. }
      destruct (IH (S k) t2 (proj1 (proj2 Hw2)) Hsize2) as (t & Hloop & Hw3).
      replace (Z.of_nat k + 1) with (Z.of_nat (S k)) by lia.
      exists t. split; [exact Hloop|].
      assert (Hd : decoder t2 = decoder s).
      { destruct Hw1 as (_ & _ & Hd1 & _), Hw2 as (_ & _ & Hd2 & _).
        congruence. }
      rewrite Hd in Hw3.
      change (raw_groups (decoder s) k (S (S n)))
        with (fmt_02x (packet_byte (decoder s) (Z.of_nat k))
              :: raw_groups (decoder s) (S k) (S n)).
      cbn [String.concat].
      change (raw_groups (decoder s) (S k) (S n))
        with (fmt_02x (packet_byte (decoder s) (Z.of_nat (S k)))
              :: raw_groups (decoder s) (S (S k)) n) in *.
      apply (wrote_trans _ _ _ _ _ Hw1).
      apply (wrote_trans _ _ _ _ _ Hw2). exact Hw3.
Qed.

Lemma print_raw_column_writes (n : nat) (s : dump_state) :
  no_faults (io s) ->
  size (pkt s) = Z.of_nat n ->
  exists t,
    print_raw_column options s = Next tt t
    /\ wrote ("[" +++ String.concat " " (raw_groups (decoder s) 0 n) +++ "]")
         s t.
Proof.
  intros Hw Hsize. unfold print_raw_column. unfold bind at 1. unfold gets.
  destruct (do_print_succeeds "[" s Hw) as (r1 & t1 & Hp1 & Hw1).
  rewrite (bind_next _ _ _ _ _ Hp1).
  assert (Hsize1 : size (pkt t1) = Z.of_nat (0 + n)).
  { destruct Hw1 as (_ & _ & _ & -> & _). exact Hsize. }
  rewrite Hsize, Nat2Z.id.
  destruct (print_raw_loop_writes n 0 t1 (proj1 (proj2 Hw1)) Hsize1)
    as (t2 & Hloop & Hw2).
  change (Z.of_nat 0) with 0 in Hloop.
  rewrite (bind_next _ _ _ _ _ Hloop).
  destruct (do_print_succeeds "]" t2 (proj1 (proj2 Hw2)))
    as (r3 & t3 & Hp3 & Hw3).
  rewrite (bind_next _ _ _ _ _ Hp3). unfold ret.
  exists t3. split; [reflexivity|].
  assert (Hd : decoder t1 = decoder s) by apply Hw1.
  rewrite Hd in Hw2.
  apply (wrote_trans _ _ _ _ _ Hw1). apply (wrote_trans _ _ _ _ _ Hw2).
  exact Hw3.
Qed.

Lemma fillup_column_writes (actual col : Z) (s : dump_state) :
  no_faults (io s) ->
  exists gap t,
    fillup_column options actual col s = Next tt t
    /\ wrote gap s t /\ is_blank gap.
Proof.
  intros Hw. unfold fillup_column. destruct (actual >=? col).
  - exists "", s. split; [reflexivity|].
    split; [now apply wrote_refl|apply is_blank_empty].
  - destruct (do_print_succeeds (fmt_star_c (col - actual) " ") s Hw)
      as (r & t & Hp & Hwt).
    rewrite (bind_next _ _ _ _ _ Hp). unfold ret.
    exists (fmt_star_c (col - actual) " "), t.
    split; [reflexivity|]. split; [exact Hwt|apply is_blank_fmt_star_c].
Qed.

Lemma print_col_separator_writes (s : dump_state) :
  no_faults (io s) ->
  exists t, print_col_separator options s = Next tt t /\ wrote "  " s t.
Proof.
  intros Hw. unfold print_col_separator.
  destruct (do_print_succeeds "  " s Hw) as (r & t & Hp & Hwt).
  rewrite (bind_next _ _ _ _ _ Hp). unfold ret. eauto.
Qed.

(** Fill the column and separate it from the next: some blank text. *)
Lemma fill_and_separate_writes (actual col : Z) (s : dump_state) :
  no_faults (io s) ->
  exists gap t,
    (fillup_column options actual col ;; print_col_separator options) s
    = Next tt t
    /\ wrote gap s t /\ is_blank gap.
Proof.
  intros Hw.
  destruct (fillup_column_writes actual col s Hw) as (g1 & t1 & Hf & Hw1 & Hb1).
  destruct (print_col_separator_writes t1 (proj1 (proj2 Hw1)))
    as (t2 & Hs & Hw2).
  exists (g1 +++ "  "), t2. rewrite (bind_next _ _ _ _ _ Hf).
  split; [exact Hs|]. split.
  - apply (wrote_trans _ _ _ _ _ Hw1 Hw2).
  - apply is_blank_append; [exact Hb1|reflexivity].
Qed.
End SucceedingPrints.

(** ** The raw-bytes column *)

Lemma packet_byte_range `{Libipt} (d : pt_packet_decoder) (i : Z) :
  0 <= packet_byte d i < 256.
Proof. unfold packet_byte. apply Z.mod_pos_bound. lia. Qed.

(** C7: for a packet of size [n], from 1 to 255 (the index of the loop is
    a [uint8_t]), with raw bytes enabled, quiet mode off and no failing
    write, [print_raw_bytes] writes blank filling and then the column:
    one opening bracket, the [n] bytes of the packet in order as groups
    of two lowercase hexadecimal digits joined by single spaces, one
    closing bracket. *)
Theorem raw_bytes_column_format `{Libipt}
    (options : ptdump_options) (s : dump_state) (n : nat) :
  has_flag (flags options) ptd_quiet = false ->
  has_flag (flags options) ptd_show_raw_bytes = true ->
  no_faults (io s) ->
  size (pkt s) = Z.of_nat n ->
  (1 <= n <= 255)%nat ->
  let groups := raw_groups (decoder s) 0 n in
  let column := "[" +++ String.concat " " groups +++ "]" in
  (exists t,
      print_raw_column options s = Next tt t
      /\ w_stdout (io t) = w_stdout (io s) +++ column)
  /\ (exists gap t,
         print_raw_bytes options s = Next tt t
         /\ is_blank gap
         /\ w_stdout (io t) = w_stdout (io s) +++ gap +++ column)
  /\ List.length groups = n
  /\ (forall i, (i < n)%nat ->
         let g := nth i groups "" in
         g = fmt_02x (packet_byte (decoder s) (Z.of_nat i))
         /\ String.length g = 2%nat
         /\ all_chars is_hex_lower g = true
         /\ hex_value g = packet_byte (decoder s) (Z.of_nat i)).
Proof.
  intros Hq Hraw Hw Hsize Hn groups column.
  split; [|split; [|split]].
  - destruct (print_raw_column_writes options Hq n s Hw Hsize)
      as (t & Hcol & Hwt).
    exists t. split; [exact Hcol|apply Hwt].
  - unfold print_raw_bytes. rewrite Hraw. unfold bind at 1. unfold gets at 1.
    assert (Hfirst : exists g1 t1,
               (if col_payload_width_used s =? 0
                then tused <- gets col_packettype_width_used ;;
                     fillup_column options tused col_packettype_width ;;
                     print_col_separator options
                else ret tt) s = Next tt t1
               /\ wrote g1 s t1 /\ is_blank g1).
    { destruct (col_payload_width_used s =? 0).
      - unfold bind at 1. unfold gets at 1.
        apply (fill_and_separate_writes options Hq _ _ s Hw).
      - exists "", s. split; [reflexivity|].
        split; [now apply wrote_refl|apply is_blank_empty]. }
    destruct Hfirst as (g1 & t1 & H1 & Hw1 & Hb1).
    rewrite (bind_next _ _ _ _ _ H1).
    destruct (fillup_column_writes options Hq (col_payload_width_used s)
                col_payload_width t1 (proj1 (proj2 Hw1)))
      as (g2 & t2 & H2 & Hw2 & Hb2).
    rewrite (bind_next _ _ _ _ _ H2).
    destruct (print_col_separator_writes options Hq t2 (proj1 (proj2 Hw2)))
      as (t3 & H3 & Hw3).
    rewrite (bind_next _ _ _ _ _ H3).
    assert (Hsize3 : size (pkt t3) = Z.of_nat n).
    { destruct Hw1 as (_ & _ & _ & Hk1 & _), Hw2 as (_ & _ & _ & Hk2 & _),
        Hw3 as (_ & _ & _ & Hk3 & _). congruence. }
    destruct (print_raw_column_writes options Hq n t3 (proj1 (proj2 Hw3)) Hsize3)
      as (t4 & H4 & Hw4).
    assert (Hd : decoder t3 = decoder s).
    { destruct Hw1 as (_ & _ & Hd1 & _), Hw2 as (_ & _ & Hd2 & _),
        Hw3 as (_ & _ & Hd3 & _). congruence. }
    rewrite Hd in Hw4.
    exists (g1 +++ g2 +++ "  "), t4. split; [exact H4|]. split.
    + apply is_blank_append; [exact Hb1|].
      apply is_blank_append; [exact Hb2|reflexivity].
    + pose proof (wrote_trans _ _ _ _ _ Hw1
                    (wrote_trans _ _ _ _ _ Hw2
                       (wrote_trans _ _ _ _ _ Hw3 Hw4))) as Hall.
      destruct Hall as (Ho & _). rewrite Ho. subst column groups.
      rewrite !append_assoc. reflexivity.
  - subst groups. unfold raw_groups. now rewrite length_map, length_seq.
  - intros i Hi g. subst g groups. unfold raw_groups.
    assert (Hnth : nth i
                     (map (fun j => fmt_02x (packet_byte (decoder s) (Z.of_nat j)))
                        (seq 0 n)) ""
                   = fmt_02x (packet_byte (decoder s) (Z.of_nat i))).
    { rewrite (nth_indep _ "" (fmt_02x (packet_byte (decoder s) (Z.of_nat 0))))
        by (rewrite length_map, length_seq; exact Hi).
      rewrite (map_nth (fun j => fmt_02x (packet_byte (decoder s) (Z.of_nat j)))).
      rewrite seq_nth by exact Hi. reflexivity. }
    rewrite Hnth. split; [reflexivity|].
    apply (pad_left_hex 2 (packet_byte (decoder s) (Z.of_nat i)));
      [lia|apply packet_byte_range].
Qed.

(** ** The last-IP text *)

Lemma print_stdout_cases `{Libipt} (options : ptdump_options) text w :
  w_stdout (snd (print options text w)) = w_stdout w
  \/ w_stdout (snd (print options text w)) = w_stdout w +++ text.
Proof.
  unfold print, vprintf.
  destruct (has_flag (flags options) ptd_quiet); [left; reflexivity|].
  destruct (w_faults w) as [|[] fs]; cbn;
    repeat match goal with
           | |- context [if ?b then _ else _] => destruct b
           end; cbn; auto.
Qed.

Section LastIpText.
Context `{Libipt}.
Variable options : ptdump_options.
Variable config : config_t.

Lemma print_last_ip_skips (s : dump_state) :
  is_ip_packet (type (pkt s)) = false
  \/ has_flag (flags options) ptd_show_last_ip = false ->
  print_last_ip options config s = Next tt s.
Proof.
  intros Hc. unfold print_last_ip.
  destruct (has_flag (flags options) ptd_show_last_ip); [|reflexivity].
  destruct Hc as [Hc|Hc]; [|discriminate].
  unfold bind, gets. rewrite Hc. reflexivity.
Qed.

(** The text a print adds to the output of a state, whatever follows it in
    the block. *)
Lemma last_ip_print_adds (text : string) (s : dump_state)
    (k : Z -> stmt unit) :
  (forall r t, w_stdout (io (after (k r t))) = w_stdout (io t)) ->
  w_stdout (io (after (bind (do_print options text) k s))) = w_stdout (io s)
  \/ w_stdout (io (after (bind (do_print options text) k s)))
     = w_stdout (io s) +++ text.
Proof.
  intros Hk. unfold bind, do_print.
  pose proof (print_stdout_cases options text (io s)) as Hp.
  destruct (print options text (io s)) as [r w]. rewrite Hk. exact Hp.
Qed.

Lemma print_last_ip_text (s : dump_state) :
  exists t,
    w_stdout (io (after (print_last_ip options config s)))
    = w_stdout (io s) +++ t
    /\ (t = ""
        \/ (has_flag (flags options) ptd_show_last_ip = true
            /\ is_ip_packet (type (pkt s)) = true
            /\ (t = ", ip=<suppressed>"
                \/ exists u li' ip,
                    pt_last_ip_update_ip (last_ip s)
                      (payload_ip (payload (pkt s))) config = (u, li')
                    /\ pt_last_ip_query li' = (0, ip)
                    /\ t = fmt_ip ip))).
Proof.
  assert (Hnone : forall o : outcome unit,
             w_stdout (io (after o)) = w_stdout (io s) ->
             exists t, w_stdout (io (after o)) = w_stdout (io s) +++ t
                       /\ (t = "" \/
                           (has_flag (flags options) ptd_show_last_ip = true
            /\ is_ip_packet (type (pkt s)) = true
            /\ (t = ", ip=<suppressed>"
                \/ exists u li' ip,
                    pt_last_ip_update_ip (last_ip s)
                      (payload_ip (payload (pkt s))) config = (u, li')
                    /\ pt_last_ip_query li' = (0, ip)
                    /\ t = fmt_ip ip)))).
  { intros o Ho. exists "". rewrite append_empty_r. auto. }
  unfold print_last_ip.
  destruct (has_flag (flags options) ptd_show_last_ip) eqn:Hflag;
    [|apply Hnone; reflexivity].
  unfold bind at 1 2. unfold gets at 1 2.
  destruct (is_ip_packet (type (pkt s))) eqn:Hip; [|apply Hnone; reflexivity].
  unfold bind at 1. unfold gets at 1.
  destruct (pt_last_ip_update_ip (last_ip s) (payload_ip (payload (pkt s)))
              config) as [u li'] eqn:Hupd.
  unfold bind at 1. unfold assign at 1.
  destruct (u =? - pte_invalid); [apply Hnone; reflexivity|].
  destruct (u =? - pte_bad_packet); [apply Hnone; reflexivity|].
  destruct (u =? - pte_noip); [apply Hnone; reflexivity|].
  destruct (pt_last_ip_query li') as [q ip] eqn:Hquery.
  destruct (q =? - pte_invalid); [apply Hnone; reflexivity|].
  destruct (q =? - pte_noip); [apply Hnone; reflexivity|].
  assert (Hrest : forall r t,
             w_stdout (io (after
               ((if r <? 0
                 then diag_pos "cannot print last-IP" (pos s) ;;
                      assign (set_errcode (- pte_internal)) ;; goto L_sync
                 else used <- gets col_payload_width_used ;;
                      assign (set_col_payload_width_used
                                (to_unsigned (used + r)))) t)))
             = w_stdout (io t)).
  { intros r t. destruct (r <? 0); reflexivity. }
  destruct (q =? - pte_ip_suppressed) eqn:Hs.
  - destruct (last_ip_print_adds ", ip=<suppressed>" (set_last_ip li' s) _ Hrest)
      as [Ho|Ho].
    + apply Hnone. exact Ho.
    + eexists. split; [exact Ho|]. right. auto.
  - destruct (Z.eqb_spec q 0) as [Hz|Hnz].
    + subst q.
      destruct (last_ip_print_adds (fmt_ip ip) (set_last_ip li' s) _ Hrest)
        as [Ho|Ho].
      * apply Hnone. exact Ho.
      * eexists. split; [exact Ho|]. right. split; [reflexivity|].
        split; [reflexivity|]. right. exists u, li', ip. auto.
    + apply Hnone. unfold bind at 1. unfold ret at 1.
      exact (Hrest q (set_last_ip li' s)).
Qed.

Hypothesis not_quiet : has_flag (flags options) ptd_quiet = false.

Lemma print_last_ip_emits (s : dump_state) (u q ip : Z) (li' : pt_last_ip) :
  no_faults (io s) ->
  has_flag (flags options) ptd_show_last_ip = true ->
  is_ip_packet (type (pkt s)) = true ->
  pt_last_ip_update_ip (last_ip s) (payload_ip (payload (pkt s))) config
  = (u, li') ->
  u <> - pte_invalid -> u <> - pte_bad_packet -> u <> - pte_noip ->
  pt_last_ip_query li' = (q, ip) ->
  q <> - pte_invalid -> q <> - pte_noip ->
  q = - pte_ip_suppressed \/ q = 0 ->
  exists t,
    print_last_ip options config s = Next tt t
    /\ w_stdout (io t)
       = w_stdout (io s)
         +++ (if q =? - pte_ip_suppressed then ", ip=<suppressed>"
              else fmt_ip ip).
Proof.
  intros Hw Hflag Hip Hupd Hu1 Hu2 Hu3 Hquery Hq1 Hq2 Hq3.
  unfold print_last_ip. rewrite Hflag.
  unfold bind at 1 2. unfold gets at 1 2. rewrite Hip.
  unfold bind at 1. unfold gets at 1. rewrite Hupd.
  unfold bind at 1. unfold assign at 1.
  apply Z.eqb_neq in Hu1, Hu2, Hu3, Hq1, Hq2.
  rewrite Hu1, Hu2, Hu3, Hquery, Hq1, Hq2.
  set (text := if q =? - pte_ip_suppressed then ", ip=<suppressed>"
               else fmt_ip ip).
  assert (Hprint : (if q =? - pte_ip_suppressed
                    then do_print options ", ip=<suppressed>"
                    else if q =? 0 then do_print options (fmt_ip ip)
                         else ret q) = do_print options text).
  { subst text. destruct (q =? - pte_ip_suppressed) eqn:Hs; [reflexivity|].
    destruct Hq3 as [->| ->]; [rewrite Z.eqb_refl in Hs; discriminate|].
    reflexivity. }
  rewrite Hprint.
  assert (Hlen : 0 < strlen text).
  { subst text. destruct (q =? - pte_ip_suppressed); [reflexivity|].
    unfold fmt_ip. rewrite strlen_append. unfold strlen at 1. cbn.
    unfold strlen. lia. }
  unfold bind at 1. unfold do_print.
  destruct (print_succeeds options not_quiet text (io (set_last_ip li' s)) Hw)
    as (r & w' & Hp & Hr & Ho & _ & _).
  rewrite Hp.
  assert (Hr0 : (r <? 0) = false) by (apply Z.ltb_ge; lia).
  rewrite Hr0. eexists. split; [reflexivity|]. exact Ho.
Qed.

Lemma print_payload_writes (s s2 : dump_state) :
  no_faults (io s) ->
  print_payload options s = Next tt s2 ->
  exists gap,
    is_blank gap
    /\ w_stdout (io s2)
       = w_stdout (io s) +++ gap +++ snd (pt_print_fill_payload_str (pkt s))
    /\ pkt s2 = pkt s /\ last_ip s2 = last_ip s /\ no_faults (io s2).
Proof.
  intros Hw. unfold print_payload. unfold bind at 1. unfold gets at 1.
  destruct (pt_print_fill_payload_str (pkt s)) as [r text].
  unfold bind at 1. unfold assign at 1.
  destruct (r <? 0); [discriminate|].
  assert (Hw0 : no_faults (io (set_str text s))) by exact Hw.
  assert (Hfirst : exists g1 t1,
             (if 0 <? r
              then used <- gets col_packettype_width_used ;;
                   fillup_column options used col_packettype_width ;;
                   print_col_separator options
              else ret tt) (set_str text s) = Next tt t1
             /\ wrote g1 (set_str text s) t1 /\ is_blank g1
             /\ str t1 = text).
  { destruct (0 <? r).
    - unfold bind at 1. unfold gets at 1.
      destruct (fillup_column_writes options not_quiet
                  (col_packettype_width_used (set_str text s))
                  col_packettype_width _ Hw0) as (g1 & t1 & Hf & Hw1 & Hb1).
      destruct (print_col_separator_writes options not_quiet t1
                  (proj1 (proj2 Hw1))) as (t2 & Hs & Hw2).
      exists (g1 +++ "  "), t2. rewrite (bind_next _ _ _ _ _ Hf).
      split; [exact Hs|]. split; [apply (wrote_trans _ _ _ _ _ Hw1 Hw2)|].
      split; [apply is_blank_append; [exact Hb1|reflexivity]|].
      revert Hf Hs. unfold fillup_column, print_col_separator.
      unfold_stmts.
      destruct (col_packettype_width_used (set_str text s)
                >=? col_packettype_width);
        repeat match goal with
               | |- context [print ?o ?x ?w] => destruct (print o x w)
               end;
        intros Hf Hs; inversion Hf; subst; inversion Hs; subst; reflexivity.
    - exists "", (set_str text s). split; [reflexivity|].
      split; [now apply wrote_refl|]. split; [apply is_blank_empty|reflexivity]. }
  destruct Hfirst as (g1 & t1 & H1 & Hw1 & Hb1 & Hstr).
  rewrite (bind_next _ _ _ _ _ H1).
  unfold bind at 1. unfold gets at 1. rewrite Hstr.
  destruct (do_print_succeeds options not_quiet text t1 (proj1 (proj2 Hw1)))
    as (n & t2 & Hp & Hw2).
  rewrite (bind_next _ _ _ _ _ Hp). unfold assign.
  intros Hnext. inversion Hnext; subst s2.
  exists g1. split; [exact Hb1|].
  pose proof (wrote_trans _ _ _ _ _ Hw1 Hw2) as (Ho & Hf & _ & Hk & Hl).
  cbn. repeat split; try assumption.
Qed.
End LastIpText.

(** C8: [print_last_ip] does nothing unless the flag is set and the packet
    is TIP, TIP.PGE, TIP.PGD or FUP; what it adds to standard output is
    nothing, the literal [", ip=<suppressed>"], or [", ip=0x"] followed by
    the address the tracker resolved, as 16 lowercase hexadecimal digits
    that denote it; with quiet mode off and no failing write it adds the
    literal when the tracker reports a suppressed address and the address
    text when it reports an address; and the text directly follows the
    payload text [print_payload] ends with. *)
Theorem last_ip_text_format `{Libipt}
    (options : ptdump_options) (config : config_t) :
  (forall s,
      is_ip_packet (type (pkt s)) = false
      \/ has_flag (flags options) ptd_show_last_ip = false ->
      print_last_ip options config s = Next tt s)
  /\ (forall s, exists t,
         w_stdout (io (after (print_last_ip options config s)))
         = w_stdout (io s) +++ t
         /\ (t = ""
             \/ (has_flag (flags options) ptd_show_last_ip = true
                 /\ is_ip_packet (type (pkt s)) = true
                 /\ (t = ", ip=<suppressed>"
                     \/ exists u li' ip,
                         pt_last_ip_update_ip (last_ip s)
                           (payload_ip (payload (pkt s))) config = (u, li')
                         /\ pt_last_ip_query li' = (0, ip)
                         /\ t = fmt_ip ip))))
  /\ (forall ip, 0 <= ip < 2 ^ 64 ->
         exists h,
           fmt_ip ip = ", ip=0x" +++ h
           /\ String.length h = 16%nat
           /\ all_chars is_hex_lower h = true
           /\ hex_value h = ip)
  /\ (has_flag (flags options) ptd_quiet = false ->
      forall s u q ip li',
        no_faults (io s) ->
        has_flag (flags options) ptd_show_last_ip = true ->
        is_ip_packet (type (pkt s)) = true ->
        pt_last_ip_update_ip (last_ip s) (payload_ip (payload (pkt s))) config
        = (u, li') ->
        u <> - pte_invalid -> u <> - pte_bad_packet -> u <> - pte_noip ->
        pt_last_ip_query li' = (q, ip) ->
        q <> - pte_invalid -> q <> - pte_noip ->
        q = - pte_ip_suppressed \/ q = 0 ->
        exists t,
          print_last_ip options config s = Next tt t
          /\ w_stdout (io t)
             = w_stdout (io s)
               +++ (if q =? - pte_ip_suppressed then ", ip=<suppressed>"
                    else fmt_ip ip))
  /\ (has_flag (flags options) ptd_quiet = false ->
      forall s s2,
        no_faults (io s) ->
        print_payload options s = Next tt s2 ->
        exists gap,
          is_blank gap
          /\ w_stdout (io s2)
             = w_stdout (io s) +++ gap
               +++ snd (pt_print_fill_payload_str (pkt s))
          /\ pkt s2 = pkt s /\ last_ip s2 = last_ip s /\ no_faults (io s2)).
Proof.
  split; [|split; [|split; [|split]]].
  - apply print_last_ip_skips.
  - apply print_last_ip_text.
  - intros ip Hip. exists (pad_left "0" 16 (fmt_x ip)).
    split; [reflexivity|].
    apply (pad_left_hex 16 ip); [lia|exact Hip].
  - intros Hq s u q ip li'. now apply print_last_ip_emits.
  - intros Hq s s2. now apply print_payload_writes.
Qed.

(** ** The argument loop of [main] *)

Section Arguments.
Context `{Libipt}.

Lemma arg_loop_total (fuel : nat) :
  forall argv idx options,
    0 <= idx ->
    Z.of_nat (List.length argv) - idx <= Z.of_nat fuel ->
    arg_loop fuel argv idx options <> None.
Proof.
  induction fuel as [|fuel IH]; intros argv idx options Hidx Hfuel;
    cbn [arg_loop];
    destruct (Z.ltb_spec idx (Z.of_nat (List.length argv))) as [Hlt|Hge];
    try discriminate; [lia|].
  destruct (argv_at argv idx) as [a|]; [|discriminate].
  repeat match goal with
         | |- (if ?b then _ else _) <> None => destruct b
         | |- (let (_, _) := ?p in _) <> None => destruct p
         | |- match ?o with Some _ => _ | None => _ end <> None => destruct o
         end;
    try discriminate; apply IH; lia.
Qed.

Lemma parse_args_total (argv : list string) : parse_args argv <> None.
Proof. unfold parse_args. apply arg_loop_total; lia. Qed.

Lemma argv_at_middle (pre : list string) (a : string) (post : list string) :
  argv_at (pre ++ a :: post) (Z.of_nat (List.length pre)) = Some a.
Proof.
  unfold argv_at. rewrite Nat2Z.id, nth_error_app2 by lia.
  rewrite Nat.sub_diag. reflexivity.
Qed.

Lemma arg_loop_cpu_last (fuel : nat) (argv : list string) (idx : Z)
    (options : ptdump_options) :
  0 <= idx ->
  idx = Z.of_nat (List.length argv) - 1 ->
  argv_at argv idx = Some "--cpu" ->
  arg_loop (S fuel) argv idx options
  = Some (args_missing (Z.of_nat (List.length argv)))
  /\ argv_at argv (Z.of_nat (List.length argv)) = None.
Proof.
  intros Hidx Hlast Harg.
  assert (Hnone : argv_at argv (Z.of_nat (List.length argv)) = None).
  { unfold argv_at. rewrite Nat2Z.id. apply nth_error_None. lia. }
  split; [|exact Hnone].
  cbn [arg_loop].
  assert (Hlt : (idx <? Z.of_nat (List.length argv)) = true)
    by (apply Z.ltb_lt; lia).
  rewrite Hlt, Harg.
  change (negb (String.prefix "-" "--cpu")) with false.
  change (String.eqb "--cpu" "-h") with false.
  change (String.eqb "--cpu" "--help") with false.
  change (String.eqb "--cpu" "--version") with false.
  change (String.eqb "--cpu" "--quiet") with false.
  change (String.eqb "--cpu" "--no-pad") with false.
  change (String.eqb "--cpu" "--no-offset") with false.
  change (String.eqb "--cpu" "--raw") with false.
  change (String.eqb "--cpu" "--lastip") with false.
  change (String.eqb "--cpu" "--fixed-offset-width") with false.
  change (String.eqb "--cpu" "--cpu") with true.
  cbv iota.
  replace (idx + 1) with (Z.of_nat (List.length argv)) by lia.
  rewrite Hnone. reflexivity.
Qed.

Lemma arg_loop_plain_options (plain : list string) :
  forall pre options fuel,
    forallb plain_option plain = true ->
    (List.length plain < fuel)%nat ->
    exists options',
      arg_loop fuel (pre ++ plain ++ ["--cpu"]) (Z.of_nat (List.length pre))
        options
      = arg_loop (fuel - List.length plain) (pre ++ plain ++ ["--cpu"])
          (Z.of_nat (List.length (pre ++ plain))) options'.
Proof.
  induction plain as [|a plain IH]; intros pre options fuel Hplain Hfuel.
  - exists options. cbn [List.length app]. rewrite Nat.sub_0_r, app_nil_r.
    reflexivity.
  - cbn [forallb] in Hplain. apply andb_true_iff in Hplain.
    destruct Hplain as [Ha Hplain].
    destruct fuel as [|fuel]; [cbn in Hfuel; lia|].
    cbn [List.length] in Hfuel.
    assert (Hnext : forall o, exists options',
               arg_loop fuel (pre ++ (a :: plain) ++ ["--cpu"])
                 (Z.of_nat (List.length pre) + 1) o
               = arg_loop (S fuel - List.length (a :: plain))
                   (pre ++ (a :: plain) ++ ["--cpu"])
                   (Z.of_nat (List.length (pre ++ a :: plain))) options').
    { intros o.
      destruct (IH (pre ++ [a]) o fuel Hplain ltac:(lia)) as [o' Ho'].
      exists o'. rewrite <- !app_assoc in Ho'. cbn [app] in Ho'.
      rewrite length_app in Ho'. cbn [List.length] in Ho'.
      replace (Z.of_nat (List.length pre) + 1)
        with (Z.of_nat (List.length pre + 1)) by lia.
      cbn [app]. rewrite Ho'. cbn [List.length Nat.sub]. reflexivity. }
    cbn [arg_loop].
    assert (Hlt : (Z.of_nat (List.length pre)
                   <? Z.of_nat (List.length (pre ++ (a :: plain) ++ ["--cpu"])))
                  = true).
    { apply Z.ltb_lt. rewrite !length_app. cbn [List.length]. lia. }
    rewrite Hlt. cbn [app]. rewrite argv_at_middle.
    unfold plain_option in Ha.
    destruct (String.eqb_spec a "--quiet") as [->|_]; [apply Hnext|].
    destruct (String.eqb_spec a "--no-pad") as [->|_]; [apply Hnext|].
    destruct (String.eqb_spec a "--no-offset") as [->|_]; [apply Hnext|].
    destruct (String.eqb_spec a "--raw") as [->|_]; [apply Hnext|].
    destruct (String.eqb_spec a "--lastip") as [->|_]; [apply Hnext|].
    destruct (String.eqb_spec a "--fixed-offset-width") as [->|_];
      [apply Hnext|].
    discriminate.
Qed.
End Arguments.

(** C10: when the loop of [main] examines ["--cpu"] at the last index,
    [argc - 1], it increments the index to [argc] and hands [argv[argc]],
    which holds no argument, to [strcmp]: the loop ends in [args_missing],
    not in a usage error.  From the start of [main] this happens for every
    command line that consists of options without argument followed by
    ["--cpu"]. *)
Theorem cpu_as_last_argument_reads_past_end `{Libipt}
    (fuel : nat) (argv : list string) (idx : Z) (options : ptdump_options) :
  0 <= idx ->
  idx = Z.of_nat (List.length argv) - 1 ->
  argv_at argv idx = Some "--cpu" ->
  (arg_loop (S fuel) argv idx options
   = Some (args_missing (Z.of_nat (List.length argv)))
   /\ argv_at argv (Z.of_nat (List.length argv)) = None)
  /\ (forall name plain,
         forallb plain_option plain = true ->
         parse_args (name :: plain ++ ["--cpu"])
         = Some (args_missing (Z.of_nat (List.length plain) + 2))).
Proof.
  intros Hidx Hlast Harg. split; [now apply arg_loop_cpu_last|].
  intros name plain Hplain. unfold parse_args.
  destruct (arg_loop_plain_options plain [name] default_options
              (List.length (name :: plain ++ ["--cpu"])) Hplain)
    as [options' Hloop].
  { cbn [List.length]. rewrite length_app. cbn [List.length]. lia. }
  cbn [app List.length] in Hloop |- *. change (Z.of_nat 1) with 1 in Hloop.
  rewrite Hloop.
  replace (S (List.length (plain ++ ["--cpu"])) - List.length plain)%nat
    with (S 1) by (rewrite length_app; cbn [List.length]; lia).
  destruct (arg_loop_cpu_last 1 (name :: plain ++ ["--cpu"])
              (Z.of_nat (S (List.length plain))) options') as [Hres _].
  - lia.
  - cbn [List.length]. rewrite length_app. cbn [List.length]. lia.
  - change (name :: plain ++ ["--cpu"]) with ((name :: plain) ++ ["--cpu"]).
    change (S (List.length plain)) with (List.length (name :: plain)).
    apply argv_at_middle.
  - rewrite Hres. f_equal. f_equal. cbn [List.length]. rewrite length_app.
    cbn [List.length]. lia.
Qed.

(** * Further properties of the engine *)

(** ** What [print] returns *)

(** X1: outside quiet mode [print] returns the number of characters when
    it wrote a nonempty text, and [-pte_internal] when the write failed
    or the text was empty; it never returns 0, it never touches the error
    stream, and the output is extended by the text exactly when the result
    is positive. *)
Theorem print_result `{Libipt} (options : ptdump_options) (text : string)
    (w : world) :
  has_flag (flags options) ptd_quiet = false ->
  0 < pte_internal ->
  let r := fst (print options text w) in
  let w' := snd (print options text w) in
  w_stderr w' = w_stderr w
  /\ r <> 0
  /\ (r = strlen text /\ 0 < r /\ w_stdout w' = w_stdout w +++ text
      \/ r = - pte_internal /\ w_stdout w' = w_stdout w)
  /\ (text = "" -> r = - pte_internal)
  /\ (hd false (w_faults w) = true -> r = - pte_internal)
  /\ (text <> "" -> hd false (w_faults w) = false -> r = strlen text).
Proof.
  intros Hq Hint r w'. subst r w'.
  assert (Hlen : 0 <= strlen text) by (unfold strlen; lia).
  assert (Hempty : text = "" <-> strlen text = 0).
  { unfold strlen. destruct text; cbn [String.length]; split;
      intros Ht; try reflexivity; try discriminate; lia. }
  assert (Hok : forall fs,
             let w1 := mk_world (w_stdout w +++ text) (w_stderr w) fs in
             let r := fst (if strlen text <=? 0 then (- pte_internal, w1)
                           else (strlen text, w1)) in
             let w' := snd (if strlen text <=? 0 then (- pte_internal, w1)
                            else (strlen text, w1)) in
             w_stderr w' = w_stderr w
             /\ r <> 0
             /\ (r = strlen text /\ 0 < r /\ w_stdout w' = w_stdout w +++ text
                 \/ r = - pte_internal /\ w_stdout w' = w_stdout w)
             /\ (text = "" -> r = - pte_internal)
             /\ (text <> "" -> r = strlen text)).
  { intros fs w1 r w'. subst r w' w1.
    destruct (Z.leb_spec (strlen text) 0) as [Hle|Hgt]; cbn [fst snd w_stdout w_stderr].
    - assert (Ht : text = "") by (apply Hempty; lia).
      split; [reflexivity|]. split; [lia|].
      split; [right; split; [reflexivity|rewrite Ht; apply append_empty_r]|].
      split; [reflexivity|]. intros Hne. contradiction.
    - split; [reflexivity|]. split; [lia|].
      split; [left; auto|].
      split; [|reflexivity]. intros Ht. apply Hempty in Ht. lia. }
  unfold print, vprintf. rewrite Hq.
  destruct (w_faults w) as [|[] fs]; cbn [hd].
  - destruct (Hok []) as (H1 & H2 & H3 & H4 & H5).
    repeat (split; [assumption|]). split; [discriminate|]. intros; auto.
  - change (-1 <=? 0) with true. cbn [fst snd w_stdout w_stderr].
    split; [reflexivity|]. split; [lia|].
    split; [right; split; reflexivity|].
    split; [reflexivity|]. split; [reflexivity|]. discriminate.
  - destruct (Hok fs) as (H1 & H2 & H3 & H4 & H5).
    repeat (split; [assumption|]). split; [discriminate|]. intros; auto.
Qed.

(** ** Column padding *)

Lemma replicate_snoc (n : nat) (c : ascii) :
  replicate n c +++ String c "" = replicate (S n) c.
Proof. induction n as [|n IH]; simpl; [reflexivity|now rewrite IH]. Qed.

Lemma fmt_star_c_blank (width : Z) :
  1 <= width -> fmt_star_c width " " = replicate (Z.to_nat width) " ".
Proof.
  intros Hw. unfold fmt_star_c, pad_left.
  change (strlen (String " " "")) with 1.
  rewrite replicate_snoc. f_equal. lia.
Qed.

Section Padding.
Context `{Libipt}.
Variable options : ptdump_options.
Hypothesis not_quiet : has_flag (flags options) ptd_quiet = false.

Lemma do_print_nonempty (text : string) (s : dump_state) :
  no_faults (io s) ->
  0 < strlen text ->
  exists w',
    do_print options text s = Next (strlen text) (set_io w' s)
    /\ w_stdout w' = w_stdout (io s) +++ text
    /\ w_stderr w' = w_stderr (io s)
    /\ no_faults w'.
Proof.
  intros Hw Hlen. unfold do_print.
  destruct (print_succeeds options not_quiet text (io s) Hw)
    as (r & w' & Hp & Hr & Ho & He & Hf).
  rewrite Hp. exists w'.
  assert (r = strlen text) by (destruct Hr as [Hr|[Hr _]]; [exact Hr|lia]).
  subst r. auto.
Qed.

Lemma fillup_column_exact (actual col : Z) (s : dump_state) :
  no_faults (io s) ->
  exists w',
    fillup_column options actual col s = Next tt (set_io w' s)
    /\ w_stdout w'
       = w_stdout (io s) +++ replicate (Z.to_nat (col - actual)) " "
    /\ w_stderr w' = w_stderr (io s)
    /\ no_faults w'.
Proof.
  intros Hw. unfold fillup_column.
  destruct (Z.geb_spec actual col) as [Hge|Hlt].
  - exists (io s). replace (Z.to_nat (col - actual)) with 0%nat by lia.
    cbn [replicate]. rewrite append_empty_r.
    destruct s; cbn; auto.
  - assert (Hlen : 0 < strlen (fmt_star_c (col - actual) " ")).
    { rewrite fmt_star_c_blank by lia. unfold strlen.
      rewrite length_replicate. lia. }
    destruct (do_print_nonempty _ s Hw Hlen) as (w' & Hp & Ho & He & Hf).
    rewrite (bind_next _ _ _ _ _ Hp). unfold ret. exists w'.
    rewrite <- fmt_star_c_blank by lia. auto.
Qed.

Lemma print_col_separator_exact (s : dump_state) :
  no_faults (io s) ->
  exists w',
    print_col_separator options s = Next tt (set_io w' s)
    /\ w_stdout w' = w_stdout (io s) +++ "  "
    /\ w_stderr w' = w_stderr (io s)
    /\ no_faults w'.
Proof.
  intros Hw. unfold print_col_separator.
  destruct (do_print_nonempty "  " s Hw ltac:(reflexivity))
    as (w' & Hp & Ho & He & Hf).
  rewrite (bind_next _ _ _ _ _ Hp). unfold ret. exists w'. auto.
Qed.
End Padding.

(** X2: with quiet mode off and no failing write, [fillup_column] writes
    exactly [col_width - actual_width] spaces when the column is narrower
    than its width and nothing otherwise, so that a column of
    [actual_width] characters ends up [max actual_width col_width] wide;
    it changes nothing but the output. *)
Theorem fillup_column_pads_to_width `{Libipt} (options : ptdump_options)
    (actual col : Z) (s : dump_state) :
  has_flag (flags options) ptd_quiet = false ->
  no_faults (io s) ->
  0 <= actual ->
  exists w',
    fillup_column options actual col s = Next tt (set_io w' s)
    /\ w_stdout w' = w_stdout (io s) +++ replicate (Z.to_nat (col - actual)) " "
    /\ actual + strlen (replicate (Z.to_nat (col - actual)) " ")
       = Z.max actual col
    /\ (col <= actual -> w_stdout w' = w_stdout (io s))
    /\ w_stderr w' = w_stderr (io s).
Proof.
  intros Hq Hw Ha.
  destruct (fillup_column_exact options Hq actual col s Hw)
    as (w' & Hf & Ho & He & _).
  exists w'. split; [exact Hf|]. split; [exact Ho|].
  split; [unfold strlen; rewrite length_replicate; lia|].
  split; [|exact He].
  intros Hle. rewrite Ho. replace (Z.to_nat (col - actual)) with 0%nat by lia.
  apply append_empty_r.
Qed.

(** ** The offset column *)

Lemma length_hex_digits_log2 (fuel : nat) :
  forall v acc,
    0 <= v < 16 ^ Z.of_nat fuel ->
    (0 < fuel)%nat ->
    strlen (hex_digits fuel v acc)
    = strlen acc + 1 + Z.log2 (Z.max v 1) / 4.
Proof.
  unfold strlen.
  induction fuel as [|fuel IH]; intros v acc Hv Hfuel; [lia|].
  cbn [hex_digits].
  destruct (Z.eqb_spec (v / 16) 0) as [Hz|Hnz].
  - cbn [String.length].
    assert (Hsmall : v < 16).
    { pose proof (Z.div_mod v 16 ltac:(lia)).
      pose proof (Z.mod_pos_bound v 16 ltac:(lia)). lia. }
    assert (Hlog : Z.log2 (Z.max v 1) / 4 = 0).
    { apply Z.div_small. split; [apply Z.log2_nonneg|].
      apply Z.log2_lt_pow2; [lia|]. change (2 ^ 4) with 16. lia. }
    rewrite Hlog. lia.
  - assert (Hbig : 16 <= v).
    { destruct (Z.lt_ge_cases v 16) as [Hlt|Hge]; [|exact Hge].
      exfalso. apply Hnz. apply Z.div_small. lia. }
    assert (Hq : 1 <= v / 16).
    { apply Z.div_le_lower_bound; lia. }
    assert (Hfuel' : (0 < fuel)%nat).
    { destruct fuel; [|lia]. change (16 ^ Z.of_nat 1) with 16 in Hv. lia. }
    rewrite IH; [|split; [lia|]|exact Hfuel'].
    + cbn [String.length]. rewrite Z.max_l by lia. rewrite Z.max_l by lia.
      assert (Hshift : Z.log2 (v / 16) = Z.log2 v - 4).
      { change 16 with (2 ^ 4). rewrite <- Z.shiftr_div_pow2 by lia.
        rewrite Z.log2_shiftr by lia.
        assert (4 <= Z.log2 v).
        { apply Z.log2_le_pow2; [lia|]. change (2 ^ 4) with 16. lia. }
        lia. }
      rewrite Hshift.
      replace (Z.log2 v - 4) with (Z.log2 v + (-1) * 4) by lia.
      rewrite Z.div_add by lia. lia.
    + rewrite Nat2Z.inj_succ, Z.pow_succ_r in Hv by lia.
      apply Z.div_lt_upper_bound; lia.
Qed.

Lemma calc_col_offset_width_log2 (S : Z) :
  0 <= S < 2 ^ 64 ->
  calc_col_offset_width S = 1 + Z.log2 (Z.max S 1) / 4.
Proof.
  intros HS. unfold calc_col_offset_width.
  rewrite (calc_col_offset_idx_log2 63); [reflexivity|].
  change (2 ^ (Z.of_nat 63 + 1)) with (2 ^ 64). exact HS.
Qed.

Lemma calc_col_offset_width_bounds (S : Z) :
  0 <= S < 2 ^ 64 -> 1 <= calc_col_offset_width S <= 16.
Proof.
  intros HS. rewrite calc_col_offset_width_log2 by exact HS.
  pose proof (Z.log2_nonneg (Z.max S 1)) as Hn.
  assert (Hlt : Z.log2 (Z.max S 1) < 64).
  { apply Z.log2_lt_pow2; lia. }
  pose proof (Z.div_pos (Z.log2 (Z.max S 1)) 4 Hn ltac:(lia)).
  assert (Z.log2 (Z.max S 1) / 4 < 16)
    by (apply Z.div_lt_upper_bound; lia).
  lia.
Qed.

Lemma calc_col_offset_width_fits (S p : Z) :
  0 <= p <= S -> S < 2 ^ 64 ->
  p < 16 ^ calc_col_offset_width S.
Proof.
  intros Hp HS. rewrite calc_col_offset_width_log2 by lia.
  set (l := Z.log2 (Z.max S 1)).
  assert (Hl : 0 <= l) by apply Z.log2_nonneg.
  assert (Hdiv : l < 4 * (1 + l / 4)).
  { pose proof (Z.div_mod l 4 ltac:(lia)).
    pose proof (Z.mod_pos_bound l 4 ltac:(lia)). lia. }
  assert (Hpow : 16 ^ (1 + l / 4) = 2 ^ (4 * (1 + l / 4))).
  { change 16 with (2 ^ 4). rewrite <- Z.pow_mul_r; [reflexivity|lia|].
    pose proof (Z.div_pos l 4 Hl ltac:(lia)). lia. }
  rewrite Hpow.
  apply Z.le_lt_trans with (Z.max S 1); [lia|].
  apply Z.log2_lt_pow2; [lia|]. fold l. exact Hdiv.
Qed.

(** X3: for every 64-bit value the column width calculator returns the
    number of characters ["%" PRIx64] prints it with; the width is between
    1 and 16 and does not decrease when the value grows. *)
Theorem calc_col_offset_width_counts_hex_digits (S : Z) :
  0 <= S < 2 ^ 64 ->
  calc_col_offset_width S = strlen (fmt_x S)
  /\ 1 <= calc_col_offset_width S <= 16
  /\ (forall S', 0 <= S' <= S ->
        calc_col_offset_width S' <= calc_col_offset_width S).
Proof.
  intros HS. split; [|split].
  - rewrite calc_col_offset_width_log2 by exact HS.
    unfold fmt_x. rewrite length_hex_digits_log2; [reflexivity| |lia].
    change (16 ^ Z.of_nat 16) with (2 ^ 64). exact HS.
  - now apply calc_col_offset_width_bounds.
  - intros S' HS'. rewrite !calc_col_offset_width_log2 by lia.
    apply Zplus_le_compat_l. apply Z.div_le_mono; [lia|].
    apply Z.log2_le_mono. lia.
Qed.

Lemma fmt_0star_x_exact (width p : Z) :
  1 <= width <= 16 ->
  0 <= p < 16 ^ width ->
  strlen (fmt_0star_x width p) = width
  /\ all_chars is_hex_lower (fmt_0star_x width p) = true
  /\ hex_value (fmt_0star_x width p) = p.
Proof.
  intros Hw Hp.
  pose proof (pad_left_hex (Z.to_nat width) p) as Hpad.
  rewrite Z2Nat.id in Hpad by lia.
  destruct Hpad as (Hlen & Hhex & Hval); [lia|exact Hp|].
  unfold fmt_0star_x, strlen. rewrite Hlen. repeat split; try assumption. lia.
Qed.

Lemma print_offset_exact `{Libipt} (options : ptdump_options) (width : Z)
    (s : dump_state) :
  has_flag (flags options) ptd_quiet = false ->
  has_flag (flags options) ptd_show_offset = true ->
  no_faults (io s) ->
  1 <= width <= 16 ->
  0 <= pos s < 16 ^ width ->
  exists w',
    print_offset options width s
    = Next tt (set_io w' (set_col_offset_width_used width s))
    /\ w_stdout w' = w_stdout (io s) +++ fmt_0star_x width (pos s) +++ "  "
    /\ w_stderr w' = w_stderr (io s)
    /\ no_faults w'.
Proof.
  intros Hq Hshow Hw Hw16 Hfit.
  destruct (fmt_0star_x_exact width (pos s) Hw16 Hfit) as (Hlen & _ & _).
  set (digits := fmt_0star_x width (pos s)) in *.
  unfold print_offset. rewrite Hshow.
  unfold bind at 1. unfold gets at 1.
  destruct (do_print_nonempty options Hq digits s Hw ltac:(lia))
    as (w1 & Hp & Ho1 & He1 & Hf1).
  fold digits. rewrite (bind_next _ _ _ _ _ Hp), Hlen.
  assert (Hneg : (width <? 0) = false) by (apply Z.ltb_ge; lia).
  rewrite Hneg.
  unfold bind at 1. unfold assign at 1.
  unfold bind at 1. unfold gets at 1.
  assert (Hu : to_unsigned width = width).
  { unfold to_unsigned. apply Z.mod_small. lia. }
  cbn [col_offset_width_used set_col_offset_width_used]. rewrite Hu.
  set (s1 := set_col_offset_width_used width (set_io w1 s)).
  assert (Hw1 : no_faults (io s1)) by exact Hf1.
  destruct (fillup_column_exact options Hq width width s1 Hw1)
    as (w2 & Hfill & Ho2 & He2 & Hf2).
  rewrite (bind_next _ _ _ _ _ Hfill).
  assert (Hw2 : no_faults (io (set_io w2 s1))) by exact Hf2.
  destruct (print_col_separator_exact options Hq (set_io w2 s1) Hw2)
    as (w3 & Hsep & Ho3 & He3 & Hf3).
  rewrite Hsep. exists w3. split; [reflexivity|].
  split; [|split; [|exact Hf3]].
  - rewrite Ho3. cbn [io set_io]. rewrite Ho2. subst s1.
    cbn [io set_col_offset_width_used set_io].
    rewrite Ho1, Z.sub_diag. cbn [Z.to_nat replicate].
    rewrite append_empty_r, append_assoc. reflexivity.
  - rewrite He3. cbn [io set_io]. rewrite He2. subst s1. exact He1.
Qed.

(** X4: the offset column.  With the offset shown, quiet mode off and no
    failing write, an offset within the buffer (or, with the fixed width,
    any 64-bit offset) is written as exactly [col_offset_width] lowercase
    hexadecimal digits that denote it, followed by the two-space
    separator and no padding; the width is 16 in fixed mode.  With the
    offset not shown the block does nothing. *)
Theorem offset_column_is_exact `{Libipt} (options : ptdump_options)
    (buffer : list Z) (s : dump_state) :
  has_flag (flags options) ptd_quiet = false ->
  no_faults (io s) ->
  Z.of_nat (List.length buffer) < 2 ^ 64 ->
  (has_flag (flags options) ptd_fixed_offset_width = true
   /\ 0 <= pos s < 2 ^ 64)
  \/ 0 <= pos s <= Z.of_nat (List.length buffer) ->
  let width := dump_col_offset_width buffer options in
  let digits := fmt_0star_x width (pos s) in
  (has_flag (flags options) ptd_show_offset = true ->
   exists w',
     print_offset options width s
     = Next tt (set_io w' (set_col_offset_width_used width s))
     /\ w_stdout w' = w_stdout (io s) +++ digits +++ "  "
     /\ w_stderr w' = w_stderr (io s))
  /\ (has_flag (flags options) ptd_show_offset = false ->
      print_offset options width s = Next tt s)
  /\ strlen digits = width
  /\ all_chars is_hex_lower digits = true
  /\ hex_value digits = pos s
  /\ (has_flag (flags options) ptd_fixed_offset_width = true -> width = 16).
Proof.
  intros Hq Hw Hbuf Hpos width digits.
  assert (Hwidth : 1 <= width <= 16 /\ 0 <= pos s < 16 ^ width).
  { subst width. unfold dump_col_offset_width.
    destruct (has_flag (flags options) ptd_fixed_offset_width).
    - unfold col_offset_width_fixed. split; [lia|].
      change (16 ^ 16) with (2 ^ 64).
      destruct Hpos as [[_ Hp]|Hp]; lia.
    - destruct Hpos as [[Hf _]|Hp]; [discriminate|].
      split; [apply calc_col_offset_width_bounds; lia|].
      split; [lia|]. apply calc_col_offset_width_fits; lia. }
  destruct Hwidth as [Hw16 Hfit].
  destruct (fmt_0star_x_exact width (pos s) Hw16 Hfit) as (Hlen & Hhex & Hval).
  split; [|split; [|split; [|split; [|split]]]]; try assumption.
  - intros Hshow.
    destruct (print_offset_exact options width s Hq Hshow Hw Hw16 Hfit)
      as (w' & Hp & Ho & He & _).
    exists w'. auto.
  - intros Hshow. unfold print_offset. rewrite Hshow. reflexivity.
  - intros Hfix. subst width. unfold dump_col_offset_width.
    rewrite Hfix. reflexivity.
Qed.

(** ** The packet-type and payload columns *)

Section Columns.
Context `{Libipt}.
Variable options : ptdump_options.
Hypothesis not_quiet : has_flag (flags options) ptd_quiet = false.

Lemma print_no_fault (text : string) (w : world) :
  no_faults w ->
  print options text w
  = (print_value text,
     mk_world (w_stdout w +++ text) (w_stderr w) (tl (w_faults w))).
Proof.
  unfold print, vprintf, no_faults, print_value. rewrite not_quiet.
  assert (Hlen : 0 <= strlen text) by (unfold strlen; lia).
  destruct w as [o e f]. cbn [w_stdout w_stderr w_faults].
  destruct f as [|[] fs]; cbn [forallb negb andb tl]; intros Hw;
    try discriminate;
    destruct (Z.leb_spec (strlen text) 0), (Z.eqb_spec (strlen text) 0);
    try reflexivity; lia.
Qed.

Lemma do_print_exact (text : string) (s : dump_state) :
  no_faults (io s) ->
  exists w',
    do_print options text s = Next (print_value text) (set_io w' s)
    /\ w_stdout w' = w_stdout (io s) +++ text
    /\ w_stderr w' = w_stderr (io s)
    /\ no_faults w'.
Proof.
  intros Hw. unfold do_print. rewrite (print_no_fault text (io s) Hw).
  eexists. split; [reflexivity|]. cbn [w_stdout w_stderr].
  split; [reflexivity|]. split; [reflexivity|].
  unfold no_faults in *. cbn [w_faults].
  destruct (w_faults (io s)) as [|[] fs]; cbn in *; auto; discriminate.
Qed.

Lemma print_packet_type_exact (s : dump_state) :
  no_faults (io s) ->
  0 < strlen (pt_print_packet_type_str (pkt s)) < 2 ^ 32 ->
  exists w',
    print_packet_type options s
    = Next tt
        (set_col_packettype_width_used
           (strlen (pt_print_packet_type_str (pkt s))) (set_io w' s))
    /\ w_stdout w' = w_stdout (io s) +++ pt_print_packet_type_str (pkt s)
    /\ w_stderr w' = w_stderr (io s)
    /\ no_faults w'.
Proof.
  intros Hw Hlen. unfold print_packet_type.
  unfold bind at 1. unfold gets at 1.
  destruct (do_print_nonempty options not_quiet _ s Hw (proj1 Hlen))
    as (w' & Hp & Ho & He & Hf).
  rewrite (bind_next _ _ _ _ _ Hp).
  assert (Hneg : (strlen (pt_print_packet_type_str (pkt s)) <? 0) = false)
    by (apply Z.ltb_ge; lia).
  rewrite Hneg. unfold assign.
  assert (Hu : to_unsigned (strlen (pt_print_packet_type_str (pkt s)))
               = strlen (pt_print_packet_type_str (pkt s))).
  { unfold to_unsigned. apply Z.mod_small. lia. }
  rewrite Hu. exists w'. auto.
Qed.

Lemma print_payload_exact (s : dump_state) (r : Z) (text : string) :
  no_faults (io s) ->
  pt_print_fill_payload_str (pkt s) = (r, text) ->
  0 <= r ->
  exists w',
    print_payload options s
    = Next tt
        (set_col_payload_width_used (to_unsigned (print_value text))
           (set_io w' (set_str text s)))
    /\ w_stdout w'
       = w_stdout (io s) +++ type_gap (col_packettype_width_used s) r
         +++ text
    /\ w_stderr w' = w_stderr (io s)
    /\ no_faults w'.
Proof.
  intros Hw Hfill Hr. unfold print_payload.
  unfold bind at 1. unfold gets at 1. rewrite Hfill.
  unfold bind at 1. unfold assign at 1.
  assert (Hneg : (r <? 0) = false) by (apply Z.ltb_ge; lia).
  rewrite Hneg.
  assert (Hgap : exists w1,
             (if 0 <? r
              then used <- gets col_packettype_width_used ;;
                   fillup_column options used col_packettype_width ;;
                   print_col_separator options
              else ret tt) (set_str text s) = Next tt (set_io w1 (set_str text s))
             /\ w_stdout w1
                = w_stdout (io s) +++ type_gap (col_packettype_width_used s) r
             /\ w_stderr w1 = w_stderr (io s)
             /\ no_faults w1).
  { unfold type_gap. destruct (0 <? r).
    - unfold bind at 1. unfold gets at 1.
      destruct (fillup_column_exact options not_quiet
                  (col_packettype_width_used (set_str text s))
                  col_packettype_width (set_str text s) Hw)
        as (w1 & Hf1 & Ho1 & He1 & Hn1).
      rewrite (bind_next _ _ _ _ _ Hf1).
      destruct (print_col_separator_exact options not_quiet
                  (set_io w1 (set_str text s)) Hn1)
        as (w2 & Hs2 & Ho2 & He2 & Hn2).
      rewrite Hs2. exists w2. split; [reflexivity|].
      cbn [io set_io] in Ho2, He2.
      rewrite Ho2, Ho1, He2, He1, append_assoc. auto.
    - exists (io s). rewrite append_empty_r. destruct s; cbn; auto. }
  destruct Hgap as (w1 & Hg & Ho1 & He1 & Hn1).
  rewrite (bind_next _ _ _ _ _ Hg).
  unfold bind at 1. unfold gets at 1. cbn [str set_io set_str].
  destruct (do_print_exact text (set_io w1 (set_str text s)) Hn1)
    as (w2 & Hp & Ho2 & He2 & Hn2).
  rewrite (bind_next _ _ _ _ _ Hp). unfold assign.
  exists w2. split; [reflexivity|].
  cbn [io set_io] in Ho2, He2.
  rewrite Ho2, Ho1, He2, He1, append_assoc. auto.
Qed.
End Columns.

(** X5: the packet-type and payload columns.  With quiet mode off and no
    failing write, a packet with a nonempty type name and a payload text
    of status [r >= 0] is written as the type name and, when [r > 0], the
    filling of the type column up to 9 characters, the two-space separator
    and the payload text; so for a type name of at most 9 characters the
    payload text starts 11 characters after the type name does.  The used
    widths are then the length of the type name and the value [print]
    returned for the payload text. *)
Theorem type_and_payload_columns `{Libipt} (options : ptdump_options)
    (s : dump_state) (r : Z) (text : string) :
  has_flag (flags options) ptd_quiet = false ->
  no_faults (io s) ->
  0 < strlen (pt_print_packet_type_str (pkt s)) < 2 ^ 32 ->
  pt_print_fill_payload_str (pkt s) = (r, text) ->
  0 <= r ->
  let name := pt_print_packet_type_str (pkt s) in
  let gap := type_gap (strlen name) r in
  exists t,
    (print_packet_type options ;; print_payload options) s = Next tt t
    /\ w_stdout (io t) = w_stdout (io s) +++ name +++ gap +++ text
    /\ w_stderr (io t) = w_stderr (io s)
    /\ col_packettype_width_used t = strlen name
    /\ col_payload_width_used t = to_unsigned (print_value text)
    /\ (0 < r -> strlen (name +++ gap) = Z.max (strlen name) 9 + 2)
    /\ (r = 0 -> gap = "").
Proof.
  intros Hq Hw Hname Hfill Hr name gap.
  destruct (print_packet_type_exact options Hq s Hw Hname)
    as (w1 & Hty & Ho1 & He1 & Hn1).
  rewrite (bind_next _ _ _ _ _ Hty).
  set (s1 := set_col_packettype_width_used (strlen name) (set_io w1 s)).
  destruct (print_payload_exact options Hq s1 r text Hn1 Hfill Hr)
    as (w2 & Hpay & Ho2 & He2 & Hn2).
  eexists. split; [exact Hpay|].
  cbn [io set_io set_str set_col_payload_width_used
       col_packettype_width_used col_payload_width_used].
  subst s1. cbn [io set_io set_col_packettype_width_used
                 col_packettype_width_used] in Ho2, He2.
  split; [rewrite Ho2, Ho1, append_assoc; reflexivity|].
  split; [rewrite He2; exact He1|].
  split; [reflexivity|]. split; [reflexivity|]. split.
  - intros Hpos. subst gap. unfold type_gap.
    assert (Hlt : (0 <? r) = true) by (apply Z.ltb_lt; exact Hpos).
    rewrite Hlt, !strlen_append. unfold strlen.
    rewrite length_replicate. unfold col_packettype_width.
    cbn [String.length]. lia.
  - intros Hz. subst gap r. reflexivity.
Qed.

(** ** The position of the raw-bytes column *)

Section RawGap.
Context `{Libipt}.
Variable options : ptdump_options.
Hypothesis not_quiet : has_flag (flags options) ptd_quiet = false.
Hypothesis raw : has_flag (flags options) ptd_show_raw_bytes = true.

Lemma print_raw_bytes_exact (s : dump_state) (n : nat) :
  no_faults (io s) ->
  size (pkt s) = Z.of_nat n ->
  exists t,
    print_raw_bytes options s = Next tt t
    /\ w_stdout (io t)
       = w_stdout (io s)
         +++ raw_gap (col_packettype_width_used s) (col_payload_width_used s)
         +++ raw_column (decoder s) n
    /\ w_stderr (io t) = w_stderr (io s)
    /\ no_faults (io t).
Proof.
  intros Hw Hsize.
  destruct (silent_print_raw_bytes options s) as (t0 & Ht0 & Hsilent & _).
  unfold print_raw_bytes in *. rewrite raw in *.
  unfold bind at 1 in Ht0. unfold gets at 1 in Ht0.
  unfold bind at 1. unfold gets at 1.
  assert (Hfirst : exists w1,
             (if col_payload_width_used s =? 0
              then tused <- gets col_packettype_width_used ;;
                   fillup_column options tused col_packettype_width ;;
                   print_col_separator options
              else ret tt) s = Next tt (set_io w1 s)
             /\ w_stdout w1
                = w_stdout (io s)
                  +++ (if col_payload_width_used s =? 0
                       then replicate
                              (Z.to_nat (col_packettype_width
                                         - col_packettype_width_used s)) " "
                            +++ "  "
                       else "")
             /\ no_faults w1).
  { destruct (col_payload_width_used s =? 0).
    - unfold bind at 1. unfold gets at 1.
      destruct (fillup_column_exact options not_quiet
                  (col_packettype_width_used s) col_packettype_width s Hw)
        as (w1 & Hf1 & Ho1 & _ & Hn1).
      rewrite (bind_next _ _ _ _ _ Hf1).
      destruct (print_col_separator_exact options not_quiet (set_io w1 s) Hn1)
        as (w2 & Hs2 & Ho2 & _ & Hn2).
      rewrite Hs2. exists w2. split; [reflexivity|].
      cbn [io set_io] in Ho2. rewrite Ho2, Ho1, append_assoc. auto.
    - exists (io s). rewrite append_empty_r. destruct s; cbn; auto. }
  destruct Hfirst as (w1 & H1 & Ho1 & Hn1).
  rewrite (bind_next _ _ _ _ _ H1) in *.
  destruct (fillup_column_exact options not_quiet (col_payload_width_used s)
              col_payload_width (set_io w1 s) Hn1)
    as (w2 & H2 & Ho2 & _ & Hn2).
  rewrite (bind_next _ _ _ _ _ H2) in *.
  destruct (print_col_separator_exact options not_quiet
              (set_io w2 (set_io w1 s)) Hn2)
    as (w3 & H3 & Ho3 & _ & Hn3).
  rewrite (bind_next _ _ _ _ _ H3) in *.
  destruct (print_raw_column_writes options not_quiet n
              (set_io w3 (set_io w2 (set_io w1 s))) Hn3 Hsize)
    as (t & H4 & Hw4).
  rewrite H4 in Ht0. inversion Ht0; subst t0.
  exists t. split; [exact H4|].
  destruct Hw4 as (Ho4 & Hn4 & _).
  split; [|split; [exact Hsilent|exact Hn4]].
  rewrite Ho4. cbn [io set_io decoder]. cbn [io set_io] in Ho2, Ho3.
  rewrite Ho3, Ho2, Ho1. unfold raw_gap, raw_column.
  rewrite !append_assoc. reflexivity.
Qed.
End RawGap.

(** X6: where the raw-bytes column starts.  With raw bytes shown, quiet
    mode off and no failing write, [print_raw_bytes] writes, before the
    bracketed bytes, the filling of the payload column up to 47 characters
    and the two-space separator, preceded, when the used payload width is
    zero, by the filling of the type column up to 9 characters and its
    separator.  So after a payload column of 1 to 47 characters the
    bracket opens 49 characters after the payload text started. *)
Theorem raw_bytes_column_position `{Libipt} (options : ptdump_options)
    (s : dump_state) (n : nat) :
  has_flag (flags options) ptd_quiet = false ->
  has_flag (flags options) ptd_show_raw_bytes = true ->
  no_faults (io s) ->
  size (pkt s) = Z.of_nat n ->
  (n <= 255)%nat ->
  let tused := col_packettype_width_used s in
  let used := col_payload_width_used s in
  (exists t,
      print_raw_bytes options s = Next tt t
      /\ w_stdout (io t)
         = w_stdout (io s) +++ raw_gap tused used +++ raw_column (decoder s) n
      /\ w_stderr (io t) = w_stderr (io s))
  /\ is_blank (raw_gap tused used)
  /\ (0 < used <= 47 -> used + strlen (raw_gap tused used) = 49)
  /\ (47 <= used -> raw_gap tused used = "  ")
  /\ (used = 0 -> 0 <= tused <= 9 -> strlen (raw_gap tused used) = 9 - tused + 51).
Proof.
  intros Hq Hraw Hw Hsize Hn tused used.
  split; [|split; [|split; [|split]]].
  - destruct (print_raw_bytes_exact options Hq Hraw s n Hw Hsize)
      as (t & Ht & Ho & He & _).
    exists t. auto.
  - unfold raw_gap. apply is_blank_append.
    + destruct (used =? 0); [|apply is_blank_empty].
      apply is_blank_append; [apply is_blank_replicate|reflexivity].
    + apply is_blank_append; [apply is_blank_replicate|reflexivity].
  - intros Hu. unfold raw_gap.
    assert (Hz : (used =? 0) = false) by (apply Z.eqb_neq; lia).
    rewrite Hz. unfold strlen. rewrite !length_append, length_replicate.
    unfold col_payload_width. cbn [String.length]. lia.
  - intros Hu. unfold raw_gap.
    assert (Hz : (used =? 0) = false) by (apply Z.eqb_neq; lia).
    rewrite Hz. unfold col_payload_width.
    replace (Z.to_nat (47 - used)) with 0%nat by lia. reflexivity.
  - intros Hu Ht. unfold raw_gap. rewrite Hu. change (0 =? 0) with true.
    cbv iota. unfold strlen. rewrite !length_append, !length_replicate.
    unfold col_payload_width, col_packettype_width. cbn [String.length]. lia.
Qed.

(** X7: a packet without payload text.  With quiet mode off, the print of
    the empty payload text returns [-pte_internal], and that value,
    converted to [unsigned], becomes the used payload width.  The raw-bytes
    block then finds the width neither zero nor below 47: it pads neither
    the type column nor the payload column, and the bracket opens two
    spaces after the type name. *)
Theorem empty_payload_leaves_raw_bytes_unaligned `{Libipt}
    (options : ptdump_options) (config : config_t) (s : dump_state)
    (n : nat) :
  has_flag (flags options) ptd_quiet = false ->
  has_flag (flags options) ptd_show_raw_bytes = true ->
  is_ip_packet (type (pkt s)) = false
  \/ has_flag (flags options) ptd_show_last_ip = false ->
  no_faults (io s) ->
  0 < pte_internal <= 2 ^ 32 - 47 ->
  pt_print_fill_payload_str (pkt s) = (0, "") ->
  size (pkt s) = Z.of_nat n ->
  (n <= 255)%nat ->
  exists t,
    (print_payload options ;; print_last_ip options config ;;
     print_raw_bytes options) s = Next tt t
    /\ col_payload_width_used t = 2 ^ 32 - pte_internal
    /\ w_stdout (io t) = w_stdout (io s) +++ "  " +++ raw_column (decoder s) n
    /\ w_stderr (io t) = w_stderr (io s).
Proof.
  intros Hq Hraw Hskip Hw Hint Hfill Hsize Hn.
  destruct (print_payload_exact options Hq s 0 "" Hw Hfill ltac:(lia))
    as (w1 & Hpay & Ho1 & He1 & Hn1).
  rewrite (bind_next _ _ _ _ _ Hpay).
  set (s1 := set_col_payload_width_used (to_unsigned (print_value ""))
               (set_io w1 (set_str "" s))) in *.
  rewrite (bind_next _ _ _ _ _ (print_last_ip_skips options config s1 Hskip)).
  assert (Hused : col_payload_width_used s1 = 2 ^ 32 - pte_internal).
  { subst s1. cbn [col_payload_width_used set_col_payload_width_used].
    unfold print_value, to_unsigned. change (strlen "" =? 0) with true.
    cbv iota.
    replace (- pte_internal) with (2 ^ 32 - pte_internal + (-1) * 2 ^ 32)
      by lia.
    rewrite Z.mod_add by lia. apply Z.mod_small. lia. }
  destruct (print_raw_bytes_exact options Hq Hraw s1 n Hn1 Hsize)
    as (t & Ht & Ho & He & _).
  exists t. split; [exact Ht|].
  assert (Hkeep : col_payload_width_used t = col_payload_width_used s1).
  { pose proof (keeps_print_raw_bytes options
                  (fun u => col_payload_width_used u = col_payload_width_used s1)
                  (fun _ => True)) as Hk.
    specialize (Hk ltac:(intros; assumption) s1 eq_refl).
    rewrite Ht in Hk. exact Hk. }
  split; [rewrite Hkeep; exact Hused|].
  split; [|rewrite He; exact He1].
  rewrite Ho. subst s1.
  cbn [io set_io set_col_payload_width_used set_str decoder
       col_packettype_width_used col_payload_width_used] in *.
  rewrite Ho1. unfold type_gap. change (0 <? 0) with false. cbv iota.
  unfold raw_gap at 1.
  fold (to_unsigned (print_value "")). rewrite Hused.
  assert (Hz : (2 ^ 32 - pte_internal =? 0) = false)
    by (apply Z.eqb_neq; lia).
  rewrite Hz. unfold col_payload_width.
  replace (Z.to_nat (47 - (2 ^ 32 - pte_internal))) with 0%nat by lia.
  cbn [replicate String.append]. rewrite !append_empty_r. reflexivity.
Qed.

(** ** What a turn of the loop does before rendering *)

Section Decoding.
Context `{Libipt}.
Variable options : ptdump_options.
Variable config : config_t.
Variable width : Z.

(** The decoding part of a turn falls through only after a successful
    [pt_pkt_next] with a packet of nonzero size, and then it has assigned
    [errcode], [pos], the decoder and the packet and nothing else. *)
Lemma decode_packet_next (s t : dump_state) :
  decode_packet s = Next tt t ->
  exists e offset r p d',
    pt_pkt_get_offset (decoder s) = (e, offset)
    /\ pt_pkt_next (decoder s) = (r, p, d')
    /\ 0 <= e
    /\ pt_errcode r <> pte_eos
    /\ pt_errcode r = pte_ok
    /\ size p <> 0
    /\ t = set_pkt p (set_decoder d' (set_pos offset (set_errcode e s))).
Proof.
  unfold decode_packet. unfold_stmts.
  destruct (pt_pkt_get_offset (decoder s)) as [e offset].
  destruct (Z.ltb_spec e 0) as [Hlt|Hge]; [discriminate|].
  destruct (pt_pkt_next (decoder s)) as [[r p] d'].
  destruct (Z.eqb_spec (pt_errcode r) pte_eos) as [Heos|Heos]; [discriminate|].
  destruct (Z.eqb_spec (pt_errcode r) pte_ok) as [Hok|Hok];
    cbn [negb]; [|discriminate].
  destruct (Z.eqb_spec (size p) 0) as [Hz|Hnz]; [discriminate|].
  intros Hnext. inversion Hnext; subst t.
  exists e, offset, r, p, d'. repeat split; assumption.
Qed.

Lemma decode_packet_jump (s t : dump_state) :
  decode_packet s = Jump t ->
  w_stdout (io t) = w_stdout (io s)
  /\ w_faults (io t) = w_faults (io s)
  /\ last_ip t = last_ip s.
Proof.
  unfold decode_packet. unfold_stmts.
  destruct (pt_pkt_get_offset (decoder s)) as [e offset].
  destruct (e <? 0); [intros Hj; inversion Hj; subst; cbn; auto|].
  destruct (pt_pkt_next (decoder s)) as [[r p] d'].
  destruct (pt_errcode r =? pte_eos);
    [intros Hj; inversion Hj; subst; cbn; auto|].
  destruct (negb (pt_errcode r =? pte_ok));
    [intros Hj; inversion Hj; subst; cbn; auto|].
  destruct (size p =? 0); intros Hj; inversion Hj; subst; cbn; auto.
Qed.

Lemma sync_keeps_stdout (s : dump_state) :
  w_stdout (io (after (sync s))) = w_stdout (io s).
Proof.
  unfold sync. unfold_stmts.
  destruct (pt_pkt_sync_forward (decoder s)) as [e d'].
  destruct (e <? 0); [|reflexivity].
  destruct (pt_pkt_get_offset d') as [e2 offset].
  destruct (e2 <? 0); reflexivity.
Qed.

Lemma step_loop (s : dump_state) :
  pc s = L_loop ->
  step options config width s
  = match decode_packet s with
    | Next _ t =>
        match (skip_pad options ;; render_packet options config width) t with
        | Next _ u => set_pc L_loop u
        | Jump u => u
        end
    | Jump t => t
    end.
Proof.
  intros Hpc. unfold step. rewrite Hpc, after_bind. unfold loop_body.
  change (bind decode_packet _ s) with
    (bind decode_packet
       (fun _ => skip_pad options ;; render_packet options config width) s).
  unfold bind at 1.
  destruct (decode_packet s) as [[] t|t]; [|reflexivity].
  destruct ((skip_pad options ;; render_packet options config width) t)
    as [[] u|u]; reflexivity.
Qed.
End Decoding.

(** X8: PAD packets are skipped on request.  With [ptd_no_pad] set, a turn
    of the loop that decodes a PAD packet of nonzero size assigns
    [errcode], [pos], the decoder and the packet and goes on with the next
    turn: it writes nothing to either stream, makes no call of [vprintf],
    and leaves the last-IP state and the used widths alone. *)
Theorem pad_packets_are_skipped `{Libipt} (options : ptdump_options)
    (config : config_t) (width : Z) (s : dump_state) (e offset r : Z)
    (p : packet) (d' : pt_packet_decoder) :
  has_flag (flags options) ptd_no_pad = true ->
  pc s = L_loop ->
  pt_pkt_get_offset (decoder s) = (e, offset) ->
  0 <= e ->
  pt_pkt_next (decoder s) = (r, p, d') ->
  pt_errcode r = pte_ok ->
  pte_eos <> pte_ok ->
  size p <> 0 ->
  type p = ppt_pad ->
  step options config width s
  = set_pkt p (set_decoder d' (set_pos offset (set_errcode e s)))
  /\ io (step options config width s) = io s
  /\ pc (step options config width s) = L_loop.
Proof.
  intros Hflag Hpc Hoff He Hnext Hok Heos Hsize Hpad.
  assert (Hstep : step options config width s
                  = set_pkt p (set_decoder d' (set_pos offset (set_errcode e s)))).
  { rewrite step_loop by exact Hpc.
    assert (Hd : decode_packet s
                 = Next tt (set_pkt p (set_decoder d'
                                         (set_pos offset (set_errcode e s))))).
    { unfold decode_packet. unfold_stmts. rewrite Hoff.
      assert (Hlt : (e <? 0) = false) by (apply Z.ltb_ge; exact He).
      rewrite Hlt, Hnext, Hok.
      assert (Hne : (pte_ok =? pte_eos) = false)
        by (apply Z.eqb_neq; congruence).
      rewrite Hne, Z.eqb_refl. cbn [negb].
      assert (Hnz : (size p =? 0) = false) by (apply Z.eqb_neq; exact Hsize).
      rewrite Hnz. reflexivity. }
    rewrite Hd. unfold skip_pad at 1. unfold bind at 1 2. unfold gets at 1.
    cbn [pkt set_pkt]. rewrite Hpad, Hflag. cbn [is_pad andb].
    unfold goto. destruct s; cbn in *. subst. reflexivity. }
  rewrite Hstep. cbn. auto.
Qed.

(** X9: output is written for decoded packets only.  A step of the engine
    that changes standard output is a turn of the loop in which quiet mode
    is off, the offset query and [pt_pkt_next] succeeded without
    end-of-stream, the packet has nonzero size, and it is not a PAD packet
    being skipped.  Synchronization, failed decoding and the way out write
    to the error stream only. *)
Theorem output_only_for_decoded_packets `{Libipt} (options : ptdump_options)
    (config : config_t) (width : Z) (s : dump_state) :
  w_stdout (io (step options config width s)) <> w_stdout (io s) ->
  pc s = L_loop
  /\ has_flag (flags options) ptd_quiet = false
  /\ 0 <= fst (pt_pkt_get_offset (decoder s))
  /\ pt_errcode (fst (fst (pt_pkt_next (decoder s)))) = pte_ok
  /\ pt_errcode (fst (fst (pt_pkt_next (decoder s)))) <> pte_eos
  /\ size (snd (fst (pt_pkt_next (decoder s)))) <> 0
  /\ is_pad (type (snd (fst (pt_pkt_next (decoder s)))))
     && has_flag (flags options) ptd_no_pad = false.
Proof.
  intros Hchg.
  destruct (has_flag (flags options) ptd_quiet) eqn:Hq.
  { exfalso. apply Hchg. now apply step_quiet. }
  destruct (pc s) eqn:Hpc.
  - exfalso. apply Hchg. unfold step. rewrite Hpc, after_bind.
    pose proof (sync_keeps_stdout s) as Hs.
    destruct (sync s) as [[] t|t]; exact Hs.
  - split; [reflexivity|]. split; [reflexivity|].
    rewrite (step_loop options config width s Hpc) in Hchg.
    destruct (decode_packet s) as [[] t|t] eqn:Hd.
    + destruct (decode_packet_next s t Hd)
        as (e & offset & r & p & d' & Hoff & Hnext & He & Heos & Hok & Hnz & Ht).
      rewrite Hoff, Hnext. cbn [fst snd].
      repeat (split; [assumption|]).
      destruct (is_pad (type p) && has_flag (flags options) ptd_no_pad) eqn:Hskip;
        [|reflexivity].
      exfalso. apply Hchg.
      unfold skip_pad at 1. unfold bind at 1 2. unfold gets at 1.
      subst t. cbn [pkt set_pkt]. rewrite Hskip. reflexivity.
    + exfalso. apply Hchg. apply (decode_packet_jump s t Hd).
  - exfalso. apply Hchg. unfold step. rewrite Hpc. reflexivity.
Qed.

(** ** Failures that end or interrupt the dump *)

(** X10: a failed synchronization is fatal.  When [pt_pkt_sync_forward]
    fails, at the start or after a recoverable error, the engine reaches
    [out:] in that step with the failing status as [errcode]; it writes
    nothing to standard output and reports the error once, with the
    offset when the offset query succeeds and in two lines when it does
    not.  A call of [dump] whose first synchronization fails returns that
    status. *)
Theorem failed_sync_ends_dump `{Libipt} (options : ptdump_options)
    (config : config_t) (width : Z) (s : dump_state) (e e2 offset : Z)
    (d' : pt_packet_decoder) :
  pc s = L_sync ->
  pt_pkt_sync_forward (decoder s) = (e, d') ->
  e < 0 ->
  pt_pkt_get_offset d' = (e2, offset) ->
  (forall fuel, exists t,
      run options config width (S fuel) s = Some t
      /\ t = step options config width s
      /\ pc t = L_out exit_sync_error
      /\ errcode t = e
      /\ w_stdout (io t) = w_stdout (io s)
      /\ w_stderr (io t) = w_stderr (io s) ++ sync_error_lines e e2 offset)
  /\ (forall fuel junk buffer w,
         pt_pkt_alloc_decoder (dump_config buffer options) = Some (decoder s) ->
         exists w',
           dump (S fuel) junk buffer options w = Some (e, w')
           /\ w_stdout w' = w_stdout w
           /\ w_stderr w' = w_stderr w ++ sync_error_lines e e2 offset).
Proof.
  intros Hpc Hsync He Hoff.
  assert (Hstep : forall cfg wd u,
             pc u = L_sync -> decoder u = decoder s ->
             let t := step options cfg wd u in
             pc t = L_out exit_sync_error
             /\ errcode t = e
             /\ w_stdout (io t) = w_stdout (io u)
             /\ w_stderr (io t) = w_stderr (io u) ++ sync_error_lines e e2 offset).
  { intros cfg wd u Hu Hd t. subst t. unfold step. rewrite Hu.
    unfold sync. unfold_stmts. rewrite Hd, Hsync.
    apply Z.ltb_lt in He. rewrite He, Hoff. unfold sync_error_lines.
    destruct (e2 <? 0); cbn; rewrite <- ?app_assoc; auto. }
  split.
  - intros fuel. exists (step options config width s).
    destruct (Hstep config width s Hpc eq_refl) as (Hp & Hrest).
    split.
    + cbn [run]. rewrite Hpc. destruct fuel; cbn [run]; rewrite Hp; reflexivity.
    + split; [reflexivity|]. split; [exact Hp|exact Hrest].
  - intros fuel junk buffer w Halloc. unfold dump. rewrite Halloc.
    unfold dump_run.
    set (u := dump_entry junk (decoder s) w).
    destruct (Hstep (dump_config buffer options)
                (dump_col_offset_width buffer options) u eq_refl eq_refl)
      as (Hp & Herr & Ho & Hd).
    cbn [run]. change (pc u) with L_sync. cbv iota.
    assert (Hrun : run options (dump_config buffer options)
                     (dump_col_offset_width buffer options) fuel
                     (step options (dump_config buffer options)
                        (dump_col_offset_width buffer options) u)
                   = Some (step options (dump_config buffer options)
                             (dump_col_offset_width buffer options) u)).
    { destruct fuel; cbn [run]; rewrite Hp; reflexivity. }
    rewrite Hrun. eexists. split; [rewrite Herr; reflexivity|].
    split; [exact Ho|exact Hd].
Qed.

Section ResolverFailures.
Context `{Libipt}.
Variable options : ptdump_options.
Variable config : config_t.
Hypothesis show : has_flag (flags options) ptd_show_last_ip = true.

Lemma print_last_ip_update (s : dump_state) (u : Z) (li' : pt_last_ip) :
  is_ip_packet (type (pkt s)) = true ->
  pt_last_ip_update_ip (last_ip s) (payload_ip (payload (pkt s))) config
  = (u, li') ->
  print_last_ip options config s
  = (if u =? - pte_invalid then
       diag_err_pos "failed to update last-IP" pte_invalid (pos s) ;;
       assign (set_errcode (- pte_internal)) ;;
       goto L_sync
     else if u =? - pte_bad_packet then
       diag_err_pos "failed to update last-IP" pte_bad_packet (pos s) ;;
       assign (set_errcode (- pte_bad_packet)) ;;
       goto L_sync
     else if u =? - pte_noip then ret tt
     else
       let (r, ip) := pt_last_ip_query li' in
       if r =? - pte_invalid then
         diag_err_pos "cannot query last-IP" pte_invalid (pos s) ;;
         assign (set_errcode (- pte_internal)) ;;
         goto L_sync
       else if r =? - pte_noip then ret tt
       else
         r <- (if r =? - pte_ip_suppressed
               then do_print options ", ip=<suppressed>"
               else if r =? 0 then do_print options (fmt_ip ip)
               else ret r) ;;
         if r <? 0 then
           diag_pos "cannot print last-IP" (pos s) ;;
           assign (set_errcode (- pte_internal)) ;;
           goto L_sync
         else
           used <- gets col_payload_width_used ;;
           assign (set_col_payload_width_used (to_unsigned (used + r))))
    (set_last_ip li' s).
Proof.
  intros Hip Hupd. unfold print_last_ip. rewrite show.
  unfold bind at 1 2. unfold gets at 1 2. rewrite Hip.
  unfold bind at 1. unfold gets at 1. rewrite Hupd.
  unfold bind at 1. unfold assign at 1. reflexivity.
Qed.
End ResolverFailures.

(** X11: failures of the last-IP tracker.  For a TIP, TIP.PGE, TIP.PGD or
    FUP packet with the last IP shown: an invalid-argument status of the
    update or of the query is reported at the packet's offset and leaves
    [-pte_internal] in [errcode]; a bad-packet status of the update is
    reported and leaves [-pte_bad_packet]; both jump to [sync:]; a no-IP
    status of either is passed over in silence.  In none of these cases
    is anything written to standard output, and the tracker keeps the
    state the update left. *)
Theorem last_ip_tracker_failures `{Libipt} (options : ptdump_options)
    (config : config_t) (s : dump_state) (u q ip : Z) (li' : pt_last_ip) :
  has_flag (flags options) ptd_show_last_ip = true ->
  is_ip_packet (type (pkt s)) = true ->
  pt_last_ip_update_ip (last_ip s) (payload_ip (payload (pkt s))) config
  = (u, li') ->
  pt_last_ip_query li' = (q, ip) ->
  pte_invalid <> pte_bad_packet ->
  pte_invalid <> pte_noip ->
  pte_bad_packet <> pte_noip ->
  let failed msg code keep :=
    Jump (A := unit)
      (set_pc L_sync
         (set_errcode keep
            (set_io (fprintf_stderr (DiagErrPos msg code (pos s)) (io s))
               (set_last_ip li' s)))) in
  (u = - pte_invalid ->
   print_last_ip options config s
   = failed "failed to update last-IP" pte_invalid (- pte_internal))
  /\ (u = - pte_bad_packet ->
      print_last_ip options config s
      = failed "failed to update last-IP" pte_bad_packet (- pte_bad_packet))
  /\ (u = - pte_noip ->
      print_last_ip options config s = Next tt (set_last_ip li' s))
  /\ (u <> - pte_invalid -> u <> - pte_bad_packet -> u <> - pte_noip ->
      (q = - pte_invalid ->
       print_last_ip options config s
       = failed "cannot query last-IP" pte_invalid (- pte_internal))
      /\ (q = - pte_noip ->
          print_last_ip options config s = Next tt (set_last_ip li' s))).
Proof.
  intros Hshow Hip Hupd Hquery Hd1 Hd2 Hd3 failed. subst failed.
  rewrite (print_last_ip_update options config Hshow s u li' Hip Hupd).
  assert (Hneq : forall a b : Z, a <> b -> (- a =? - b) = false).
  { intros a b Hab. apply Z.eqb_neq. lia. }
  split; [|split; [|split]].
  - intros ->. rewrite Z.eqb_refl. reflexivity.
  - intros ->. rewrite (Hneq _ _ (not_eq_sym Hd1)), Z.eqb_refl. reflexivity.
  - intros ->.
    rewrite (Hneq _ _ (not_eq_sym Hd2)), (Hneq _ _ (not_eq_sym Hd3)),
      Z.eqb_refl. reflexivity.
  - intros Hu1 Hu2 Hu3. apply Z.eqb_neq in Hu1, Hu2, Hu3.
    rewrite Hu1, Hu2, Hu3, Hquery. split.
    + intros ->. rewrite Z.eqb_refl. reflexivity.
    + intros ->. rewrite (Hneq _ _ (not_eq_sym Hd2)), Z.eqb_refl.
      reflexivity.
Qed.

(** X12: a failing payload formatter leaves a partial line.  With quiet
    mode off and no failing write, when [pt_print_fill_payload_str]
    fails for a packet, its offset column and type name have already been
    written; the failure is reported at the packet's offset, [errcode]
    becomes [-pte_internal] and control goes to [sync:], so that the line
    is left without payload, raw bytes and terminating newline. *)
Theorem payload_formatter_failure_leaves_partial_line `{Libipt}
    (options : ptdump_options) (config : config_t) (width : Z)
    (s0 s : dump_state) (r : Z) (text : string) :
  has_flag (flags options) ptd_quiet = false ->
  print_offset options width s0 = Next tt s ->
  no_faults (io s) ->
  0 < strlen (pt_print_packet_type_str (pkt s)) < 2 ^ 32 ->
  pt_print_fill_payload_str (pkt s) = (r, text) ->
  r < 0 ->
  exists t,
    render_packet options config width s0 = Jump t
    /\ pc t = L_sync
    /\ errcode t = - pte_internal
    /\ w_stdout (io t) = w_stdout (io s) +++ pt_print_packet_type_str (pkt s)
    /\ w_stderr (io t)
       = w_stderr (io s) ++ [DiagPos "cannot print packet payload" (pos s)].
Proof.
  intros Hq Hoff Hw Hname Hfill Hr.
  unfold render_packet.
  rewrite (bind_next _ _ _ _ _ Hoff).
  destruct (print_packet_type_exact options Hq s Hw Hname)
    as (w1 & Hty & Ho1 & He1 & _).
  rewrite (bind_next _ _ _ _ _ Hty).
  eexists. split.
  - apply bind_jump. unfold print_payload. unfold_stmts.
    cbn [pkt set_col_packettype_width_used set_io]. rewrite Hfill.
    apply Z.ltb_lt in Hr. rewrite Hr. reflexivity.
  - cbn. rewrite Ho1, He1. auto.
Qed.

(** ** The line of a packet *)

Section Line.
Context `{Libipt}.
Variable options : ptdump_options.
Variable config : config_t.
Variable width : Z.
Hypothesis not_quiet : has_flag (flags options) ptd_quiet = false.

Lemma stage_trans (a b : string) (s t u : dump_state) :
  stage a s t -> stage b t u -> stage (a +++ b) s u.
Proof.
  unfold stage.
  intros (Ho & He & Hn & Hk & Hd & Hl & Hp & Hc & Hr)
         (Ho' & He' & Hn' & Hk' & Hd' & Hl' & Hp' & Hc' & Hr').
  rewrite Ho', Ho, append_assoc. repeat split; congruence.
Qed.

Lemma stage_print_offset (s : dump_state) :
  no_faults (io s) ->
  (has_flag (flags options) ptd_show_offset = true ->
   1 <= width <= 16 /\ 0 <= pos s < 16 ^ width) ->
  exists t,
    print_offset options width s = Next tt t
    /\ stage (offset_part options width (pos s)) s t
    /\ col_packettype_width_used t = col_packettype_width_used s
    /\ col_payload_width_used t = col_payload_width_used s.
Proof.
  intros Hw Hfit. unfold offset_part.
  destruct (has_flag (flags options) ptd_show_offset) eqn:Hshow.
  - destruct (Hfit eq_refl) as [Hw16 Hp].
    destruct (print_offset_exact options width s not_quiet Hshow Hw Hw16 Hp)
      as (w' & Hoff & Ho & He & Hn).
    eexists. split; [exact Hoff|]. unfold stage. cbn. auto 10.
  - exists s. split; [unfold print_offset; rewrite Hshow; reflexivity|].
    unfold stage. rewrite append_empty_r. auto 10.
Qed.

Lemma stage_print_packet_type (s : dump_state) :
  no_faults (io s) ->
  0 < strlen (pt_print_packet_type_str (pkt s)) < 2 ^ 32 ->
  exists t,
    print_packet_type options s = Next tt t
    /\ stage (pt_print_packet_type_str (pkt s)) s t
    /\ col_packettype_width_used t = strlen (pt_print_packet_type_str (pkt s)).
Proof.
  intros Hw Hname.
  destruct (print_packet_type_exact options not_quiet s Hw Hname)
    as (w' & Hty & Ho & He & Hn).
  eexists. split; [exact Hty|]. unfold stage. cbn. auto 10.
Qed.

Lemma stage_print_payload (s : dump_state) (r : Z) (text : string) :
  no_faults (io s) ->
  pt_print_fill_payload_str (pkt s) = (r, text) ->
  0 <= r ->
  exists t,
    print_payload options s = Next tt t
    /\ stage (type_gap (col_packettype_width_used s) r +++ text) s t
    /\ col_packettype_width_used t = col_packettype_width_used s
    /\ col_payload_width_used t = to_unsigned (print_value text).
Proof.
  intros Hw Hfill Hr.
  destruct (print_payload_exact options not_quiet s r text Hw Hfill Hr)
    as (w' & Hpay & Ho & He & Hn).
  eexists. split; [exact Hpay|]. unfold stage. cbn. auto 10.
Qed.

Lemma stage_print_raw_bytes (s : dump_state) (n : nat) :
  no_faults (io s) ->
  size (pkt s) = Z.of_nat n ->
  exists t,
    print_raw_bytes options s = Next tt t
    /\ stage (raw_part options (decoder s) n (col_packettype_width_used s)
                (col_payload_width_used s)) s t.
Proof.
  intros Hw Hsize. unfold raw_part.
  destruct (has_flag (flags options) ptd_show_raw_bytes) eqn:Hraw.
  - destruct (print_raw_bytes_exact options not_quiet Hraw s n Hw Hsize)
      as (t & Ht & Ho & He & Hn).
    exists t. split; [exact Ht|].
    pose proof (keeps_print_raw_bytes options
                  (fun u => pkt u = pkt s /\ decoder u = decoder s
                            /\ last_ip u = last_ip s /\ pos u = pos s
                            /\ pc u = pc s /\ errcode u = errcode s)
                  (fun _ => True)) as Hk.
    specialize (Hk ltac:(intros; assumption) s
                  ltac:(repeat split; reflexivity)).
    rewrite Ht in Hk. unfold stage. intuition.
  - exists s. split; [unfold print_raw_bytes; rewrite Hraw; reflexivity|].
    unfold stage. rewrite append_empty_r. auto 10.
Qed.

Lemma stage_print_newline (s : dump_state) :
  no_faults (io s) ->
  exists t,
    print_newline options s = Next tt t
    /\ stage (String "010"%char "") s t.
Proof.
  intros Hw. unfold print_newline.
  destruct (do_print_nonempty options not_quiet (String "010"%char "") s Hw
              ltac:(reflexivity)) as (w' & Hp & Ho & He & Hn).
  rewrite (bind_next _ _ _ _ _ Hp). unfold ret.
  eexists. split; [reflexivity|]. unfold stage. cbn. auto 10.
Qed.
End Line.

(** The rendering of a packet that gets no last-IP text, as one stage. *)
Lemma render_packet_stage `{Libipt} (options : ptdump_options)
    (config : config_t) (width : Z) (s : dump_state) (r : Z) (text : string)
    (n : nat) :
  has_flag (flags options) ptd_quiet = false ->
  no_faults (io s) ->
  (has_flag (flags options) ptd_show_offset = true ->
   1 <= width <= 16 /\ 0 <= pos s < 16 ^ width) ->
  0 < strlen (pt_print_packet_type_str (pkt s)) < 2 ^ 32 ->
  pt_print_fill_payload_str (pkt s) = (r, text) ->
  0 <= r ->
  is_ip_packet (type (pkt s)) = false
  \/ has_flag (flags options) ptd_show_last_ip = false ->
  size (pkt s) = Z.of_nat n ->
  (n <= 255)%nat ->
  exists t,
    render_packet options config width s = Next tt t
    /\ stage (packet_line options width (pos s)
                (pt_print_packet_type_str (pkt s)) r text (decoder s) n) s t.
Proof.
  intros Hq Hw Hfit Hname Hfill Hr Hskip Hsize Hn.
  unfold render_packet.
  destruct (stage_print_offset options width Hq s Hw Hfit)
    as (s1 & H1 & Hs1 & Ht1 & Hu1).
  rewrite (bind_next _ _ _ _ _ H1).
  assert (Hk1 : pkt s1 = pkt s) by apply Hs1.
  destruct (stage_print_packet_type options Hq s1 (proj1 (proj2 (proj2 Hs1))))
    as (s2 & H2 & Hs2 & Ht2); [rewrite Hk1; exact Hname|].
  rewrite (bind_next _ _ _ _ _ H2).
  assert (Hk2 : pkt s2 = pkt s) by (rewrite <- Hk1; apply Hs2).
  destruct (stage_print_payload options Hq s2 r text
              (proj1 (proj2 (proj2 Hs2)))) as (s3 & H3 & Hs3 & Ht3 & Hu3);
    [rewrite Hk2; exact Hfill|exact Hr|].
  rewrite (bind_next _ _ _ _ _ H3).
  assert (Hk3 : pkt s3 = pkt s) by (rewrite <- Hk2; apply Hs3).
  rewrite (bind_next _ _ _ _ _
             (print_last_ip_skips options config s3
                ltac:(rewrite Hk3; exact Hskip))).
  destruct (stage_print_raw_bytes options Hq s3 n (proj1 (proj2 (proj2 Hs3))))
    as (s4 & H4 & Hs4); [rewrite Hk3; exact Hsize|].
  rewrite (bind_next _ _ _ _ _ H4).
  destruct (stage_print_newline options Hq s4 (proj1 (proj2 (proj2 Hs4))))
    as (s5 & H5 & Hs5).
  exists s5. split; [exact H5|].
  pose proof (stage_trans _ _ _ _ _ Hs1
                (stage_trans _ _ _ _ _ Hs2
                   (stage_trans _ _ _ _ _ Hs3
                      (stage_trans _ _ _ _ _ Hs4 Hs5)))) as Hall.
  assert (Hd3 : decoder s3 = decoder s).
  { destruct Hs1 as (_ & _ & _ & _ & Hd1 & _),
      Hs2 as (_ & _ & _ & _ & Hd2 & _), Hs3 as (_ & _ & _ & _ & Hd3 & _).
    congruence. }
  rewrite Ht3, Ht2, Hu3, Hd3, Hk1 in Hall.
  unfold packet_line. rewrite !append_assoc in Hall. exact Hall.
Qed.

(** X13: the line of a packet.  With quiet mode off and no failing write,
    a packet that gets no last-IP text (the flag is off or the packet
    carries no IP) is rendered to the end, and what is written is one
    line: the offset and its separator when the offset is shown, the type
    name, the payload text after the filled type column when the payload
    status is positive, the raw-bytes column after its filling when raw
    bytes are shown, and the newline.  Nothing goes to the error stream,
    the engine stays in the loop, and the last-IP state is untouched. *)
Theorem line_of_a_packet `{Libipt} (options : ptdump_options)
    (config : config_t) (width : Z) (s : dump_state) (r : Z) (text : string)
    (n : nat) :
  has_flag (flags options) ptd_quiet = false ->
  no_faults (io s) ->
  (has_flag (flags options) ptd_show_offset = true ->
   1 <= width <= 16 /\ 0 <= pos s < 16 ^ width) ->
  0 < strlen (pt_print_packet_type_str (pkt s)) < 2 ^ 32 ->
  pt_print_fill_payload_str (pkt s) = (r, text) ->
  0 <= r ->
  is_ip_packet (type (pkt s)) = false
  \/ has_flag (flags options) ptd_show_last_ip = false ->
  size (pkt s) = Z.of_nat n ->
  (n <= 255)%nat ->
  exists t,
    render_packet options config width s = Next tt t
    /\ w_stdout (io t)
       = w_stdout (io s)
         +++ packet_line options width (pos s)
               (pt_print_packet_type_str (pkt s)) r text (decoder s) n
    /\ w_stderr (io t) = w_stderr (io s)
    /\ pc t = pc s
    /\ last_ip t = last_ip s.
Proof.
  intros Hq Hw Hfit Hname Hfill Hr Hskip Hsize Hn.
  destruct (render_packet_stage options config width s r text n
              Hq Hw Hfit Hname Hfill Hr Hskip Hsize Hn)
    as (t & Ht & Ho & He & _ & _ & _ & Hl & _ & Hc & _).
  exists t. auto.
Qed.

(** ** The options of [main] *)

Lemma has_flag_set_flag (f m m' : Z) (k : nat) :
  m' = Z.shiftl 1 (Z.of_nat k) ->
  has_flag (set_flag f m) m' = has_flag f m' || Z.testbit m (Z.of_nat k).
Proof. intros ->. rewrite !has_flag_bit. unfold set_flag. apply Z.lor_spec. Qed.

Lemma has_flag_clear_flag (f m m' : Z) (k : nat) :
  m' = Z.shiftl 1 (Z.of_nat k) ->
  has_flag (clear_flag f m) m'
  = has_flag f m' && Z.testbit (Z.lxor m (Z.ones 32)) (Z.of_nat k).
Proof.
  intros ->. rewrite !has_flag_bit. unfold clear_flag. apply Z.land_spec.
Qed.

Lemma plain_option_cases (a : string) :
  plain_option a = true ->
  a = "--quiet" \/ a = "--no-pad" \/ a = "--no-offset" \/ a = "--raw"
  \/ a = "--lastip" \/ a = "--fixed-offset-width".
Proof.
  unfold plain_option. intros Ha.
  repeat (apply orb_true_iff in Ha; destruct Ha as [Ha|Ha]);
    apply String.eqb_eq in Ha; auto 10.
Qed.

(** The bit of each flag. *)
Ltac flag_bit m :=
  lazymatch m with
  | ptd_show_offset => constr:(0%nat)
  | ptd_show_raw_bytes => constr:(1%nat)
  | ptd_show_last_ip => constr:(2%nat)
  | ptd_fixed_offset_width => constr:(3%nat)
  | ptd_use_cpu => constr:(4%nat)
  | ptd_quiet => constr:(5%nat)
  | ptd_no_pad => constr:(6%nat)
  end.

Ltac flag_after_option :=
  lazymatch goal with
  | |- has_flag (set_flag ?f ?m) ?m' = _ =>
      let k := flag_bit m' in
      rewrite (has_flag_set_flag f m m' k eq_refl);
      destruct (has_flag f m'); reflexivity
  | |- has_flag (clear_flag ?f ?m) ?m' = _ =>
      let k := flag_bit m' in
      rewrite (has_flag_clear_flag f m m' k eq_refl);
      destruct (has_flag f m'); reflexivity
  end.

Lemma option_effect_flags (a : string) (f : Z) :
  plain_option a = true ->
  has_flag (option_effect a f) ptd_show_offset
  = has_flag f ptd_show_offset && negb (String.eqb "--no-offset" a)
  /\ has_flag (option_effect a f) ptd_show_raw_bytes
     = has_flag f ptd_show_raw_bytes || String.eqb "--raw" a
  /\ has_flag (option_effect a f) ptd_show_last_ip
     = has_flag f ptd_show_last_ip || String.eqb "--lastip" a
  /\ has_flag (option_effect a f) ptd_fixed_offset_width
     = has_flag f ptd_fixed_offset_width
       || String.eqb "--fixed-offset-width" a
  /\ has_flag (option_effect a f) ptd_use_cpu
     = has_flag f ptd_use_cpu || false
  /\ has_flag (option_effect a f) ptd_quiet
     = has_flag f ptd_quiet || String.eqb "--quiet" a
  /\ has_flag (option_effect a f) ptd_no_pad
     = has_flag f ptd_no_pad || String.eqb "--no-pad" a.
Proof.
  intros Ha.
  destruct (plain_option_cases a Ha) as [->|[->|[->|[->|[->| ->]]]]].
  - change (option_effect "--quiet" f) with (set_flag f ptd_quiet).
    repeat split; flag_after_option.
  - change (option_effect "--no-pad" f) with (set_flag f ptd_no_pad).
    repeat split; flag_after_option.
  - change (option_effect "--no-offset" f)
      with (clear_flag f ptd_show_offset).
    repeat split; flag_after_option.
  - change (option_effect "--raw" f) with (set_flag f ptd_show_raw_bytes).
    repeat split; flag_after_option.
  - change (option_effect "--lastip" f) with (set_flag f ptd_show_last_ip).
    repeat split; flag_after_option.
  - change (option_effect "--fixed-offset-width" f)
      with (set_flag f ptd_fixed_offset_width).
    repeat split; flag_after_option.
Qed.

Lemma flags_after_flags (plain : list string) :
  forall f,
    forallb plain_option plain = true ->
    has_flag (flags_after plain f) ptd_show_offset
    = has_flag f ptd_show_offset && negb (given "--no-offset" plain)
    /\ has_flag (flags_after plain f) ptd_show_raw_bytes
       = has_flag f ptd_show_raw_bytes || given "--raw" plain
    /\ has_flag (flags_after plain f) ptd_show_last_ip
       = has_flag f ptd_show_last_ip || given "--lastip" plain
    /\ has_flag (flags_after plain f) ptd_fixed_offset_width
       = has_flag f ptd_fixed_offset_width
         || given "--fixed-offset-width" plain
    /\ has_flag (flags_after plain f) ptd_use_cpu = has_flag f ptd_use_cpu
    /\ has_flag (flags_after plain f) ptd_quiet
       = has_flag f ptd_quiet || given "--quiet" plain
    /\ has_flag (flags_after plain f) ptd_no_pad
       = has_flag f ptd_no_pad || given "--no-pad" plain.
Proof.
  unfold flags_after, given.
  induction plain as [|a plain IH]; intros f Hplain.
  - cbn [fold_left existsb negb].
    rewrite andb_true_r, !orb_false_r. repeat split.
  - cbn [forallb] in Hplain. apply andb_true_iff in Hplain.
    destruct Hplain as [Ha Hplain].
    cbn [fold_left existsb].
    destruct (IH (option_effect a f) Hplain)
      as (I1 & I2 & I3 & I4 & I5 & I6 & I7).
    destruct (option_effect_flags a f Ha)
      as (E1 & E2 & E3 & E4 & E5 & E6 & E7).
    rewrite I1, I2, I3, I4, I5, I6, I7, E1, E2, E3, E4, E5, E6, E7.
    rewrite negb_orb, orb_false_r, <- !orb_assoc, <- !andb_assoc.
    repeat split.
Qed.

Section PlainOptions.
Context `{Libipt}.

Lemma with_flags_same (options : ptdump_options) :
  with_flags (flags options) options = options.
Proof. destruct options. reflexivity. Qed.

(** The loop over a run of options without argument. *)
Lemma arg_loop_plain (plain : list string) :
  forall pre tail options fuel,
    forallb plain_option plain = true ->
    (List.length plain <= fuel)%nat ->
    arg_loop fuel (pre ++ plain ++ tail) (Z.of_nat (List.length pre)) options
    = arg_loop (fuel - List.length plain) (pre ++ plain ++ tail)
        (Z.of_nat (List.length pre + List.length plain))
        (with_flags (flags_after plain (flags options)) options).
Proof.
  induction plain as [|a plain IH]; intros pre tail options fuel Hplain Hfuel.
  - cbn [List.length app flags_after fold_left].
    rewrite Nat.sub_0_r, Nat.add_0_r, with_flags_same. reflexivity.
  - cbn [forallb] in Hplain. apply andb_true_iff in Hplain.
    destruct Hplain as [Ha Hplain].
    destruct fuel as [|fuel]; [cbn in Hfuel; lia|].
    cbn [List.length] in Hfuel.
    assert (Hnext : forall o,
               arg_loop fuel (pre ++ (a :: plain) ++ tail)
                 (Z.of_nat (List.length pre) + 1) o
               = arg_loop (S fuel - List.length (a :: plain))
                   (pre ++ (a :: plain) ++ tail)
                   (Z.of_nat (List.length pre + List.length (a :: plain)))
                   (with_flags (flags_after plain (flags o)) o)).
    { intros o.
      pose proof (IH (pre ++ [a]) tail o fuel Hplain ltac:(lia)) as Ho.
      rewrite <- !app_assoc in Ho. cbn [app] in Ho.
      rewrite length_app in Ho. cbn [List.length] in Ho.
      replace (Z.of_nat (List.length pre) + 1)
        with (Z.of_nat (List.length pre + 1)) by lia.
      cbn [app]. rewrite Ho. cbn [List.length Nat.sub].
      do 2 f_equal. lia. }
    cbn [arg_loop].
    assert (Hlt : (Z.of_nat (List.length pre)
                   <? Z.of_nat (List.length (pre ++ (a :: plain) ++ tail)))
                  = true).
    { apply Z.ltb_lt. rewrite !length_app. cbn [List.length]. lia. }
    rewrite Hlt. cbn [app]. rewrite argv_at_middle.
    destruct (plain_option_cases a Ha) as [->|[->|[->|[->|[->| ->]]]]];
      rewrite !Hnext; reflexivity.
Qed.
End PlainOptions.

(** X14: options without argument.  For a command line made of such
    options, in any order and number, followed by a file name that does
    not begin with a dash, the argument loop returns that file and options
    in which quiet, no-pad, raw, last-IP and fixed-width are set exactly
    when the corresponding option was given, the offset is shown exactly
    when [--no-offset] was not, the cpu override is on and the cpu is
    zero. *)
Theorem plain_options_set_their_flags `{Libipt}
    (name : string) (plain : list string) (file : string) :
  forallb plain_option plain = true ->
  String.prefix "-" file = false ->
  exists options,
    parse_args (name :: plain ++ [file]) = Some (args_file options file)
    /\ cpu options = cpu_zero
    /\ has_flag (flags options) ptd_quiet = given "--quiet" plain
    /\ has_flag (flags options) ptd_no_pad = given "--no-pad" plain
    /\ has_flag (flags options) ptd_show_offset
       = negb (given "--no-offset" plain)
    /\ has_flag (flags options) ptd_show_raw_bytes = given "--raw" plain
    /\ has_flag (flags options) ptd_show_last_ip = given "--lastip" plain
    /\ has_flag (flags options) ptd_fixed_offset_width
       = given "--fixed-offset-width" plain
    /\ has_flag (flags options) ptd_use_cpu = true.
Proof.
  intros Hplain Hfile.
  exists (with_flags (flags_after plain (flags default_options))
            default_options).
  split.
  - unfold parse_args.
    pose proof (arg_loop_plain plain [name] [file] default_options
                  (List.length (name :: plain ++ [file])) Hplain) as Hloop.
    cbn [app List.length] in Hloop |- *. change (Z.of_nat 1) with 1 in Hloop.
    rewrite Hloop by (rewrite length_app; lia).
    replace (S (List.length (plain ++ [file])) - List.length plain)%nat
      with 2%nat by (rewrite length_app; cbn [List.length]; lia).
    cbn [arg_loop].
    assert (Hlt : (Z.of_nat (1 + List.length plain)
                   <? Z.of_nat (List.length (name :: plain ++ [file])))
                  = true).
    { apply Z.ltb_lt. cbn [List.length]. rewrite length_app.
      cbn [List.length]. lia. }
    rewrite Hlt.
    assert (Harg : argv_at (name :: plain ++ [file])
                     (Z.of_nat (1 + List.length plain)) = Some file).
    { change (name :: plain ++ [file]) with ((name :: plain) ++ [file]).
      change (1 + List.length plain)%nat with (List.length (name :: plain)).
      apply argv_at_middle. }
    rewrite Harg, Hfile. cbn [negb].
    assert (Hlast : (Z.of_nat (1 + List.length plain)
                     <? Z.of_nat (List.length (name :: plain ++ [file])) - 1)
                    = false).
    { apply Z.ltb_ge. cbn [List.length]. rewrite length_app.
      cbn [List.length]. lia. }
    rewrite Hlast. reflexivity.
  - destruct (flags_after_flags plain (flags default_options) Hplain)
      as (F1 & F2 & F3 & F4 & F5 & F6 & F7).
    cbn [cpu flags with_flags default_options] in *.
    rewrite F1, F2, F3, F4, F5, F6, F7. repeat split.
Qed.

Section CommandLine.
Context `{Libipt}.

(** Where the loop stands after the options without argument. *)
Lemma parse_args_after_plain (name : string) (plain rest : list string) :
  forallb plain_option plain = true ->
  parse_args (name :: plain ++ rest)
  = arg_loop (S (List.length rest)) (name :: plain ++ rest)
      (Z.of_nat (1 + List.length plain))
      (with_flags (flags_after plain (flags default_options))
         default_options).
Proof.
  intros Hplain. unfold parse_args.
  pose proof (arg_loop_plain plain [name] rest default_options
                (List.length (name :: plain ++ rest)) Hplain) as Hloop.
  cbn [app List.length] in Hloop |- *. change (Z.of_nat 1) with 1 in Hloop.
  rewrite Hloop by (rewrite length_app; lia).
  f_equal. rewrite length_app. lia.
Qed.

Lemma argv_after_plain (name : string) (plain : list string) (a : string)
    (tail : list string) :
  argv_at (name :: plain ++ a :: tail) (Z.of_nat (1 + List.length plain))
  = Some a
  /\ (Z.of_nat (1 + List.length plain)
      <? Z.of_nat (List.length (name :: plain ++ a :: tail))) = true.
Proof.
  split.
  - change (name :: plain ++ a :: tail) with ((name :: plain) ++ a :: tail).
    change (1 + List.length plain)%nat with (List.length (name :: plain)).
    apply argv_at_middle.
  - apply Z.ltb_lt. cbn [List.length]. rewrite length_app.
    cbn [List.length]. lia.
Qed.

(** The loop at a last argument that is no option. *)
Lemma arg_loop_file (fuel : nat) (pre : list string) (file : string)
    (options : ptdump_options) :
  String.prefix "-" file = false ->
  arg_loop (S fuel) (pre ++ [file]) (Z.of_nat (List.length pre)) options
  = Some (args_file options file).
Proof.
  intros Hfile. cbn [arg_loop].
  assert (Hlt : (Z.of_nat (List.length pre)
                 <? Z.of_nat (List.length (pre ++ [file]))) = true).
  { apply Z.ltb_lt. rewrite length_app. cbn [List.length]. lia. }
  assert (Hlast : (Z.of_nat (List.length pre)
                   <? Z.of_nat (List.length (pre ++ [file])) - 1) = false).
  { apply Z.ltb_ge. rewrite length_app. cbn [List.length]. lia. }
  rewrite Hlt, argv_at_middle, Hfile, Hlast. reflexivity.
Qed.

Lemma arg_loop_plain_file (plain pre : list string) (file : string)
    (options : ptdump_options) (fuel : nat) :
  forallb plain_option plain = true ->
  String.prefix "-" file = false ->
  (List.length plain < fuel)%nat ->
  arg_loop fuel (pre ++ plain ++ [file]) (Z.of_nat (List.length pre)) options
  = Some (args_file (with_flags (flags_after plain (flags options)) options)
            file).
Proof.
  intros Hplain Hfile Hfuel.
  rewrite arg_loop_plain by (assumption || lia).
  destruct (fuel - List.length plain)%nat as [|fuel'] eqn:Hf; [lia|].
  rewrite app_assoc, <- length_app. now apply arg_loop_file.
Qed.

(** One turn of the loop at [--cpu] when an argument follows. *)
Lemma arg_loop_cpu (fuel : nat) (argv : list string) (idx : Z)
    (options : ptdump_options) (arg : string) :
  (idx <? Z.of_nat (List.length argv)) = true ->
  argv_at argv idx = Some "--cpu" ->
  argv_at argv (idx + 1) = Some arg ->
  arg_loop (S fuel) argv idx options
  = if String.eqb arg "auto" then
      arg_loop fuel argv (idx + 1 + 1)
        (with_flags (clear_flag (flags options) ptd_use_cpu) options)
    else if String.eqb arg "none" then
      arg_loop fuel argv (idx + 1 + 1)
        (with_cpu cpu_zero
           (with_flags (set_flag (flags options) ptd_use_cpu) options))
    else if fst (pt_cpu_parse arg) <? 0 then Some (args_return 1 msg_cpu)
    else
      arg_loop fuel argv (idx + 1 + 1)
        (with_cpu (snd (pt_cpu_parse arg))
           (with_flags (set_flag (flags options) ptd_use_cpu) options)).
Proof.
  intros Hlt Harg Hnext. cbn [arg_loop]. rewrite Hlt, Harg.
  change (negb (String.prefix "-" "--cpu")) with false.
  change (String.eqb "--cpu" "-h") with false.
  change (String.eqb "--cpu" "--help") with false.
  change (String.eqb "--cpu" "--version") with false.
  change (String.eqb "--cpu" "--quiet") with false.
  change (String.eqb "--cpu" "--no-pad") with false.
  change (String.eqb "--cpu" "--no-offset") with false.
  change (String.eqb "--cpu" "--raw") with false.
  change (String.eqb "--cpu" "--lastip") with false.
  change (String.eqb "--cpu" "--fixed-offset-width") with false.
  change (String.eqb "--cpu" "--cpu") with true.
  cbv iota. rewrite Hnext.
  destruct (String.eqb arg "auto"); [reflexivity|].
  destruct (String.eqb arg "none"); [reflexivity|].
  destruct (pt_cpu_parse arg) as [e c]. reflexivity.
Qed.

Lemma given_app (a : string) (l1 l2 : list string) :
  given a (l1 ++ l2) = given a l1 || given a l2.
Proof. apply existsb_app. Qed.

Lemma flags_as_given_default (plain : list string) :
  forallb plain_option plain = true ->
  flags_as_given (flags_after plain (flags default_options)) plain.
Proof.
  intros Hplain.
  destruct (flags_after_flags plain (flags default_options) Hplain)
    as (F1 & F2 & F3 & F4 & F5 & F6 & F7).
  unfold flags_as_given. rewrite F1, F2, F3, F4, F6, F7. repeat split.
Qed.

(** Options after [--cpu] add to the flags set before it; the cpu flag
    itself stays as [--cpu] left it. *)
Lemma flags_as_given_after_cpu (plain plain2 : list string) (f g : Z) :
  forallb plain_option plain2 = true ->
  flags_as_given f plain ->
  g = set_flag f ptd_use_cpu \/ g = clear_flag f ptd_use_cpu ->
  flags_as_given (flags_after plain2 g) (plain ++ plain2)
  /\ has_flag (flags_after plain2 g) ptd_use_cpu = has_flag g ptd_use_cpu.
Proof.
  intros Hplain2 (G1 & G2 & G3 & G4 & G5 & G6) Hg.
  destruct (flags_after_flags plain2 g Hplain2)
    as (F1 & F2 & F3 & F4 & F5 & F6 & F7).
  split; [|exact F5].
  unfold flags_as_given.
  rewrite F1, F2, F3, F4, F6, F7, !given_app, negb_orb.
  rewrite <- G1, <- G2, <- G3, <- G4, <- G5, <- G6.
  destruct Hg as [-> | ->]; repeat split;
    match goal with
    | |- context [has_flag (set_flag ?f ?m) ?m'] =>
        let k := flag_bit m' in
        rewrite (has_flag_set_flag f m m' k eq_refl);
        destruct (has_flag f m'); reflexivity
    | |- context [has_flag (clear_flag ?f ?m) ?m'] =>
        let k := flag_bit m' in
        rewrite (has_flag_clear_flag f m m' k eq_refl);
        destruct (has_flag f m'); reflexivity
    end.
Qed.

Lemma has_flag_set_use_cpu (f : Z) :
  has_flag (set_flag f ptd_use_cpu) ptd_use_cpu = true.
Proof.
  rewrite (has_flag_set_flag f ptd_use_cpu ptd_use_cpu 4 eq_refl).
  apply orb_true_r.
Qed.

Lemma has_flag_clear_use_cpu (f : Z) :
  has_flag (clear_flag f ptd_use_cpu) ptd_use_cpu = false.
Proof.
  rewrite (has_flag_clear_flag f ptd_use_cpu ptd_use_cpu 4 eq_refl).
  apply andb_false_r.
Qed.

(** Without output, as with the quiet flag, [dump] leaves the standard
    output as it is. *)
Lemma dump_quiet (options : ptdump_options) (fuel : nat)
    (junk : indeterminate) (buffer : list Z) (w : world) e w' :
  has_flag (flags options) ptd_quiet = true ->
  dump fuel junk buffer options w = Some (e, w') ->
  w_stdout w' = w_stdout w.
Proof.
  intros Hq Hd. unfold dump in Hd.
  destruct (pt_pkt_alloc_decoder _) as [d|].
  - unfold dump_run in Hd.
    destruct (run _ _ _ _ _) as [s|] eqn:Hrun; [|discriminate].
    inversion Hd; subst. apply (run_quiet _ Hq) in Hrun. exact Hrun.
  - inversion Hd; subst. reflexivity.
Qed.
End CommandLine.

(** X15: command lines [main] rejects.  After any options without
    argument: a command line that ends there names no trace file; an
    argument that is no option must be the last one; and an argument that
    begins with a dash must be one of the known options.  In each case the
    loop returns -1, with the no-file message in the first and the usage
    message in the other two. *)
Theorem rejected_command_lines `{Libipt}
    (name : string) (plain : list string) :
  forallb plain_option plain = true ->
  parse_args (name :: plain) = Some (args_return (-1) msg_no_file)
  /\ (forall a b tail,
         String.prefix "-" a = false ->
         parse_args (name :: plain ++ a :: b :: tail)
         = Some (args_return (-1) msg_usage))
  /\ (forall a tail,
         String.prefix "-" a = true ->
         known_option a = false ->
         parse_args (name :: plain ++ a :: tail)
         = Some (args_return (-1) msg_usage)).
Proof.
  intros Hplain. split; [|split].
  - pose proof (parse_args_after_plain name plain [] Hplain) as Hp.
    rewrite app_nil_r in Hp. rewrite Hp. cbn [arg_loop List.length].
    assert (Hge : (Z.of_nat (1 + List.length plain)
                   <? Z.of_nat (S (List.length plain))) = false)
      by (apply Z.ltb_ge; lia).
    rewrite Hge. reflexivity.
  - intros a b tail Ha.
    rewrite (parse_args_after_plain name plain (a :: b :: tail) Hplain).
    destruct (argv_after_plain name plain a (b :: tail)) as [Harg Hlt].
    cbn [arg_loop]. rewrite Hlt, Harg, Ha. cbn [negb].
    assert (Hnot_last :
              (Z.of_nat (1 + List.length plain)
               <? Z.of_nat (List.length (name :: plain ++ a :: b :: tail)) - 1)
              = true).
    { apply Z.ltb_lt. cbn [List.length]. rewrite length_app.
      cbn [List.length]. lia. }
    rewrite Hnot_last. reflexivity.
  - intros a tail Ha Hunknown.
    rewrite (parse_args_after_plain name plain (a :: tail) Hplain).
    destruct (argv_after_plain name plain a tail) as [Harg Hlt].
    cbn [arg_loop]. rewrite Hlt, Harg, Ha. cbn [negb].
    unfold known_option, plain_option in Hunknown.
    repeat (apply orb_false_iff in Hunknown;
            destruct Hunknown as [Hunknown ?]).
    repeat match goal with
           | Hx : String.eqb a _ = false |- _ => rewrite Hx; clear Hx
           end.
    reflexivity.
Qed.

(** X16: help and version end the scan.  After any options without
    argument, [-h] and [--help] return 0 with the help text and
    [--version] returns 0 with the version text, whatever follows on the
    command line: the later arguments are not examined and no trace file
    is needed. *)
Theorem help_and_version_end_the_scan `{Libipt}
    (name : string) (plain tail : list string) :
  forallb plain_option plain = true ->
  parse_args (name :: plain ++ "-h" :: tail) = Some (args_return 0 msg_help)
  /\ parse_args (name :: plain ++ "--help" :: tail)
     = Some (args_return 0 msg_help)
  /\ parse_args (name :: plain ++ "--version" :: tail)
     = Some (args_return 0 msg_version).
Proof.
  intros Hplain. split; [|split].
  - rewrite (parse_args_after_plain name plain ("-h" :: tail) Hplain).
    destruct (argv_after_plain name plain "-h" tail) as [Harg Hlt].
    cbn [arg_loop]. rewrite Hlt, Harg. reflexivity.
  - rewrite (parse_args_after_plain name plain ("--help" :: tail) Hplain).
    destruct (argv_after_plain name plain "--help" tail) as [Harg Hlt].
    cbn [arg_loop]. rewrite Hlt, Harg. reflexivity.
  - rewrite (parse_args_after_plain name plain ("--version" :: tail) Hplain).
    destruct (argv_after_plain name plain "--version" tail) as [Harg Hlt].
    cbn [arg_loop]. rewrite Hlt, Harg. reflexivity.
Qed.

(** X17: the [--cpu] option.  On a command line of options without
    argument around one [--cpu arg], ending in the trace file: [auto]
    switches the cpu override off and leaves the cpu zeroed; [none] keeps
    the override on with the zeroed cpu; any other argument is handed to
    [pt_cpu_parse], whose failure ends [main] with 1 and whose success
    gives the cpu to use, with the override on.  The argument is taken as
    it is, also when it looks like an option, and the options on both
    sides of it set their flags. *)
Theorem cpu_option_selects_the_cpu `{Libipt}
    (name : string) (plain : list string) (arg : string)
    (plain2 : list string) (file : string) :
  forallb plain_option plain = true ->
  forallb plain_option plain2 = true ->
  String.prefix "-" file = false ->
  let argv := name :: plain ++ "--cpu" :: arg :: plain2 ++ [file] in
  if String.eqb arg "auto" then
    exists options,
      parse_args argv = Some (args_file options file)
      /\ has_flag (flags options) ptd_use_cpu = false
      /\ cpu options = cpu_zero
      /\ flags_as_given (flags options) (plain ++ plain2)
  else if String.eqb arg "none" then
    exists options,
      parse_args argv = Some (args_file options file)
      /\ has_flag (flags options) ptd_use_cpu = true
      /\ cpu options = cpu_zero
      /\ flags_as_given (flags options) (plain ++ plain2)
  else if fst (pt_cpu_parse arg) <? 0 then
    parse_args argv = Some (args_return 1 msg_cpu)
  else
    exists options,
      parse_args argv = Some (args_file options file)
      /\ has_flag (flags options) ptd_use_cpu = true
      /\ cpu options = snd (pt_cpu_parse arg)
      /\ flags_as_given (flags options) (plain ++ plain2).
Proof.
  intros Hplain Hplain2 Hfile argv. subst argv.
  set (rest := "--cpu" :: arg :: plain2 ++ [file]).
  set (f1 := flags_after plain (flags default_options)).
  pose proof (flags_as_given_default plain Hplain) as Hf1. fold f1 in Hf1.
  rewrite (parse_args_after_plain name plain rest Hplain). fold f1.
  destruct (argv_after_plain name plain "--cpu" (arg :: plain2 ++ [file]))
    as [Harg Hlt].
  assert (Hnext : argv_at (name :: plain ++ rest)
                    (Z.of_nat (1 + List.length plain) + 1) = Some arg).
  { replace (Z.of_nat (1 + List.length plain) + 1)
      with (Z.of_nat (List.length ((name :: plain) ++ ["--cpu"])))
      by (rewrite length_app; cbn [List.length]; lia).
    replace (name :: plain ++ rest)
      with (((name :: plain) ++ ["--cpu"]) ++ arg :: plain2 ++ [file])
      by (rewrite <- app_assoc; reflexivity).
    apply argv_at_middle. }
  rewrite (arg_loop_cpu _ _ _ _ arg Hlt Harg Hnext).
  assert (Hargv : name :: plain ++ rest
                  = ((name :: plain) ++ ["--cpu"; arg]) ++ plain2 ++ [file])
    by (rewrite <- app_assoc; reflexivity).
  assert (Hidx : Z.of_nat (1 + List.length plain) + 1 + 1
                 = Z.of_nat (List.length ((name :: plain) ++ ["--cpu"; arg])))
    by (rewrite length_app; cbn [List.length]; lia).
  assert (Hfuel : (List.length plain2 < List.length rest)%nat).
  { subst rest. cbn [List.length]. rewrite length_app. lia. }
  subst rest. rewrite Hargv, Hidx.
  destruct (String.eqb arg "auto").
  { rewrite arg_loop_plain_file by assumption.
    eexists. split; [reflexivity|].
    cbn [flags cpu with_flags with_cpu default_options].
    destruct (flags_as_given_after_cpu plain plain2 f1
                (clear_flag f1 ptd_use_cpu) Hplain2 Hf1 (or_intror eq_refl))
      as [Hg Hc].
    rewrite has_flag_clear_use_cpu in Hc. auto. }
  destruct (String.eqb arg "none").
  { rewrite arg_loop_plain_file by assumption.
    eexists. split; [reflexivity|].
    cbn [flags cpu with_flags with_cpu default_options].
    destruct (flags_as_given_after_cpu plain plain2 f1
                (set_flag f1 ptd_use_cpu) Hplain2 Hf1 (or_introl eq_refl))
      as [Hg Hc].
    rewrite has_flag_set_use_cpu in Hc. auto. }
  destruct (fst (pt_cpu_parse arg) <? 0); [reflexivity|].
  rewrite arg_loop_plain_file by assumption.
  eexists. split; [reflexivity|].
  cbn [flags cpu with_flags with_cpu default_options].
  destruct (flags_as_given_after_cpu plain plain2 f1
              (set_flag f1 ptd_use_cpu) Hplain2 Hf1 (or_introl eq_refl))
    as [Hg Hc].
  rewrite has_flag_set_use_cpu in Hc. auto.
Qed.

(** X18: [main] from the command line to the output.  For a command line
    of options without argument and a trace file: when the file cannot be
    read, [main] returns -1 and writes nothing to the standard output; and
    when [--quiet] is among the options, a run of [main] that returns
    leaves the standard output as it was, whatever the trace holds. *)
Theorem main_on_a_command_line `{Libipt}
    (fuel : nat) (junk : indeterminate) (map_pt : string -> option (list Z))
    (name : string) (plain : list string) (file : string) (w : world) :
  forallb plain_option plain = true ->
  String.prefix "-" file = false ->
  (map_pt file = None ->
   exists w',
     main fuel junk map_pt (name :: plain ++ [file]) w
     = Some (main_returns (-1) w')
     /\ w_stdout w' = w_stdout w)
  /\ (given "--quiet" plain = true ->
      forall r,
        main fuel junk map_pt (name :: plain ++ [file]) w = Some r ->
        exists code w',
          r = main_returns code w' /\ w_stdout w' = w_stdout w).
Proof.
  intros Hplain Hfile.
  assert (Hparse : parse_args (name :: plain ++ [file])
                   = Some (args_file
                             (with_flags
                                (flags_after plain (flags default_options))
                                default_options) file)).
  { unfold parse_args.
    change (name :: plain ++ [file]) with ([name] ++ plain ++ [file]).
    apply (arg_loop_plain_file plain [name]); try assumption.
    cbn [app List.length]. rewrite length_app. lia. }
  split.
  - intros Hnone. unfold main. rewrite Hparse, Hnone.
    eexists. split; [reflexivity|]. destruct w. reflexivity.
  - intros Hquiet r Hmain. unfold main in Hmain. rewrite Hparse in Hmain.
    destruct (map_pt file) as [pt|].
    + destruct (dump fuel junk pt _ w) as [[e w']|] eqn:Hd; [|discriminate].
      inversion Hmain; subst. exists (- e), w'. split; [reflexivity|].
      apply dump_quiet in Hd; [exact Hd|].
      destruct (flags_as_given_default plain Hplain) as [Hq _].
      cbn [flags with_flags]. rewrite Hq. exact Hquiet.
    + inversion Hmain; subst. eexists _, _. split; [reflexivity|].
      destruct w. reflexivity.
Qed.

(** ** A trace without errors *)

Section CleanTrace.
Context `{Libipt}.
Variable options : ptdump_options.
Variable config : config_t.
Variable width : Z.
Hypothesis not_quiet : has_flag (flags options) ptd_quiet = false.
Hypothesis eos_is_an_error : pte_eos <> pte_ok.

Lemma decode_packet_ok (s : dump_state) (e offset r : Z) (p : packet)
    (d' : pt_packet_decoder) :
  pt_pkt_get_offset (decoder s) = (e, offset) ->
  0 <= e ->
  pt_pkt_next (decoder s) = (r, p, d') ->
  pt_errcode r = pte_ok ->
  size p <> 0 ->
  decode_packet s
  = Next tt (set_pkt p (set_decoder d' (set_pos offset (set_errcode e s)))).
Proof.
  intros Hoff He Hnext Hok Hsize.
  unfold decode_packet. unfold_stmts. rewrite Hoff.
  assert (Hlt : (e <? 0) = false) by (apply Z.ltb_ge; exact He).
  rewrite Hlt, Hnext, Hok.
  assert (Hne : (pte_ok =? pte_eos) = false)
    by (apply Z.eqb_neq; congruence).
  rewrite Hne, Z.eqb_refl. cbn [negb].
  assert (Hnz : (size p =? 0) = false) by (apply Z.eqb_neq; exact Hsize).
  rewrite Hnz. reflexivity.
Qed.

Lemma decode_packet_eos (s : dump_state) (e offset r : Z) (p : packet)
    (d' : pt_packet_decoder) :
  pt_pkt_get_offset (decoder s) = (e, offset) ->
  0 <= e ->
  pt_pkt_next (decoder s) = (r, p, d') ->
  pt_errcode r = pte_eos ->
  decode_packet s
  = Jump (set_pc (L_out exit_eos)
            (set_pkt p (set_decoder d' (set_pos offset (set_errcode e s))))).
Proof.
  intros Hoff He Hnext Heos.
  unfold decode_packet. unfold_stmts. rewrite Hoff.
  assert (Hlt : (e <? 0) = false) by (apply Z.ltb_ge; exact He).
  rewrite Hlt, Hnext, Heos, Z.eqb_refl. reflexivity.
Qed.

Lemma sync_ok (s : dump_state) (e : Z) (d' : pt_packet_decoder) :
  pt_pkt_sync_forward (decoder s) = (e, d') ->
  0 <= e ->
  sync s
  = Next tt (set_last_ip pt_last_ip_init (set_errcode e (set_decoder d' s))).
Proof.
  intros Hsync He. unfold sync. unfold_stmts. rewrite Hsync.
  assert (Hlt : (e <? 0) = false) by (apply Z.ltb_ge; exact He).
  rewrite Hlt. reflexivity.
Qed.

(** One turn of the loop on an item. *)
Lemma step_item (s : dump_state) (offset : Z) (p : packet)
    (d' : pt_packet_decoder) :
  pc s = L_loop ->
  no_faults (io s) ->
  (exists e r,
      pt_pkt_get_offset (decoder s) = (e, offset) /\ 0 <= e
      /\ pt_pkt_next (decoder s) = (r, p, d') /\ pt_errcode r = pte_ok) ->
  renders options width (offset, p, d') ->
  pc (step options config width s) = L_loop
  /\ no_faults (io (step options config width s))
  /\ decoder (step options config width s) = d'
  /\ w_stdout (io (step options config width s))
     = w_stdout (io s) +++ item_line options width (offset, p, d')
  /\ w_stderr (io (step options config width s)) = w_stderr (io s).
Proof.
  intros Hpc Hw (e & r & Hoff & He & Hnext & Hok) [Hsize Hshown].
  rewrite step_loop by exact Hpc.
  rewrite (decode_packet_ok s e offset r p d' Hoff He Hnext Hok Hsize).
  set (s1 := set_pkt p (set_decoder d' (set_pos offset (set_errcode e s)))).
  assert (Hk : pkt s1 = p) by reflexivity.
  assert (Hp : pos s1 = offset) by reflexivity.
  assert (Hd : decoder s1 = d') by reflexivity.
  assert (Hio : io s1 = io s) by reflexivity.
  unfold item_line.
  destruct (skipped options p) eqn:Hsk.
  - assert (Hskip : skip_pad options s1 = Jump (set_pc L_loop s1)).
    { unfold skip_pad. unfold_stmts. rewrite Hk.
      unfold skipped in Hsk. rewrite Hsk. reflexivity. }
    rewrite (bind_jump _ _ _ _ Hskip).
    rewrite append_empty_r. repeat split; try reflexivity. exact Hw.
  - assert (Hskip : skip_pad options s1 = Next tt s1).
    { unfold skip_pad. unfold_stmts. rewrite Hk.
      unfold skipped in Hsk. rewrite Hsk. reflexivity. }
    rewrite (bind_next _ _ _ _ _ Hskip).
    destruct (Hshown eq_refl) as (Hfit & Hname & Hr & Hnoip & Hn).
    destruct (render_packet_stage options config width s1
                (fst (pt_print_fill_payload_str p))
                (snd (pt_print_fill_payload_str p)) (Z.to_nat (size p)))
      as (t & Ht & Ho & Herr & Hnf & _ & Hdt & _ & _ & Hpct & _);
      try assumption.
    + rewrite Hk. destruct (pt_print_fill_payload_str p); reflexivity.
    + rewrite Hk. lia.
    + lia.
    + rewrite Ht, Hk, Hp, Hd in *.
      repeat split; try assumption; reflexivity.
Qed.

(** The loop over the items, up to the end of the stream. *)
Lemma run_clean_items (items : list item) :
  forall (s : dump_state) (fuel : nat) d_end e_end off_end r_end p_end d_last,
    pc s = L_loop ->
    no_faults (io s) ->
    decodes (decoder s) items d_end ->
    Forall (renders options width) items ->
    pt_pkt_get_offset d_end = (e_end, off_end) ->
    0 <= e_end ->
    pt_pkt_next d_end = (r_end, p_end, d_last) ->
    pt_errcode r_end = pte_eos ->
    (List.length items < fuel)%nat ->
    exists t,
      run options config width fuel s = Some t
      /\ errcode t = e_end
      /\ w_stdout (io t) = w_stdout (io s) +++ trace_text options width items
      /\ w_stderr (io t) = w_stderr (io s).
Proof.
  induction items as [|[[offset p] d'] items IH];
    intros s fuel d_end e_end off_end r_end p_end d_last
      Hpc Hw Hdec Hall Hoff He Hnext Heos Hfuel.
  - cbn [decodes] in Hdec. subst d_end.
    destruct fuel as [|fuel]; [cbn in Hfuel; lia|].
    cbn [run]. rewrite Hpc.
    rewrite step_loop by exact Hpc.
    rewrite (decode_packet_eos s e_end off_end r_end p_end d_last
               Hoff He Hnext Heos).
    eexists. split; [destruct fuel; reflexivity|].
    cbn [trace_text fold_right]. rewrite append_empty_r.
    repeat split; reflexivity.
  - cbn [decodes] in Hdec. destruct Hdec as [Hitem Hdec].
    inversion Hall as [|? ? Hrenders Hrest]; subst.
    destruct fuel as [|fuel]; [cbn in Hfuel; lia|].
    cbn [List.length] in Hfuel.
    destruct (step_item s offset p d' Hpc Hw Hitem Hrenders)
      as (Hpc' & Hw' & Hd' & Ho' & He').
    cbn [run]. rewrite Hpc.
    rewrite <- Hd' in Hdec.
    destruct (IH (step options config width s) fuel d_end e_end off_end
                r_end p_end d_last Hpc' Hw' Hdec Hrest Hoff He Hnext Heos
                ltac:(lia)) as (t & Hrun & Hcode & Hout & Herr).
    exists t. split; [exact Hrun|]. split; [exact Hcode|].
    rewrite Hout, Herr, Ho', He'. cbn [trace_text fold_right].
    rewrite append_assoc. split; reflexivity.
Qed.
End CleanTrace.

(** X19: a trace without errors.  When the decoder is allocated and
    synchronized, the packets up to the end of the stream are decoded
    without error and with nonzero size, no write fails, quiet mode is off
    and none of the packets shown gets last-IP text or a negative payload
    status, [dump] returns: the standard output is extended by one line
    per packet, in the order of the packets, with nothing for the PAD
    packets that [--no-pad] skips; nothing goes to the standard error; and
    the value returned is the status of the last offset query. *)
Theorem clean_trace_is_dumped `{Libipt} (options : ptdump_options)
    (junk : indeterminate) (buffer : list Z) (w : world)
    (d d0 d_end d_last : pt_packet_decoder) (e0 e_end off_end r_end : Z)
    (p_end : packet) (items : list item) (fuel : nat) :
  has_flag (flags options) ptd_quiet = false ->
  pte_eos <> pte_ok ->
  no_faults w ->
  pt_pkt_alloc_decoder (dump_config buffer options) = Some d ->
  pt_pkt_sync_forward d = (e0, d0) ->
  0 <= e0 ->
  decodes d0 items d_end ->
  Forall (renders options (dump_col_offset_width buffer options)) items ->
  pt_pkt_get_offset d_end = (e_end, off_end) ->
  0 <= e_end ->
  pt_pkt_next d_end = (r_end, p_end, d_last) ->
  pt_errcode r_end = pte_eos ->
  (List.length items + 2 <= fuel)%nat ->
  exists w',
    dump fuel junk buffer options w = Some (e_end, w')
    /\ w_stdout w'
       = w_stdout w
         +++ trace_text options (dump_col_offset_width buffer options) items
    /\ w_stderr w' = w_stderr w.
Proof.
  intros Hq Hne Hw Halloc Hsync He0 Hdec Hall Hoff He Hnext Heos Hfuel.
  unfold dump. rewrite Halloc. unfold dump_run.
  destruct fuel as [|fuel]; [lia|].
  cbn [run dump_entry pc].
  set (s0 := dump_entry junk d w).
  assert (Hstep : step options (dump_config buffer options)
                    (dump_col_offset_width buffer options) s0
                  = set_pc L_loop
                      (set_last_ip pt_last_ip_init
                         (set_errcode e0 (set_decoder d0 s0)))).
  { unfold step. change (pc s0) with L_sync. cbv iota.
    rewrite after_bind, (sync_ok s0 e0 d0 Hsync He0). reflexivity. }
  change (mk_state L_sync 0 d (junk_last_ip junk) packet_zero (junk_str junk)
            (junk_pos junk) 0 0 0 w) with s0.
  rewrite Hstep.
  destruct (run_clean_items options (dump_config buffer options)
              (dump_col_offset_width buffer options) Hq Hne items
              (set_pc L_loop
                 (set_last_ip pt_last_ip_init
                    (set_errcode e0 (set_decoder d0 s0))))
              fuel d_end e_end off_end r_end p_end d_last)
    as (t & Hrun & Hcode & Hout & Herr);
    try assumption; try reflexivity; try lia.
  rewrite Hrun. exists (io t). rewrite Hcode. auto.
Qed.

(** * The engine on a concrete trace *)

Import Sample.

Lemma sample_get_offset_status (d : decoder_state) : fst (get_offset d) <= 0.
Proof. unfold get_offset. destruct (d_synced d); simpl; lia. Qed.

Lemma find_marker_range (n : nat) (buffer : list Z) :
  forall from i,
    find_marker n buffer from = Some i ->
    from <= i < Z.of_nat (List.length buffer).
Proof.
  induction n as [|n IH]; intros from i Hfind; cbn [find_marker] in Hfind.
  - discriminate.
  - destruct (Z.leb_spec (Z.of_nat (List.length buffer)) from); [discriminate|].
    destruct (byte_at buffer from =? 130).
    + inversion Hfind; subst. lia.
    + apply IH in Hfind. lia.
Qed.

Lemma sample_decoder_progress : decoder_progress (H := libipt) mu.
Proof.
  split.
  - intros d. cbn [pt_pkt_sync_forward libipt]. unfold sync_forward.
    destruct (find_marker _ _ _) as [i|] eqn:Hfind; cbn [fst snd];
      [intros _|lia].
    apply find_marker_range in Hfind. unfold mu. cbn [d_buffer d_pos d_synced].
    destruct (d_synced d); lia.
  - intros d. cbn [pt_pkt_next pt_errcode pte_ok libipt]. unfold next.
    set (len := Z.of_nat (List.length (d_buffer d))).
    assert (Hsame : (mu d <= mu d)%nat) by lia.
    assert (Hadv : forall n, 0 <= n -> d_pos d + n <= len ->
               (mu (advance d n) <= mu d)%nat
               /\ (0 < n -> (mu (advance d n) < mu d)%nat)).
    { intros n Hn Hlen. unfold mu, advance. cbn [d_buffer d_pos d_synced].
      fold len. split; [lia|]. intros Hpos. lia. }
    destruct (Z.leb_spec len (d_pos d)); [exact Hsame|].
    destruct (byte_at (d_buffer d) (d_pos d) =? 130);
      [apply (Hadv 1); lia|].
    destruct (byte_at (d_buffer d) (d_pos d) =? 0);
      [apply (Hadv 1); lia|].
    destruct (byte_at (d_buffer d) (d_pos d) =? 255);
      [apply (Hadv 0); lia|].
    destruct (opcode_type _) as [t|]; [|exact Hsame].
    destruct (Z.shiftr _ 5 =? 0); [apply (Hadv 1); lia|].
    destruct (Z.shiftr _ 5 =? 1); [|exact Hsame].
    destruct (Z.ltb_spec len (d_pos d + 3)); [exact Hsame|].
    apply (Hadv 3); lia.
Qed.

(** C1, a run: the offset print of the first packet fails; the packet is
    abandoned with a diagnostic at its offset. *)
Lemma checked_print_failures_resync_witness :
  render_packet all_columns (config_of all_columns) (width_of all_columns)
    first_offset_fails
  = Jump (print_failed "cannot print offset" (fresh []) first_offset_fails).
Proof.
  apply (proj1 (checked_print_failures_resync all_columns
                  (config_of all_columns) (width_of all_columns))
           first_offset_fails (-1) (fresh []));
    [reflexivity|reflexivity|lia].
Defined.

(** C1 as stated fails, in the raw-bytes column and at the newline.
    With the type and payload columns only, the print of the terminating
    newline returns a negative value for the first packet, and yet the
    packet's rendering runs to its end, reports no error and stays in the
    loop; the whole run then ends with status 0 and an empty error stream.
    With raw bytes shown, the print of the packet's byte fails: the line
    is written without it and nothing is reported either. *)
Lemma unchecked_print_failures_go_unreported :
  (fst (print plain_columns (String "010"%char "")
          (io (after ((print_offset plain_columns (width_of plain_columns) ;;
                       print_packet_type plain_columns ;;
                       print_payload plain_columns ;;
                       print_last_ip plain_columns (config_of plain_columns) ;;
                       print_raw_bytes plain_columns) first_newline_fails))))
   < 0
   /\ match render_packet plain_columns (config_of plain_columns)
              (width_of plain_columns) first_newline_fails with
      | Next _ t => w_stderr (io t) = [] /\ pc t = L_loop /\ errcode t = 0
      | Jump _ => False
      end
   /\ option_map (fun r => (fst r, w_stderr (snd r)))
        (dump 30 junk [130; 0] plain_columns (fresh [false; false; true]))
      = Some (0, []))
  /\ (fst (print raw_columns "82"
             (io (after ((print_offset raw_columns (width_of raw_columns) ;;
                          print_packet_type raw_columns ;;
                          print_payload raw_columns ;;
                          print_last_ip raw_columns (config_of raw_columns) ;;
                          print_col_separator raw_columns ;;
                          do_print raw_columns "[") first_raw_byte_fails))))
      < 0
      /\ match render_packet raw_columns (config_of raw_columns)
                 (width_of raw_columns) first_raw_byte_fails with
         | Next _ t =>
             w_stderr (io t) = [] /\ pc t = L_loop /\ errcode t = 0
             /\ w_stdout (io t) = "psb  []" +++ String "010"%char ""
         | Jump _ => False
         end).
Proof. vm_compute. repeat split; reflexivity. Qed.


(** C4, a run: the third packet of the trace has size zero. *)
Lemma zero_size_packet_resyncs_witness :
  pc (step all_columns (config_of all_columns) (width_of all_columns)
        before_zero) = L_sync
  /\ errcode (step all_columns (config_of all_columns) (width_of all_columns)
                before_zero) = -5.
Proof.
  pose proof (zero_size_packet_resyncs all_columns (config_of all_columns)
                (width_of all_columns) before_zero 0 4 0
                (mk_packet (ppt_other 1) 0 (mk_ip 0 0))
                (mk_decoder trace 4 4 true)
                eq_refl eq_refl ltac:(lia) eq_refl eq_refl
                ltac:(discriminate) eq_refl) as Hz.
  cbv zeta in Hz. split; apply Hz.
Defined.

(** C5 as stated fails: when the rendering of the second packet starts,
    the used widths still hold what the first packet left in them. *)
Lemma used_widths_are_not_reset :
  match (decode_packet ;; skip_pad all_columns) before_tip with
  | Next _ t =>
      col_offset_width_used t = 1
      /\ col_packettype_width_used t = 3
      /\ col_payload_width_used t = 4294967295
  | Jump _ => False
  end.
Proof. vm_compute. repeat split; reflexivity. Qed.

(** C6, a run: at the resynchronization the tracker holds the address of
    the TIP before it; the step from [sync:] starts the loop afresh. *)
Lemma sync_resets_last_ip_witness :
  last_ip at_resync = mk_last_ip 4660 true false
  /\ pc (step all_columns (config_of all_columns) (width_of all_columns)
           at_resync) = L_loop
  /\ last_ip (step all_columns (config_of all_columns) (width_of all_columns)
                at_resync) = mk_last_ip 0 false false.
Proof.
  split; [reflexivity|].
  pose proof (proj1 (proj2 (sync_resets_last_ip all_columns
                              (config_of all_columns) (width_of all_columns)))
                at_resync eq_refl ltac:(vm_compute; discriminate)) as Hs.
  split; apply Hs.
Defined.

(** C7, a run: the raw bytes of the TIP packet. *)
Lemma raw_bytes_column_format_witness :
  String.concat " " (raw_groups (decoder tip_after_last_ip) 0 3) = "2d 34 12"
  /\ exists t,
      print_raw_column all_columns tip_after_last_ip = Next tt t
      /\ w_stdout (io t)
         = w_stdout (io tip_after_last_ip)
           +++ "[" +++ String.concat " "
                         (raw_groups (decoder tip_after_last_ip) 0 3) +++ "]".
Proof.
  split; [reflexivity|].
  apply (proj1 (raw_bytes_column_format all_columns tip_after_last_ip 3
                  eq_refl eq_refl eq_refl eq_refl ltac:(lia))).
Defined.

(** C8, a run: the last-IP text of the TIP packet. *)
Lemma last_ip_text_format_witness :
  exists t,
    print_last_ip all_columns (config_of all_columns) tip_after_payload
    = Next tt t
    /\ w_stdout (io t)
       = w_stdout (io tip_after_payload) +++ ", ip=0x0000000000001234".
Proof.
  apply (proj1 (proj2 (proj2 (proj2 (last_ip_text_format all_columns
                                       (config_of all_columns)))))
           eq_refl tip_after_payload 0 0 4660 (mk_last_ip 4660 true false)
           eq_refl eq_refl eq_refl eq_refl
           ltac:(discriminate) ltac:(discriminate) ltac:(discriminate)
           eq_refl ltac:(discriminate) ltac:(discriminate)
           (or_intror eq_refl)).
Defined.

(** C9, a run: the trace dumped in quiet mode. *)
Lemma quiet_writes_nothing_witness :
  has_flag (flags quiet_columns) ptd_quiet = true
  /\ exists w',
      dump 30 junk trace quiet_columns (fresh []) = Some (0, w')
      /\ w_stdout w' = "".
Proof.
  split; [reflexivity|].
  eexists. split; [vm_compute; reflexivity|].
  apply (proj2 (proj2 (quiet_writes_nothing quiet_columns eq_refl))
           30%nat junk trace (fresh []) 0 _).
  vm_compute. reflexivity.
Defined.

(** C10, a run: [ptdump --cpu]. *)
Lemma cpu_as_last_argument_reads_past_end_witness :
  parse_args ["ptdump"; "--cpu"] = Some (args_missing 2)
  /\ argv_at ["ptdump"; "--cpu"] 2 = None.
Proof.
  apply (proj1 (cpu_as_last_argument_reads_past_end 1 ["ptdump"; "--cpu"] 1
                  default_options ltac:(lia) eq_refl eq_refl)).
Defined.


(** ** The further properties on the sample inputs *)

(** X1, a run: a type name printed to fresh streams. *)
Lemma print_result_witness :
  w_stderr (snd (print plain_columns "tip" (fresh []))) = []
  /\ fst (print plain_columns "tip" (fresh [])) <> 0.
Proof.
  pose proof (print_result plain_columns "tip" (fresh []) eq_refl eq_refl)
    as Hp.
  split; apply Hp.
Defined.

(** X2, a run: a type name of three characters is filled up to nine. *)
Lemma fillup_column_pads_to_width_witness :
  exists w',
    fillup_column plain_columns 3 9 (start plain_columns [])
    = Next tt (set_io w' (start plain_columns []))
    /\ w_stdout w'
       = w_stdout (io (start plain_columns []))
         +++ replicate (Z.to_nat (9 - 3)) " "
    /\ 3 + strlen (replicate (Z.to_nat (9 - 3)) " ") = Z.max 3 9
    /\ (9 <= 3 -> w_stdout w' = w_stdout (io (start plain_columns [])))
    /\ w_stderr w' = w_stderr (io (start plain_columns [])).
Proof.
  apply (fillup_column_pads_to_width plain_columns 3 9
           (start plain_columns []) eq_refl eq_refl ltac:(lia)).
Defined.

(** X3, a run: a buffer of 4096 bytes has offsets of four digits. *)
Lemma calc_col_offset_width_counts_hex_digits_witness :
  calc_col_offset_width 4096 = strlen (fmt_x 4096)
  /\ 1 <= calc_col_offset_width 4096 <= 16
  /\ (forall S', 0 <= S' <= 4096 ->
        calc_col_offset_width S' <= calc_col_offset_width 4096).
Proof.
  apply (calc_col_offset_width_counts_hex_digits 4096
           ltac:(split; [discriminate|reflexivity])).
Defined.

(** X4, a run: the offset column of the first packet of [trace]. *)
Lemma offset_column_is_exact_witness :
  strlen (fmt_0star_x (dump_col_offset_width trace all_columns)
            (pos psb_decoded))
  = dump_col_offset_width trace all_columns
  /\ hex_value (fmt_0star_x (dump_col_offset_width trace all_columns)
                  (pos psb_decoded))
     = pos psb_decoded.
Proof.
  assert (Hpos : 0 <= pos psb_decoded <= Z.of_nat (List.length trace))
    by (vm_compute; split; discriminate).
  pose proof (offset_column_is_exact all_columns trace psb_decoded
                eq_refl eq_refl eq_refl (or_intror Hpos)) as Hp.
  split; apply Hp.
Defined.

(** X5, a run: the type and payload columns of the TIP packet. *)
Lemma type_and_payload_columns_witness :
  exists t,
    (print_packet_type all_columns ;; print_payload all_columns)
      (decoded all_columns before_tip) = Next tt t
    /\ w_stdout (io t)
       = w_stdout (io (decoded all_columns before_tip))
         +++ "tip" +++ "        " +++ "1: ????????????1234".
Proof.
  destruct (type_and_payload_columns all_columns
              (decoded all_columns before_tip) 19 "1: ????????????1234"
              eq_refl eq_refl ltac:(split; reflexivity) eq_refl
              ltac:(discriminate))
    as (t & Ht & Ho & _).
  exists t. split; [exact Ht|exact Ho].
Defined.

(** X6, a run: the raw-bytes column of the TIP packet. *)
Lemma raw_bytes_column_position_witness :
  exists t,
    print_raw_bytes all_columns tip_after_last_ip = Next tt t
    /\ w_stdout (io t)
       = w_stdout (io tip_after_last_ip)
         +++ raw_gap (col_packettype_width_used tip_after_last_ip)
               (col_payload_width_used tip_after_last_ip)
         +++ raw_column (decoder tip_after_last_ip) 3
    /\ w_stderr (io t) = w_stderr (io tip_after_last_ip).
Proof.
  apply (proj1 (raw_bytes_column_position all_columns tip_after_last_ip 3
                  eq_refl eq_refl eq_refl eq_refl ltac:(lia))).
Defined.

(** X7, a run: the marker packet, which has no payload text. *)
Lemma empty_payload_leaves_raw_bytes_unaligned_witness :
  exists t,
    (print_payload raw_columns ;;
     print_last_ip raw_columns (config_of raw_columns) ;;
     print_raw_bytes raw_columns) psb_decoded_raw = Next tt t
    /\ col_payload_width_used t = 2 ^ 32 - pte_internal
    /\ w_stdout (io t)
       = w_stdout (io psb_decoded_raw) +++ "  "
         +++ raw_column (decoder psb_decoded_raw) 1
    /\ w_stderr (io t) = w_stderr (io psb_decoded_raw).
Proof.
  apply (empty_payload_leaves_raw_bytes_unaligned raw_columns
           (config_of raw_columns) psb_decoded_raw 1
           eq_refl eq_refl (or_introl eq_refl) eq_refl
           ltac:(split; [reflexivity|discriminate]) eq_refl eq_refl
           ltac:(lia)).
Defined.

(** X8, a run: the PAD of [clean] with [--no-pad]. *)
Lemma pad_packets_are_skipped_witness :
  io (step no_pad_columns (dump_config clean no_pad_columns)
        (dump_col_offset_width clean no_pad_columns) before_pad)
  = io before_pad
  /\ pc (step no_pad_columns (dump_config clean no_pad_columns)
           (dump_col_offset_width clean no_pad_columns) before_pad)
     = L_loop.
Proof.
  apply (proj2 (pad_packets_are_skipped no_pad_columns
                  (dump_config clean no_pad_columns)
                  (dump_col_offset_width clean no_pad_columns) before_pad
                  0 1 0 (mk_packet ppt_pad 1 (mk_ip 0 0))
                  (mk_decoder clean 2 1 true)
                  eq_refl eq_refl eq_refl ltac:(discriminate) eq_refl eq_refl
                  ltac:(discriminate) ltac:(discriminate) eq_refl)).
Defined.

(** X9, a run: the turn of the loop that writes the line of the TIP. *)
Lemma output_only_for_decoded_packets_witness :
  pc before_tip = L_loop
  /\ has_flag (flags all_columns) ptd_quiet = false
  /\ size (snd (fst (pt_pkt_next (decoder before_tip)))) <> 0.
Proof.
  assert (Hout : w_stdout (io (step all_columns (config_of all_columns)
                                 (width_of all_columns) before_tip))
                 <> w_stdout (io before_tip))
    by (vm_compute; discriminate).
  pose proof (output_only_for_decoded_packets all_columns
                (config_of all_columns) (width_of all_columns) before_tip
                Hout) as Hp.
  split; [apply Hp|]. split; apply Hp.
Defined.

(** X10, a run: a buffer without the marker. *)
Lemma failed_sync_ends_dump_witness :
  exists w',
    dump 1 junk [0; 13] plain_columns (fresh []) = Some (-7, w')
    /\ w_stdout w' = ""
    /\ w_stderr w'
       = [DiagErr "sync error" 7; DiagErr "could not determine offset" 3].
Proof.
  apply (proj2 (failed_sync_ends_dump plain_columns
                  (dump_config [0; 13] plain_columns)
                  (dump_col_offset_width [0; 13] plain_columns) unsynced
                  (-7) (-3) 0 (mk_decoder [0; 13] 0 0 false)
                  eq_refl eq_refl ltac:(reflexivity) eq_refl)
           0%nat junk [0; 13] (fresh []) eq_refl).
Defined.

(** X11, a run: a TIP whose address bytes the tracker rejects. *)
Lemma last_ip_tracker_failures_witness :
  print_last_ip all_columns (config_of all_columns) bad_ipc
  = Jump
      (set_pc L_sync
         (set_errcode (- pte_bad_packet)
            (set_io
               (fprintf_stderr
                  (DiagErrPos "failed to update last-IP" pte_bad_packet
                     (pos bad_ipc)) (io bad_ipc))
               (set_last_ip (last_ip bad_ipc) bad_ipc)))).
Proof.
  apply (proj1 (proj2 (last_ip_tracker_failures all_columns
                         (config_of all_columns) bad_ipc (-5) (-11) 0
                         (last_ip bad_ipc)
                         eq_refl eq_refl eq_refl eq_refl
                         ltac:(discriminate) ltac:(discriminate)
                         ltac:(discriminate)))
           eq_refl).
Defined.

(** X12, a run: the marker packet with a formatter that fails on it. *)
Lemma payload_formatter_failure_leaves_partial_line_witness :
  exists t,
    render_packet (H := strict_formatter) strict_plain
      (dump_config (H := strict_formatter) trace strict_plain) 1 strict_psb
    = Jump t
    /\ pc t = L_sync
    /\ errcode t = -1
    /\ w_stdout (io t) = "psb"
    /\ w_stderr (io t) = [DiagPos "cannot print packet payload" 0].
Proof.
  apply (payload_formatter_failure_leaves_partial_line
           (H := strict_formatter) strict_plain
           (dump_config (H := strict_formatter) trace strict_plain) 1
           strict_psb strict_psb (-1) ""
           eq_refl eq_refl eq_refl ltac:(split; reflexivity) eq_refl
           ltac:(reflexivity)).
Defined.

(** X13, a run: the line of the first packet of [trace]. *)
Lemma line_of_a_packet_witness :
  exists t,
    render_packet all_columns (config_of all_columns) (width_of all_columns)
      psb_decoded = Next tt t
    /\ w_stdout (io t)
       = w_stdout (io psb_decoded)
         +++ packet_line all_columns (width_of all_columns) (pos psb_decoded)
               "psb" 0 "" (decoder psb_decoded) 1
    /\ w_stderr (io t) = w_stderr (io psb_decoded)
    /\ pc t = pc psb_decoded
    /\ last_ip t = last_ip psb_decoded.
Proof.
  assert (Hfit : has_flag (flags all_columns) ptd_show_offset = true ->
                 1 <= width_of all_columns <= 16
                 /\ 0 <= pos psb_decoded < 16 ^ width_of all_columns)
    by (intros _; vm_compute; repeat split; discriminate).
  assert (Hname : 0 < strlen (pt_print_packet_type_str (pkt psb_decoded))
                  < 2 ^ 32)
    by (vm_compute; split; reflexivity).
  assert (Hr : 0 <= 0) by discriminate.
  apply (line_of_a_packet all_columns (config_of all_columns)
           (width_of all_columns) psb_decoded 0 "" 1
           eq_refl eq_refl Hfit Hname eq_refl Hr
           (or_introl eq_refl) eq_refl ltac:(lia)).
Defined.

(** X14, a run: three options, one of them twice, and the trace file. *)
Lemma plain_options_set_their_flags_witness :
  exists options,
    parse_args ["ptdump"; "--raw"; "--no-offset"; "--raw"; "trace.pt"]
    = Some (args_file options "trace.pt")
    /\ cpu options = cpu_zero
    /\ has_flag (flags options) ptd_quiet = false
    /\ has_flag (flags options) ptd_no_pad = false
    /\ has_flag (flags options) ptd_show_offset = false
    /\ has_flag (flags options) ptd_show_raw_bytes = true
    /\ has_flag (flags options) ptd_show_last_ip = false
    /\ has_flag (flags options) ptd_fixed_offset_width = false
    /\ has_flag (flags options) ptd_use_cpu = true.
Proof.
  apply (plain_options_set_their_flags "ptdump"
           ["--raw"; "--no-offset"; "--raw"] "trace.pt" eq_refl eq_refl).
Defined.

(** X15, a run: [--quiet] alone, two file names, and a misspelt option. *)
Lemma rejected_command_lines_witness :
  parse_args ["ptdump"; "--quiet"] = Some (args_return (-1) msg_no_file)
  /\ parse_args ["ptdump"; "--quiet"; "a.pt"; "b.pt"]
     = Some (args_return (-1) msg_usage)
  /\ parse_args ["ptdump"; "--quiet"; "--last-ip"; "a.pt"]
     = Some (args_return (-1) msg_usage).
Proof.
  pose proof (rejected_command_lines "ptdump" ["--quiet"] eq_refl)
    as (Hnone & Htwo & Hunknown).
  split; [exact Hnone|]. split.
  - exact (Htwo "a.pt" "b.pt" [] eq_refl).
  - exact (Hunknown "--last-ip" ["a.pt"] eq_refl eq_refl).
Defined.

(** X16, a run: [--help] in front of an unknown option. *)
Lemma help_and_version_end_the_scan_witness :
  parse_args ["ptdump"; "--raw"; "--help"; "--bogus"]
  = Some (args_return 0 msg_help).
Proof.
  apply (proj1 (proj2 (help_and_version_end_the_scan "ptdump" ["--raw"]
                         ["--bogus"] eq_refl))).
Defined.

(** X17, a run: [--cpu auto] between two options. *)
Lemma cpu_option_selects_the_cpu_witness :
  exists options,
    parse_args ["ptdump"; "--raw"; "--cpu"; "auto"; "--lastip"; "trace.pt"]
    = Some (args_file options "trace.pt")
    /\ has_flag (flags options) ptd_use_cpu = false
    /\ cpu options = cpu_zero
    /\ flags_as_given (flags options) (["--raw"] ++ ["--lastip"]).
Proof.
  apply (cpu_option_selects_the_cpu "ptdump" ["--raw"] "auto" ["--lastip"]
           "trace.pt" eq_refl eq_refl eq_refl).
Defined.

(** X18, a run: a trace file that cannot be read. *)
Lemma main_on_a_command_line_witness :
  exists w',
    main 30 junk (fun _ => None) ["ptdump"; "--quiet"; "trace.pt"] (fresh [])
    = Some (main_returns (-1) w')
    /\ w_stdout w' = w_stdout (fresh []).
Proof.
  apply (proj1 (main_on_a_command_line 30 junk (fun _ => None) "ptdump"
                  ["--quiet"] "trace.pt" (fresh []) eq_refl eq_refl)
           eq_refl).
Defined.

(** X19, a run: [clean] dumped with the offset and the raw bytes and
    without the PAD. *)
Lemma clean_trace_is_dumped_witness :
  exists w',
    dump 5 junk clean no_pad_columns (fresh []) = Some (0, w')
    /\ w_stdout w'
       = w_stdout (fresh [])
         +++ trace_text no_pad_columns
               (dump_col_offset_width clean no_pad_columns) clean_items
    /\ w_stderr w' = w_stderr (fresh []).
Proof.
  assert (Hdec : decodes (mk_decoder clean 0 0 true) clean_items
                   (mk_decoder clean 3 2 true)).
  { cbn [decodes clean_items].
    repeat (split; [exists 0, 0; repeat split; discriminate|]).
    reflexivity. }
  assert (Hall : Forall (renders no_pad_columns
                           (dump_col_offset_width clean no_pad_columns))
                   clean_items).
  { repeat constructor; try discriminate;
      vm_compute; repeat split; discriminate. }
  assert (Hzero : 0 <= 0) by discriminate.
  apply (clean_trace_is_dumped no_pad_columns junk clean (fresh [])
           (mk_decoder clean 0 0 false) (mk_decoder clean 0 0 true)
           (mk_decoder clean 3 2 true) (mk_decoder clean 3 2 true)
           0 0 3 (-7) no_packet clean_items 5
           eq_refl ltac:(discriminate) eq_refl eq_refl eq_refl Hzero
           Hdec Hall eq_refl Hzero eq_refl eq_refl ltac:(cbn; lia)).
Defined.
